(** * vEdge_IP_Report: the public-address report, modelled and verified

    A shallow embedding of [get_vEdgeAddresses.py] and [store_creds.py].

    - Python [str] values are Rocq [string]s holding the UTF-8 encoding of
      the text; [bytes] values are [string]s too (one [ascii] per byte).
    - Values decoded from JSON are the inductive [json]; a Python [dict]
      is an association list in insertion order.
    - A raised exception is the outcome [Raise]; logging is a state (the
      list of records emitted so far) threaded by the monad [M].
    - The standard-library and third-party calls the two files make
      ([ipaddress], [base64], [zlib], [requests], the worksheet of
      [xlsxwriter], the file system) are modelled in modules of their own,
      after CPython 3.11 and requests 2.27 or later.
    - [main] runs on a [world]: the log, the files and the paths that
      cannot be opened, the level and the handlers of the root logger,
      threaded by the monad [W].  The command line and the two answers
      typed at the prompts of [store_creds] are arguments of [main].
    - [parse_arguments] follows [argparse] of CPython 3.11 on the parser
      the program builds; a command line the model does not follow to
      the end is [Unmodelled], never a result. *)

From Stdlib Require Import List String Ascii ZArith Lia Bool Arith.
Import ListNotations.

Set Implicit Arguments.
Set Warnings "-register-all".

Local Open Scope string_scope.
Local Open Scope list_scope.
Local Open Scope Z_scope.

(* ================================================================== *)
(** * Python values, exceptions, dictionaries *)
(* ================================================================== *)

(** The subclasses of [requests.RequestException] the program can meet. *)
Inductive request_exception : Type :=
| ConnectionError
| HTTPError
| ReadTimeout
| TooManyRedirects
| InvalidURL
| JSONDecodeError.

(** Exception classes.  [AddressValueError], [NetmaskValueError],
    [UnicodeEncodeError], [UnicodeDecodeError] and [binascii_Error] are
    subclasses of [ValueError]; [RequestException] is a subclass of
    [OSError], whose alias is [IOError]; [OverflowError] and
    [RecursionError] are subclasses of none of these. *)
Inductive exn : Type :=
| KeyError (key : string)
| TypeError
| AttributeError
| IndexError
| ValueError
| AddressValueError
| NetmaskValueError
| UnicodeEncodeError
| UnicodeDecodeError
| binascii_Error
| zlib_error
| OSError
| RequestException (sub : request_exception)
| OverflowError
| RecursionError.

(** [isinstance(e, ValueError)] *)
Definition is_ValueError (e : exn) : bool :=
  match e with
  | ValueError | AddressValueError | NetmaskValueError
  | UnicodeEncodeError | UnicodeDecodeError | binascii_Error => true
  | _ => false
  end.

(** [isinstance(e, IOError)] *)
Definition is_IOError (e : exn) : bool :=
  match e with
  | OSError | RequestException _ => true
  | _ => false
  end.

(** [isinstance(e, requests.RequestException)] *)
Definition is_RequestException (e : exn) : bool :=
  match e with
  | RequestException _ => true
  | _ => false
  end.

(** What evaluating a Python expression or statement gives.  [OutOfModel]
    marks the two places where Python goes on and this model does not:
    a dictionary key that is hashable but not a [str] (a number, a
    boolean, [None]), and [str()] of a value that is not a [str]. *)
Inductive outcome (A : Type) : Type :=
| Return (a : A)
| Raise (e : exn)
| OutOfModel.

Arguments Raise {A} e.
Arguments OutOfModel {A}.

Definition obind {A B} (o : outcome A) (k : A -> outcome B) : outcome B :=
  match o with
  | Return a => k a
  | Raise e => Raise e
  | OutOfModel => OutOfModel
  end.

Declare Scope py_scope.
Delimit Scope py_scope with py.
Notation "x <- o ;; k" := (obind o (fun x => k))
  (at level 61, o at next level, right associativity) : py_scope.
Local Open Scope py_scope.

(** [[f(x) for x in l]], stopping at the first exception. *)
Fixpoint omap {A B} (f : A -> outcome B) (l : list A) : outcome (list B) :=
  match l with
  | [] => Return []
  | x :: rest =>
      y <- f x ;;
      ys <- omap f rest ;;
      Return (y :: ys)
  end.

(** A value decoded from JSON.  A float is carried by its IEEE-754 bits:
    the program never computes with one. *)
Inductive json : Type :=
| JNull
| JBool (b : bool)
| JInt (n : Z)
| JFloat (bits : Z)
| JStr (s : string)
| JList (l : list json)
| JDict (m : list (string * json)).

(** A [dict] with [str] keys, in insertion order. *)
Definition pydict : Type := list (string * json).

(** [d.get(k)]: [None] stands for the absent key. *)
Fixpoint dict_get (k : string) (d : pydict) : option json :=
  match d with
  | [] => None
  | (k', v) :: rest => if String.eqb k k' then Some v else dict_get k rest
  end.

(** [d[k] = v]: an existing key keeps its place, a new key goes last. *)
Fixpoint dict_set (k : string) (v : json) (d : pydict) : pydict :=
  match d with
  | [] => [(k, v)]
  | (k', v') :: rest =>
      if String.eqb k k' then (k', v) :: rest else (k', v') :: dict_set k v rest
  end.

Definition dict_keys (d : pydict) : list string := map fst d.
Definition dict_values (d : pydict) : list json := map snd d.

(** The representation invariant of a [dict]: no key twice. *)
Definition wf_dict (d : pydict) : Prop := NoDup (dict_keys d).

(** [v[k]] for a [str] key [k]: only a [dict] can be subscripted so. *)
Definition py_getitem (v : json) (k : string) : outcome json :=
  match v with
  | JDict m =>
      match dict_get k m with
      | Some x => Return x
      | None => Raise (KeyError k)
      end
  | _ => Raise TypeError
  end.

(** [v.get(k, default)]: only a [dict] has the method. *)
Definition py_get (v : json) (k : string) (default : json) : outcome json :=
  match v with
  | JDict m =>
      match dict_get k m with
      | Some x => Return x
      | None => Return default
      end
  | _ => Raise AttributeError
  end.

(** [v[key] = x] where [key] is a value of the program: an unhashable key
    is a [TypeError], a [str] key updates the dictionary. *)
Definition py_setitem (v : json) (key : json) (x : json) : outcome json :=
  match v with
  | JDict m =>
      match key with
      | JStr k => Return (JDict (dict_set k x m))
      | JList _ | JDict _ => Raise TypeError
      | _ => OutOfModel
      end
  | _ => Raise TypeError
  end.

(** [iter(v)], as a [for] loop consumes it.  A string yields its
    characters (here one per byte: any character is a [str]). *)
Definition py_iter (v : json) : outcome (list json) :=
  match v with
  | JList l => Return l
  | JDict m => Return (map (fun kv => JStr (fst kv)) m)
  | JStr s => Return (map (fun c => JStr (String c EmptyString)) (list_ascii_of_string s))
  | _ => Raise TypeError
  end.

(** [x in l] for a list [l] of strings. *)
Definition py_in (x : json) (l : list string) : bool :=
  match x with
  | JStr s => existsb (String.eqb s) l
  | _ => false
  end.

(** [bool(v)] *)
Definition py_truthy (v : json) : bool :=
  match v with
  | JNull => false
  | JBool b => b
  | JInt n => negb (n =? 0)
  | JFloat bits => negb ((bits =? 0) || (bits =? 2 ^ 63))
  | JStr s => negb (String.eqb s "")
  | JList l => match l with [] => false | _ => true end
  | JDict m => match m with [] => false | _ => true end
  end.

(* ================================================================== *)
(** * Strings *)
(* ================================================================== *)

Module Str.

(** [s.split(sep)] for a separator of one character. *)
Fixpoint split (sep : ascii) (s : string) : list string :=
  match s with
  | EmptyString => [EmptyString]
  | String c rest =>
      if Ascii.eqb c sep then EmptyString :: split sep rest
      else match split sep rest with
           | [] => [String c EmptyString]
           | hd :: tl => String c hd :: tl
           end
  end.

(** [sep.join(parts)] *)
Fixpoint join (sep : string) (parts : list string) : string :=
  match parts with
  | [] => ""
  | [p] => p
  | p :: rest => (p ++ sep ++ join sep rest)%string
  end.

(** [c in s] *)
Definition contains (c : ascii) (s : string) : bool :=
  existsb (Ascii.eqb c) (list_ascii_of_string s).

(** [s.partition(sep)]: the part before the first [sep], whether [sep]
    was found, and the part after it. *)
Fixpoint partition (sep : ascii) (s : string) : string * bool * string :=
  match s with
  | EmptyString => (EmptyString, false, EmptyString)
  | String c rest =>
      if Ascii.eqb c sep then (EmptyString, true, rest)
      else let '(a, found, b) := partition sep rest in (String c a, found, b)
  end.

Definition code (c : ascii) : Z := Z.of_nat (nat_of_ascii c).

Definition is_digit (c : ascii) : bool := (48 <=? code c) && (code c <=? 57).

(** [s.isascii() and s.isdigit()]: not empty, decimal digits only. *)
Definition isascii_isdigit (s : string) : bool :=
  negb (String.eqb s "") && forallb is_digit (list_ascii_of_string s).

(** [int(s)] for a string of decimal digits. *)
Definition int10 (s : string) : Z :=
  fold_left (fun acc c => 10 * acc + (code c - 48)) (list_ascii_of_string s) 0.

Definition hex_value (c : ascii) : option Z :=
  let n := code c in
  if (48 <=? n) && (n <=? 57) then Some (n - 48)
  else if (65 <=? n) && (n <=? 70) then Some (n - 55)
  else if (97 <=? n) && (n <=? 102) then Some (n - 87)
  else None.

Definition is_hex_digit (c : ascii) : bool :=
  match hex_value c with Some _ => true | None => false end.

(** [int(s, 16)] for a string of hexadecimal digits. *)
Definition int16 (s : string) : Z :=
  fold_left (fun acc c => 16 * acc + match hex_value c with Some d => d | None => 0 end)
            (list_ascii_of_string s) 0.

Definition hex_digit (d : Z) : ascii :=
  ascii_of_nat (Z.to_nat (if d <? 10 then 48 + d else 87 + d)).

(** ['%x' % n] for [0 <= n < 65536]. *)
Definition hex4 (n : Z) : string :=
  let ds := [n / 4096 mod 16; n / 256 mod 16; n / 16 mod 16; n mod 16] in
  let fix strip (l : list Z) : list Z :=
    match l with
    | 0 :: (_ :: _) as rest => strip rest
    | _ => l
    end in
  string_of_list_ascii (map hex_digit (strip ds)).

Definition of_codes (l : list Z) : string :=
  string_of_list_ascii (map (fun n => ascii_of_nat (Z.to_nat n)) l).

Definition reverse (s : string) : string :=
  string_of_list_ascii (rev (list_ascii_of_string s)).

(** The characters [str.strip()] removes ([str.isspace]), in UTF-8:
    U+0009 to U+000D, U+001C to U+0020, U+0085, U+00A0, U+1680, U+2000 to
    U+200A, U+2028, U+2029, U+202F, U+205F and U+3000. *)
Definition whitespace : list string :=
  map of_codes
    ([[9]; [10]; [11]; [12]; [13]; [28]; [29]; [30]; [31]; [32];
      [194; 133]; [194; 160]; [225; 154; 128]]
     ++ map (fun b => [226; 128; b]) [128; 129; 130; 131; 132; 133; 134; 135; 136; 137; 138]
     ++ [[226; 128; 168]; [226; 128; 169]; [226; 128; 175]; [226; 129; 159];
         [227; 128; 128]]).

(** [s] without its prefix [p], when it has it. *)
Fixpoint drop_prefix (p s : string) : option string :=
  match p, s with
  | EmptyString, _ => Some s
  | String a p', String b s' => if Ascii.eqb a b then drop_prefix p' s' else None
  | String _ _, EmptyString => None
  end.

Fixpoint first_some {A B} (f : A -> option B) (l : list A) : option B :=
  match l with
  | [] => None
  | x :: rest => match f x with Some y => Some y | None => first_some f rest end
  end.

Fixpoint strip_leading (ws : list string) (fuel : nat) (s : string) : string :=
  match fuel with
  | O => s
  | S fuel' =>
      match first_some (fun w => drop_prefix w s) ws with
      | Some s' => strip_leading ws fuel' s'
      | None => s
      end
  end.

Definition lstrip (s : string) : string :=
  strip_leading whitespace (String.length s) s.

Definition rstrip (s : string) : string :=
  reverse (strip_leading (map reverse whitespace) (String.length s) (reverse s)).

(** [s.strip()] *)
Definition strip (s : string) : string := rstrip (lstrip s).

(** The bytes that may follow the lead byte [b] of a well-formed UTF-8
    sequence: how many, and the range of the first of them. *)
Definition utf8_tail (b : Z) : option (nat * Z * Z) :=
  if b <? 128 then Some (0%nat, 0, 0)
  else if b <? 194 then None
  else if b <? 224 then Some (1%nat, 128, 191)
  else if b =? 224 then Some (2%nat, 160, 191)
  else if b =? 237 then Some (2%nat, 128, 159)
  else if b <? 240 then Some (2%nat, 128, 191)
  else if b =? 240 then Some (3%nat, 144, 191)
  else if b <? 244 then Some (3%nat, 128, 191)
  else if b =? 244 then Some (3%nat, 128, 143)
  else None.

(** Whether [l] is well-formed UTF-8; [pending] continuation bytes are
    still due, the next of them between [lo] and [hi]. *)
Fixpoint utf8_valid (l : list Z) (pending : nat) (lo hi : Z) : bool :=
  match l with
  | [] => Nat.eqb pending 0
  | b :: rest =>
      match pending with
      | O =>
          match utf8_tail b with
          | Some (n, lo, hi) => utf8_valid rest n lo hi
          | None => false
          end
      | S n => (lo <=? b) && (b <=? hi) && utf8_valid rest n 128 191
      end
  end.

(** [data.decode()]: the text whose UTF-8 encoding is [data]. *)
Definition decode_utf8 (data : string) : outcome string :=
  if utf8_valid (map code (list_ascii_of_string data)) 0 0 0 then Return data
  else Raise UnicodeDecodeError.

End Str.

(* ================================================================== *)
(** * The [ipaddress] module of the standard library *)
(* ================================================================== *)

Module ipaddress.

Inductive version : Type := V4 | V6.

Definition max_prefixlen (v : version) : Z :=
  match v with V4 => 32 | V6 => 128 end.

Definition ALL_ONES (v : version) : Z := 2 ^ max_prefixlen v - 1.

(** An [IPv4Network] or [IPv6Network] object. *)
Record network : Type := Network {
  net_version : version;
  network_address : Z;
  netmask : Z;
  prefixlen : Z
}.

(** The mask argument of [_make_netmask]: the text after the ['/'], or the
    integer [_max_prefixlen] when there is none. *)
Inductive mask_arg : Type :=
| MaskInt (n : Z)
| MaskStr (s : string).

(** [_BaseV4._parse_octet] *)
Definition parse_octet (octet_str : string) : outcome Z :=
  if String.eqb octet_str "" then Raise ValueError
  else if negb (Str.isascii_isdigit octet_str) then Raise ValueError
  else if (3 <? Z.of_nat (String.length octet_str)) then Raise ValueError
  else if negb (String.eqb octet_str "0") && String.prefix "0" octet_str then Raise ValueError
  else
    let octet_int := Str.int10 octet_str in
    if 255 <? octet_int then Raise ValueError else Return octet_int.

(** [int.from_bytes(octets, 'big')] *)
Definition from_bytes_big (l : list Z) : Z :=
  fold_left (fun acc b => 256 * acc + b) l 0.

(** [_BaseV4._ip_int_from_string] *)
Definition ip_int_from_string4 (ip_str : string) : outcome Z :=
  if String.eqb ip_str "" then Raise AddressValueError
  else
    let octets := Str.split "." ip_str in
    if negb (Nat.eqb (List.length octets) 4) then Raise AddressValueError
    else
      match omap parse_octet octets with
      | Return l => Return (from_bytes_big l)
      | Raise e => if is_ValueError e then Raise AddressValueError else Raise e
      | OutOfModel => OutOfModel
      end.

(** [_BaseV6._parse_hextet]; [int('', 16)] is a [ValueError]. *)
Definition parse_hextet (hextet_str : string) : outcome Z :=
  if negb (forallb Str.is_hex_digit (list_ascii_of_string hextet_str)) then Raise ValueError
  else if (4 <? Z.of_nat (String.length hextet_str)) then Raise ValueError
  else if String.eqb hextet_str "" then Raise ValueError
  else Return (Str.int16 hextet_str).

(** [IPvNAddress(address)] for an integer. *)
Definition check_int_address (v : version) (address : Z) : outcome Z :=
  if address <? 0 then Raise AddressValueError
  else if ALL_ONES v <? address then Raise AddressValueError
  else Return address.

(** [IPv4Address(address)._ip] for a string. *)
Definition IPv4Address (address : string) : outcome Z :=
  if Str.contains "/" address then Raise AddressValueError
  else ip_int_from_string4 address.

(** The search for ['::'] in [_BaseV6._ip_int_from_string]: the index of
    the empty part among [parts[1:-1]], [Raise] when there are two. *)
Fixpoint find_skip (inner : list string) (i : nat) (skip_index : option nat)
  : outcome (option nat) :=
  match inner with
  | [] => Return skip_index
  | p :: rest =>
      if String.eqb p "" then
        match skip_index with
        | Some _ => Raise AddressValueError
        | None => find_skip rest (S i) (Some i)
        end
      else find_skip rest (S i) skip_index
  end.

(** [ip_int <<= 16; ip_int |= parse_hextet(p)] over the parts [ps]. *)
Fixpoint shift_in (ps : list string) (ip_int : Z) : outcome Z :=
  match ps with
  | [] => Return ip_int
  | p :: rest =>
      h <- parse_hextet p ;;
      shift_in rest (Z.lor (Z.shiftl ip_int 16) h)
  end.

(** [_BaseV6._ip_int_from_string] *)
Definition ip_int_from_string6 (ip_str : string) : outcome Z :=
  if String.eqb ip_str "" then Raise AddressValueError
  else
    let parts := Str.split ":" ip_str in
    if (List.length parts <? 3)%nat then Raise AddressValueError
    else
      parts <-
        (let last_part := List.last parts "" in
         if Str.contains "." last_part then
           match IPv4Address last_part with
           | Return ipv4_int =>
               Return (removelast parts ++
                       [Str.hex4 (Z.land (Z.shiftr ipv4_int 16) 65535);
                        Str.hex4 (Z.land ipv4_int 65535)])
           | Raise e => Raise AddressValueError
           | OutOfModel => OutOfModel
           end
         else Return parts) ;;
      let n := List.length parts in
      if (9 <? n)%nat then Raise AddressValueError
      else
        skip_index <- find_skip (removelast (tl parts)) 1 None ;;
        let first_empty := String.eqb (hd "" parts) "" in
        let last_empty := String.eqb (List.last parts "") "" in
        counts <-
          match skip_index with
          | Some skip =>
              let parts_hi := skip in
              let parts_lo := (n - skip - 1)%nat in
              parts_hi <-
                (if first_empty then
                   let parts_hi := (parts_hi - 1)%nat in
                   if negb (Nat.eqb parts_hi 0) then Raise AddressValueError
                   else Return parts_hi
                 else Return parts_hi) ;;
              parts_lo <-
                (if last_empty then
                   let parts_lo := (parts_lo - 1)%nat in
                   if negb (Nat.eqb parts_lo 0) then Raise AddressValueError
                   else Return parts_lo
                 else Return parts_lo) ;;
              let parts_skipped := 8 - Z.of_nat (parts_hi + parts_lo) in
              if parts_skipped <? 1 then Raise AddressValueError
              else Return (parts_hi, parts_lo, parts_skipped)
          | None =>
              if negb (Nat.eqb n 8) then Raise AddressValueError
              else if first_empty then Raise AddressValueError
              else if last_empty then Raise AddressValueError
              else Return (n, 0%nat, 0)
          end ;;
        let '(parts_hi, parts_lo, parts_skipped) := counts in
        match
          (ip_int <- shift_in (firstn parts_hi parts) 0 ;;
           let ip_int := Z.shiftl ip_int (16 * parts_skipped) in
           shift_in (skipn (n - parts_lo) parts) ip_int)
        with
        | Return ip_int => Return ip_int
        | Raise e => if is_ValueError e then Raise AddressValueError else Raise e
        | OutOfModel => OutOfModel
        end.

(** [_BaseV6._split_scope_id], keeping the address part only. *)
Definition split_scope_id (ip_str : string) : outcome string :=
  let '(addr, sep, scope_id) := Str.partition "%" ip_str in
  if negb sep then Return addr
  else if String.eqb scope_id "" || Str.contains "%" scope_id then Raise AddressValueError
  else Return addr.

(** [IPv6Address(address)._ip] for a string. *)
Definition IPv6Address (address : string) : outcome Z :=
  if Str.contains "/" address then Raise AddressValueError
  else
    addr_str <- split_scope_id address ;;
    ip_int_from_string6 addr_str.

(** [_count_righthand_zero_bits] *)
Definition bit_length (n : Z) : Z := if n =? 0 then 0 else Z.log2 n + 1.

Definition count_righthand_zero_bits (number bits : Z) : Z :=
  if number =? 0 then bits
  else Z.min bits (bit_length (Z.land (Z.lnot number) (number - 1))).

(** [_ip_int_from_prefix] *)
Definition ip_int_from_prefix (v : version) (prefixlen : Z) : Z :=
  Z.lxor (ALL_ONES v) (Z.shiftr (ALL_ONES v) prefixlen).

(** [_prefix_from_ip_int] *)
Definition prefix_from_ip_int (v : version) (ip_int : Z) : outcome Z :=
  let trailing_zeroes := count_righthand_zero_bits ip_int (max_prefixlen v) in
  let prefixlen := max_prefixlen v - trailing_zeroes in
  let leading_ones := Z.shiftr ip_int trailing_zeroes in
  let all_ones := Z.shiftl 1 prefixlen - 1 in
  if negb (leading_ones =? all_ones) then Raise ValueError
  else Return prefixlen.

(** [_prefix_from_prefix_string].  [int()] refuses a string of more than
    4300 digits with a [ValueError], leading zeros counted, and the
    method reports it as an invalid netmask. *)
Definition prefix_from_prefix_string (v : version) (prefixlen_str : string) : outcome Z :=
  if negb (Str.isascii_isdigit prefixlen_str) then Raise NetmaskValueError
  else if (4300 <? String.length prefixlen_str)%nat then Raise NetmaskValueError
  else
    let prefixlen := Str.int10 prefixlen_str in
    if negb ((0 <=? prefixlen) && (prefixlen <=? max_prefixlen v)) then Raise NetmaskValueError
    else Return prefixlen.

(** [_prefix_from_ip_string], used for IPv4 only. *)
Definition prefix_from_ip_string (ip_str : string) : outcome Z :=
  match ip_int_from_string4 ip_str with
  | Return ip_int =>
      match prefix_from_ip_int V4 ip_int with
      | Return p => Return p
      | _ =>
          match prefix_from_ip_int V4 (Z.lxor ip_int (ALL_ONES V4)) with
          | Return p => Return p
          | _ => Raise NetmaskValueError
          end
      end
  | Raise e => Raise NetmaskValueError
  | OutOfModel => OutOfModel
  end.

(** [_make_netmask]: the prefix length ([_netmask_cache] only memoises). *)
Definition make_netmask (v : version) (arg : mask_arg) : outcome Z :=
  match arg with
  | MaskInt prefixlen =>
      if negb ((0 <=? prefixlen) && (prefixlen <=? max_prefixlen v)) then Raise NetmaskValueError
      else Return prefixlen
  | MaskStr s =>
      match v with
      | V4 =>
          match prefix_from_prefix_string V4 s with
          | Return p => Return p
          | Raise NetmaskValueError => prefix_from_ip_string s
          | other => other
          end
      | V6 => prefix_from_prefix_string V6 s
      end
  end.

(** The argument of [ip_network]: an integer (a [bool] is one), or
    the text [str(address)]. *)
Inductive address_arg : Type :=
| AddrInt (n : Z)
| AddrStr (s : string).

(** [_split_addr_prefix], with [_split_optional_netmask] *)
Definition split_addr_prefix (v : version) (address : address_arg)
  : outcome (address_arg * mask_arg) :=
  match address with
  | AddrInt n => Return (AddrInt n, MaskInt (max_prefixlen v))
  | AddrStr s =>
      match Str.split "/" s with
      | [addr] => Return (AddrStr addr, MaskInt (max_prefixlen v))
      | [addr; mask] => Return (AddrStr addr, MaskStr mask)
      | _ => Raise AddressValueError
      end
  end.

(** [IPv4Network(address, strict)] and [IPv6Network(address, strict)] *)
Definition IPNetwork (v : version) (address : address_arg) (strict : bool) : outcome network :=
  am <- split_addr_prefix v address ;;
  let '(addr, mask) := am in
  ip <- match addr with
        | AddrInt n => check_int_address v n
        | AddrStr s => match v with V4 => IPv4Address s | V6 => IPv6Address s end
        end ;;
  prefixlen <- make_netmask v mask ;;
  let netmask := ip_int_from_prefix v prefixlen in
  let packed := ip in
  if negb (Z.land packed netmask =? packed) then
    if strict then Raise ValueError
    else Return (Network v (Z.land packed netmask) netmask prefixlen)
  else Return (Network v ip netmask prefixlen).

Definition IPv4Network := IPNetwork V4.
Definition IPv6Network := IPNetwork V6.

(** [ipaddress.ip_network(address, strict)] *)
Definition ip_network_arg (address : address_arg) (strict : bool) : outcome network :=
  match IPv4Network address strict with
  | Raise AddressValueError | Raise NetmaskValueError =>
      match IPv6Network address strict with
      | Raise AddressValueError | Raise NetmaskValueError => Raise ValueError
      | other => other
      end
  | other => other
  end.

(** What [ip_network] makes of a JSON value.  [str()] of [None], of a
    float, of a list or of a dict is ["None"], a float literal, or a text
    that starts with ['['] or ['{']: none of them has four decimal octets
    or three parts of hexadecimal digits, so both constructors refuse. *)
Definition ip_network (address : json) (strict : bool) : outcome network :=
  match address with
  | JStr s => ip_network_arg (AddrStr s) strict
  | JInt n => ip_network_arg (AddrInt n) strict
  | JBool b => ip_network_arg (AddrInt (if b then 1 else 0)) strict
  | JNull | JFloat _ | JList _ | JDict _ => Raise ValueError
  end.

(** [_BaseNetwork.__contains__] for an address given by version and
    integer. *)
Definition contains (self : network) (other_version : version) (other_ip : Z) : bool :=
  match net_version self, other_version with
  | V4, V4 | V6, V6 => Z.land other_ip (netmask self) =? network_address self
  | _, _ => false
  end.

Definition hostmask (self : network) : Z :=
  Z.lxor (netmask self) (ALL_ONES (net_version self)).

Definition broadcast_address (self : network) : Z :=
  Z.lor (network_address self) (hostmask self).

(** A constant of [_IPv4Constants] or [_IPv6Constants], built at import
    time from its text. *)
Definition constant (v : version) (s : string) : network :=
  match IPNetwork v (AddrStr s) true with
  | Return n => n
  | _ => Network v 0 0 0
  end.

Definition private_networks (v : version) : list network :=
  match v with
  | V4 => map (constant V4)
      ["0.0.0.0/8"; "10.0.0.0/8"; "127.0.0.0/8"; "169.254.0.0/16";
       "172.16.0.0/12"; "192.0.0.0/24"; "192.0.0.170/31"; "192.0.2.0/24";
       "192.168.0.0/16"; "198.18.0.0/15"; "198.51.100.0/24";
       "203.0.113.0/24"; "240.0.0.0/4"; "255.255.255.255/32"]
  | V6 => map (constant V6)
      ["::1/128"; "::/128"; "::ffff:0:0/96"; "64:ff9b:1::/48"; "100::/64";
       "2001::/23"; "2001:db8::/32"; "2002::/16"; "fc00::/7"; "fe80::/10"]
  end.

Definition private_networks_exceptions (v : version) : list network :=
  match v with
  | V4 => map (constant V4) ["192.0.0.9/32"; "192.0.0.10/32"]
  | V6 => map (constant V6)
      ["2001:1::1/128"; "2001:1::2/128"; "2001:3::/32"; "2001:4:112::/48";
       "2001:20::/28"; "2001:30::/28"]
  end.

(** [_BaseNetwork.is_private] *)
Definition is_private (self : network) : bool :=
  let v := net_version self in
  existsb (fun priv_network =>
             contains priv_network v (network_address self) &&
             contains priv_network v (broadcast_address self))
          (private_networks v)
  && forallb (fun network =>
                negb (contains network v (network_address self)) &&
                negb (contains network v (broadcast_address self)))
             (private_networks_exceptions v).

End ipaddress.

(* ================================================================== *)
(** * Logging and the monad of the program *)
(* ================================================================== *)

Inductive level : Type := INFO | ERROR.

(** A piece of a formatted message: literal text, or a value or an
    exception put in by an f-string. *)
Inductive frag : Type :=
| Lit (s : string)
| Fmt (v : json)
| FmtExn (e : exn).

(** One call of [logging.info] or [logging.error]. *)
Definition logrec : Type := (level * list frag)%type.

(** A computation that logs and may raise: it takes the records logged
    so far and gives its outcome with the records logged by then. *)
Definition M (A : Type) : Type := list logrec -> outcome A * list logrec.

Definition mret {A} (a : A) : M A := fun log => (Return a, log).

Definition mbind {A B} (m : M A) (k : A -> M B) : M B :=
  fun log =>
    match m log with
    | (Return a, log') => k a log'
    | (Raise e, log') => (Raise e, log')
    | (OutOfModel, log') => (OutOfModel, log')
    end.

Definition lift {A} (o : outcome A) : M A := fun log => (o, log).

Definition logging_info (msg : list frag) : M unit :=
  fun log => (Return tt, log ++ [(INFO, msg)]).

Definition logging_error (msg : list frag) : M unit :=
  fun log => (Return tt, log ++ [(ERROR, msg)]).

(** [try: m  except cls as e: handler(e)] *)
Definition try_except {A} (m : M A) (cls : exn -> bool) (handler : exn -> M A) : M A :=
  fun log =>
    match m log with
    | (Raise e, log') => if cls e then handler e log' else (Raise e, log')
    | other => other
    end.

Notation "x <~ m ;; k" := (mbind m (fun x => k))
  (at level 61, m at next level, right associativity) : py_scope.
Notation "m ;;; k" := (mbind m (fun _ => k))
  (at level 61, right associativity) : py_scope.

Definition tab : string := String (ascii_of_nat 9) "".
Definition newline : string := String (ascii_of_nat 10) "".
Definition cr : string := String (ascii_of_nat 13) "".

(** [enumerate(l, start)] *)
Fixpoint enumerate {A} (l : list A) (start : Z) : list (Z * A) :=
  match l with
  | [] => []
  | x :: rest => (start, x) :: enumerate rest (start + 1)
  end.

(* ================================================================== *)
(** * The [requests] library *)
(* ================================================================== *)

Module requests.

(** What [Response.json()] does on the body: it returns the decoded
    value, or raises.  On a body that is not JSON it raises
    [requests.exceptions.JSONDecodeError], a [RequestException]; what
    [json.loads] raises besides is passed on as it is: a plain
    [ValueError] for an integer of more than 4300 digits, a
    [RecursionError] for a nesting too deep. *)
Inductive decoding : Type :=
| Json (v : json)
| Fails (e : exn).

(** A body that is not JSON. *)
Definition not_json : decoding := Fails (RequestException JSONDecodeError).

(** A response: its status and its body. *)
Record Response : Type := {
  status_code : Z;
  body : decoding
}.

(** What [requests.get(url, auth=auth, verify=False)] does. *)
Inductive get_result : Type :=
| Raises (e : exn)
| Responds (r : Response).

(** [Response.raise_for_status()]: an [HTTPError] for a 4xx or a 5xx
    status, nothing for any other. *)
Definition raise_for_status (r : Response) : outcome unit :=
  if (400 <=? status_code r) && (status_code r <? 600)
  then Raise (RequestException HTTPError)
  else Return tt.

(** [Response.json()] *)
Definition json_of (r : Response) : outcome json :=
  match body r with
  | Json j => Return j
  | Fails e => Raise e
  end.

End requests.

(* ================================================================== *)
(** * get_vEdgeAddresses.py *)
(* ================================================================== *)

(** [is_ipv4] *)
Definition is_ipv4 (address : json) : outcome bool :=
  match ipaddress.ip_network address false with
  | Return _ => Return true
  | Raise e => if is_ValueError e then Return false else Raise e
  | OutOfModel => OutOfModel
  end.

(** [devices[key] = x] on the dictionary itself. *)
Definition dict_setitem (d : pydict) (key : json) (x : json) : outcome pydict :=
  d' <- py_setitem (JDict d) key x ;;
  match d' with
  | JDict m => Return m
  | _ => Raise TypeError
  end.

(** [{key: device.get(key, "N/A") for key in keys}] *)
Fixpoint device_data_of (device : json) (keys : list string) (acc : pydict) : outcome pydict :=
  match keys with
  | [] => Return acc
  | key :: rest =>
      v <- py_get device key (JStr "N/A") ;;
      device_data_of device rest (dict_set key v acc)
  end.

(** The loop of [format_device_data]. *)
Fixpoint format_loop (raw_devices : list json) (keys : list string) (devices : pydict)
  : outcome pydict :=
  match raw_devices with
  | [] => Return devices
  | device :: rest =>
      system_ip <- py_getitem device "system-ip" ;;
      device_data <- device_data_of device keys [] ;;
      devices <- dict_setitem devices system_ip (JDict device_data) ;;
      format_loop rest keys devices
  end.

(** [format_device_data] *)
Definition format_device_data (raw_devices : json) (keys : list string) : outcome pydict :=
  items <- py_iter raw_devices ;;
  format_loop items keys [].

(** [devices[device]['interfaces'] = value].  The record is an object
    shared with [devices], so the assignment shows in [devices]. *)
Definition set_interfaces (devices : pydict) (device : string) (value : json) : outcome pydict :=
  record <- py_getitem (JDict devices) device ;;
  record' <- py_setitem record (JStr "interfaces") value ;;
  dict_setitem devices (JStr device) record'.

(** [devices[device]['interfaces'][ifname] = address] *)
Definition set_interface (devices : pydict) (device : string) (ifname address : json)
  : outcome pydict :=
  record <- py_getitem (JDict devices) device ;;
  interfaces <- py_getitem record "interfaces" ;;
  interfaces' <- py_setitem interfaces ifname address ;;
  set_interfaces devices device interfaces'.

Section Program.

(** The controller, as [requests.get] sees it.  Within a run no URL is
    requested twice, so a function of the URL loses nothing. *)
Variable requests_get : string -> string * string -> requests.get_result.

(** [fetch_raw_json] *)
Definition fetch_raw_json (query_url : string) (auth : string * string) : M json :=
  try_except
    (response <~ lift (match requests_get query_url auth with
                       | requests.Raises e => Raise e
                       | requests.Responds r => Return r
                       end) ;;
     lift (requests.raise_for_status response) ;;;
     data <~ lift (requests.json_of response) ;;
     lift (py_get data "data" (JList [])))
    is_RequestException
    (fun e =>
       logging_error [Lit "HTTP request failed: "; FmtExn e] ;;;
       mret (JList [])).

(** The body of the inner loop of [add_interface_info]. *)
Definition interface_body (ignore_interface_list : list string) (device : string)
  (interface : json) (devices : pydict) : M pydict :=
  ifname <~ lift (py_getitem interface "ifname") ;;
  if py_in ifname ignore_interface_list then
    logging_info [Lit tab; Lit " "; Fmt ifname; Lit " is in the ignore list. Skipping."] ;;;
    mret devices
  else
    address <~ lift (py_getitem interface "ip-address") ;;
    valid <~ lift (is_ipv4 address) ;;
    if valid : bool then
      net <~ lift (ipaddress.ip_network address false) ;;
      if ipaddress.is_private net then
        logging_info [Lit tab; Lit " "; Fmt ifname; Lit " has a private IP: ";
                      Fmt address; Lit " Skipping."] ;;;
        mret devices
      else
        logging_info [Lit tab; Lit " "; Fmt ifname; Lit " has a public IP: ";
                      Fmt address; Lit " Adding to the list"] ;;;
        lift (set_interface devices device ifname address)
    else mret devices.

(** [for interface in interfaces: ...] *)
Fixpoint interface_loop (ignore_interface_list : list string) (device : string)
  (interfaces : list json) (devices : pydict) : M pydict :=
  match interfaces with
  | [] => mret devices
  | interface :: rest =>
      devices <~ interface_body ignore_interface_list device interface devices ;;
      interface_loop ignore_interface_list device rest devices
  end.

(** The body of the outer loop of [add_interface_info]. *)
Definition device_body (auth : string * string) (interface_query_base_url : string)
  (ignore_interface_list : list string) (deviceCount : Z)
  (deviceNum : Z) (device : string) (devices : pydict) : M pydict :=
  logging_info [Lit "Fetching interface information for device "; Fmt (JStr device);
                Lit " ("; Fmt (JInt deviceNum); Lit " of "; Fmt (JInt deviceCount); Lit ")"] ;;;
  let query_url := (interface_query_base_url ++ device)%string in
  interfaces <~ fetch_raw_json query_url auth ;;
  devices <~ lift (set_interfaces devices device (JDict [])) ;;
  items <~ lift (py_iter interfaces) ;;
  interface_loop ignore_interface_list device items devices.

(** [for deviceNum, device in enumerate(devices, 1): ...] *)
Fixpoint device_loop (auth : string * string) (interface_query_base_url : string)
  (ignore_interface_list : list string) (deviceCount : Z)
  (todo : list (Z * string)) (devices : pydict) : M pydict :=
  match todo with
  | [] => mret devices
  | (deviceNum, device) :: rest =>
      devices <~ device_body auth interface_query_base_url ignore_interface_list
                   deviceCount deviceNum device devices ;;
      device_loop auth interface_query_base_url ignore_interface_list deviceCount rest devices
  end.

(** [add_interface_info].  The dictionary it returns is the one it was
    given, updated in place. *)
Definition add_interface_info (devices : pydict) (auth : string * string)
  (interface_query_base_url : string) (ignore_interface_list : list string) : M pydict :=
  let deviceCount := Z.of_nat (List.length devices) in
  device_loop auth interface_query_base_url ignore_interface_list deviceCount
    (enumerate (dict_keys devices) 1) devices.

End Program.

(* ================================================================== *)
(** * The report writers *)
(* ================================================================== *)

Module xlsxwriter.

(** The three formats [export_to_excel] adds to the workbook. *)
Inductive format : Type := header_format | base_format | wrap_format.

(** One call [worksheet.write(row, col, value, format)] that returned. *)
Record write : Type := Write {
  row : Z;
  col : Z;
  value : json;
  cell_format : format
}.

(** The float of these IEEE-754 bits is a NaN or an infinity: its
    exponent is all ones. *)
Definition is_nan_or_inf (bits : Z) : bool :=
  Z.land (Z.shiftr bits 52) 2047 =? 2047.

(** An [int] that [float()] takes: below [2^1024 - 2^970] in absolute
    value, where rounding to the nearest [float] overflows. *)
Definition fits_a_float (n : Z) : bool :=
  Z.abs n <? 2 ^ 1024 - 2 ^ 970.

(** What [worksheet.write] makes of a value decoded from JSON, after
    XlsxWriter 3 with the options of [Workbook(filename)].  [None] is
    written as a blank, a [bool] as a boolean, a [str] as a text (or
    as the formula or the link it spells); a number goes to
    [write_number], which calls [isnan] on it: an [OverflowError] for
    an [int] too large for a [float], and a [TypeError] for a NaN or an
    infinity, which need the option [nan_inf_to_errors]; for a list or
    a dict, [float(value)] raises the [TypeError] that [write] turns
    into its own. *)
Definition accepts (value : json) : outcome unit :=
  match value with
  | JNull | JBool _ | JStr _ => Return tt
  | JInt n => if fits_a_float n then Return tt else Raise OverflowError
  | JFloat bits => if is_nan_or_inf bits then Raise TypeError else Return tt
  | JList _ | JDict _ => Raise TypeError
  end.

(** [worksheet.write(row, col, value, format)] *)
Definition worksheet_write (row col : Z) (value : json) (f : format) : outcome write :=
  match accepts value with
  | Return _ => Return (Write row col value f)
  | Raise e => Raise e
  | OutOfModel => OutOfModel
  end.

(** [worksheet.write_row(row, col, data, format)] for a list of texts:
    one [write] for each, in the columns from [col] on. *)
Definition write_row (row col : Z) (data : list string) (f : format) : list write :=
  map (fun cv => Write row (fst cv) (JStr (snd cv)) f) (enumerate data col).

End xlsxwriter.

(** [str(v)] where the program formats a value into a string it goes on
    to compute with. *)
Definition py_str (v : json) : outcome string :=
  match v with
  | JStr s => Return s
  | _ => OutOfModel
  end.

(** [sep.join(values)]: every item has to be a [str]. *)
Definition py_join (sep : string) (values : list json) : outcome string :=
  parts <- omap (fun v => match v with JStr s => Return s | _ => Raise TypeError end) values ;;
  Return (Str.join sep parts).

(** [v.items()], [v.keys()] and [v.values()]: only a [dict] has them. *)
Definition py_items (v : json) : outcome pydict :=
  match v with
  | JDict m => Return m
  | _ => Raise AttributeError
  end.

(** The cells of the [keys] columns of one row:
    [for header in keys: worksheet.write(row, col, data.get(header, "N/A"), base_format); col += 1] *)
Fixpoint excel_key_cells (data : json) (row col : Z) (keys : list string)
  : outcome (list xlsxwriter.write) :=
  match keys with
  | [] => Return []
  | header :: rest =>
      value <- py_get data header (JStr "N/A") ;;
      cell <- xlsxwriter.worksheet_write row col value xlsxwriter.base_format ;;
      cells <- excel_key_cells data row (col + 1) rest ;;
      Return (cell :: cells)
  end.

(** [for interface, ip in data['interfaces'].items(): ifnames += ...] *)
Fixpoint excel_interface_text (items : pydict) (ifnames ifaddresses : string)
  : outcome (string * string) :=
  match items with
  | [] => Return (ifnames, ifaddresses)
  | (interface, ip) :: rest =>
      ip_text <- py_str ip ;;
      excel_interface_text rest
        (ifnames ++ interface ++ newline)%string
        (ifaddresses ++ ip_text ++ newline)%string
  end.

(** One turn of the loop of [export_to_excel]: the cells of one device. *)
Definition excel_row (keys : list string) (row : Z) (data : json)
  : outcome (list xlsxwriter.write) :=
  cells <- excel_key_cells data row 0 keys ;;
  let col := Z.of_nat (List.length keys) in
  interfaces <- py_get data "interfaces" JNull ;;
  if py_truthy interfaces then
    interfaces <- py_getitem data "interfaces" ;;
    items <- py_items interfaces ;;
    texts <- excel_interface_text items "" "" ;;
    let '(ifnames, ifaddresses) := texts in
    names <- xlsxwriter.worksheet_write row col (JStr (Str.strip ifnames))
               xlsxwriter.wrap_format ;;
    addresses <- xlsxwriter.worksheet_write row (col + 1) (JStr (Str.strip ifaddresses))
                   xlsxwriter.wrap_format ;;
    Return (cells ++ [names; addresses])
  else Return cells.

(** [for device, data in devices.items(): ...; row += 1] *)
Fixpoint excel_rows (keys : list string) (row : Z) (devices : pydict)
  : outcome (list xlsxwriter.write) :=
  match devices with
  | [] => Return []
  | (device, data) :: rest =>
      cells <- excel_row keys row data ;;
      more <- excel_rows keys (row + 1) rest ;;
      Return (cells ++ more)
  end.

(** [export_to_excel]: the calls of [worksheet.write] it makes, in
    order. *)
Definition export_to_excel (devices : pydict) (keys : list string)
  : outcome (list xlsxwriter.write) :=
  let header :=
    xlsxwriter.write_row 0 0 keys xlsxwriter.header_format ++
    xlsxwriter.write_row 0 (Z.of_nat (List.length keys))
      ["interface-name"; "interface-IP"] xlsxwriter.header_format in
  rows <- excel_rows keys 1 devices ;;
  Return (header ++ rows).

Definition html_head : list frag :=
  [Lit newline; Lit "    <html>"; Lit newline; Lit "    <head>"; Lit newline;
   Lit "        <title>Cisco Public IPs</title>"; Lit newline;
   Lit "    </head>"; Lit newline; Lit "    <body>"; Lit newline;
   Lit "    <table border='1'>"; Lit newline; Lit "        <thead>"; Lit newline;
   Lit "    "].

Definition html_tail : list frag :=
  [Lit newline; Lit "        </tbody>"; Lit newline; Lit "    </table>"; Lit newline;
   Lit "    </body>"; Lit newline; Lit "    </html>"; Lit newline; Lit "    "].

(** [''.join([f"<th>{key}</th>" for key in keys]) + "<th>interface-name</th>..."] *)
Definition html_header_columns (keys : list string) : list frag :=
  flat_map (fun key => [Lit "<th>"; Lit key; Lit "</th>"]) keys ++
  [Lit "<th>interface-name</th><th>interface-IP</th></tr>"; Lit cr; Lit tab; Lit tab;
   Lit "</thead>"; Lit cr; Lit tab; Lit tab; Lit "<tbody>"].

(** The texts of [str(v)] and [repr(v)] exist: no [int] in [v] has more
    than 4300 digits, the limit of the conversion of an [int] to a
    decimal text. *)
Fixpoint has_text (v : json) : bool :=
  match v with
  | JInt n => Z.abs n <? 10 ^ 4300
  | JList l => forallb has_text l
  | JDict m => forallb (fun kv => has_text (snd kv)) m
  | _ => true
  end.

(** [f"{v}"]: the fragment, or the [ValueError] of the conversion. *)
Definition py_format (v : json) : outcome frag :=
  if has_text v then Return (Fmt v) else Raise ValueError.

(** [''.join([f"<td>{data.get(key, 'N/A')}</td>" for key in keys])] *)
Fixpoint html_row_data (data : json) (keys : list string) : outcome (list frag) :=
  match keys with
  | [] => Return []
  | key :: rest =>
      value <- py_get data key (JStr "N/A") ;;
      text <- py_format value ;;
      more <- html_row_data data rest ;;
      Return ([Lit "<td>"; text; Lit "</td>"] ++ more)
  end.

(** The text written for one device that has interfaces. *)
Definition html_row (keys : list string) (data : json) : outcome (list frag) :=
  row_data <- html_row_data data keys ;;
  interfaces <- py_getitem data "interfaces" ;;
  items <- py_items interfaces ;;
  interface_names <- py_join "<br>" (map JStr (dict_keys items)) ;;
  interfaces <- py_getitem data "interfaces" ;;
  items <- py_items interfaces ;;
  interface_addresses <- py_join "<br>" (dict_values items) ;;
  Return ([Lit tab; Lit tab; Lit tab; Lit "<tr>"] ++ row_data ++
          [Lit "<td>"; Lit interface_names; Lit "</td><td>"; Lit interface_addresses;
           Lit "</td></tr>"; Lit cr]).

(** [for device, data in devices.items(): if data.get('interfaces'): ...] *)
Fixpoint html_rows (keys : list string) (devices : pydict) : outcome (list (list frag)) :=
  match devices with
  | [] => Return []
  | (device, data) :: rest =>
      interfaces <- py_get data "interfaces" JNull ;;
      if py_truthy interfaces then
        r <- html_row keys data ;;
        more <- html_rows keys rest ;;
        Return (r :: more)
      else html_rows keys rest
  end.

(** [export_to_html]: the texts it hands to [html_file.write], in order. *)
Definition export_to_html (devices : pydict) (keys : list string)
  : outcome (list (list frag)) :=
  let header := [Lit tab; Lit tab; Lit "<tr>"] ++ html_header_columns keys ++ [Lit cr] in
  rows <- html_rows keys devices ;;
  Return ([html_head; header] ++ rows ++ [html_tail]).

(* ================================================================== *)
(** * The [base64] module of the standard library *)
(* ================================================================== *)

Module base64.

Definition alphabet : string :=
  "ABCDEFGHIJKLMNOPQRSTUVWXYZabcdefghijklmnopqrstuvwxyz0123456789+/".

(** The character of a 6-bit value. *)
Definition b2a_char (n : Z) : ascii :=
  match String.get (Z.to_nat n) alphabet with
  | Some c => c
  | None => "="%char
  end.

(** [binascii.b2a_base64(data, newline=False)] on the byte values. *)
Fixpoint b2a_base64 (data : list Z) : list ascii :=
  match data with
  | [] => []
  | [a] =>
      [b2a_char (Z.shiftr a 2); b2a_char (Z.shiftl (Z.land a 3) 4); "="%char; "="%char]
  | [a; b] =>
      [b2a_char (Z.shiftr a 2);
       b2a_char (Z.lor (Z.shiftl (Z.land a 3) 4) (Z.shiftr b 4));
       b2a_char (Z.shiftl (Z.land b 15) 2); "="%char]
  | a :: b :: c :: rest =>
      b2a_char (Z.shiftr a 2) ::
      b2a_char (Z.lor (Z.shiftl (Z.land a 3) 4) (Z.shiftr b 4)) ::
      b2a_char (Z.lor (Z.shiftl (Z.land b 15) 2) (Z.shiftr c 6)) ::
      b2a_char (Z.land c 63) :: b2a_base64 rest
  end.

(** [bytes.translate] with [_urlsafe_encode_translation]. *)
Definition urlsafe_encode_translation (c : ascii) : ascii :=
  if Ascii.eqb c "+" then "-"%char else if Ascii.eqb c "/" then "_"%char else c.

(** [bytes.translate] with [_urlsafe_decode_translation]. *)
Definition urlsafe_decode_translation (c : ascii) : ascii :=
  if Ascii.eqb c "-" then "+"%char else if Ascii.eqb c "_" then "/"%char else c.

(** [urlsafe_b64encode] *)
Definition urlsafe_b64encode (s : string) : string :=
  string_of_list_ascii
    (map urlsafe_encode_translation
       (b2a_base64 (map Str.code (list_ascii_of_string s)))).

(** [table_a2b_base64]: the 6-bit value of a character of the alphabet. *)
Definition a2b_value (c : ascii) : option Z :=
  let n := Str.code c in
  if (65 <=? n) && (n <=? 90) then Some (n - 65)
  else if (97 <=? n) && (n <=? 122) then Some (n - 71)
  else if (48 <=? n) && (n <=? 57) then Some (n + 4)
  else if n =? 43 then Some 62
  else if n =? 47 then Some 63
  else None.

(** The loop of [binascii.a2b_base64(data, strict_mode=False)]: a
    character outside the alphabet is skipped, a run of ['='] that
    completes a quad ends the decoding, and input that stops inside a
    quad is an error. *)
Fixpoint a2b_loop (data : list ascii) (quad_pos : Z) (leftchar : Z) (pads : Z)
  (bin_data : list Z) : outcome (list Z) :=
  match data with
  | [] => if quad_pos =? 0 then Return (rev bin_data) else Raise binascii_Error
  | this_ch :: rest =>
      if Ascii.eqb this_ch "=" then
        if 2 <=? quad_pos then
          if 4 <=? quad_pos + (pads + 1) then Return (rev bin_data)
          else a2b_loop rest quad_pos leftchar (pads + 1) bin_data
        else a2b_loop rest quad_pos leftchar pads bin_data
      else
        match a2b_value this_ch with
        | None => a2b_loop rest quad_pos leftchar pads bin_data
        | Some v =>
            if quad_pos =? 0 then a2b_loop rest 1 v 0 bin_data
            else if quad_pos =? 1 then
              a2b_loop rest 2 (Z.land v 15) 0
                (Z.lor (Z.land (Z.shiftl leftchar 2) 255) (Z.shiftr v 4) :: bin_data)
            else if quad_pos =? 2 then
              a2b_loop rest 3 (Z.land v 3) 0
                (Z.lor (Z.land (Z.shiftl leftchar 4) 255) (Z.shiftr v 2) :: bin_data)
            else
              a2b_loop rest 0 0 0
                (Z.lor (Z.land (Z.shiftl leftchar 6) 255) v :: bin_data)
        end
  end.

(** [urlsafe_b64decode] *)
Definition urlsafe_b64decode (s : string) : outcome string :=
  bin_data <- a2b_loop (map urlsafe_decode_translation (list_ascii_of_string s)) 0 0 0 [] ;;
  Return (Str.of_codes bin_data).

End base64.

(* ================================================================== *)
(** * [zlib.decompress] *)
(* ================================================================== *)

Module zlib.

(** The bits of the input, each byte from its least significant bit. *)
Definition bits_of_bytes (data : list Z) : list bool :=
  flat_map (fun b => map (Z.testbit b) [0; 1; 2; 3; 4; 5; 6; 7]) data.

(** [need] bits as an integer, least significant first. *)
Fixpoint bits (need : nat) (s : list bool) : option (Z * list bool) :=
  match need with
  | O => Some (0, s)
  | S n =>
      match s with
      | [] => None
      | b :: s' =>
          match bits n s' with
          | Some (v, s'') => Some ((if b then 1 else 0) + 2 * v, s'')
          | None => None
          end
      end
  end.

(** A canonical Huffman code: how many codes of each length from 1 to
    15, and the symbols ordered by code. *)
Record huffman : Type := {
  count : list Z;
  symbol : list Z
}.

Definition lengths_1_15 : list Z := [1; 2; 3; 4; 5; 6; 7; 8; 9; 10; 11; 12; 13; 14; 15].

Definition count_of (lengths : list Z) (len : Z) : Z :=
  Z.of_nat (List.length (filter (Z.eqb len) lengths)).

(** The code space left after each length: negative when the lengths are
    over-subscribed, positive at the end when they are incomplete. *)
Fixpoint code_space (counts : list Z) (left : Z) : Z :=
  match counts with
  | [] => left
  | c :: rest =>
      let left := 2 * left - c in
      if left <? 0 then left else code_space rest left
  end.

(** The code of a list of code lengths, and the code space it leaves. *)
Definition construct (lengths : list Z) : huffman * Z :=
  let counts := map (count_of lengths) lengths_1_15 in
  let indexed := enumerate lengths 0 in
  let symbols :=
    flat_map (fun len => map fst (filter (fun sl => snd sl =? len) indexed)) lengths_1_15 in
  let h := {| count := counts; symbol := symbols |} in
  if count_of lengths 0 =? Z.of_nat (List.length lengths) then (h, 0)
  else (h, code_space counts 1).

(** Decode one symbol, a bit of the code at a time. *)
Fixpoint decode_loop (symbols : list Z) (counts : list Z) (code first index : Z)
  (s : list bool) : option (Z * list bool) :=
  match counts with
  | [] => None
  | cnt :: rest =>
      match s with
      | [] => None
      | b :: s' =>
          let code := code + (if b then 1 else 0) in
          if code - cnt <? first then
            match nth_error symbols (Z.to_nat (index + (code - first))) with
            | Some sym => Some (sym, s')
            | None => None
            end
          else decode_loop symbols rest (2 * code) (2 * (first + cnt)) (index + cnt) s'
      end
  end.

Definition decode (h : huffman) (s : list bool) : option (Z * list bool) :=
  decode_loop (symbol h) (count h) 0 0 0 s.

Definition lbase : list Z :=
  [3; 4; 5; 6; 7; 8; 9; 10; 11; 13; 15; 17; 19; 23; 27; 31; 35; 43; 51; 59;
   67; 83; 99; 115; 131; 163; 195; 227; 258].
Definition lext : list nat :=
  [0; 0; 0; 0; 0; 0; 0; 0; 1; 1; 1; 1; 2; 2; 2; 2; 3; 3; 3; 3; 4; 4; 4; 4;
   5; 5; 5; 5; 0]%nat.
Definition dbase : list Z :=
  [1; 2; 3; 4; 5; 7; 9; 13; 17; 25; 33; 49; 65; 97; 129; 193; 257; 385; 513;
   769; 1025; 1537; 2049; 3073; 4097; 6145; 8193; 12289; 16385; 24577].
Definition dext : list nat :=
  [0; 0; 0; 0; 1; 1; 2; 2; 3; 3; 4; 4; 5; 5; 6; 6; 7; 7; 8; 8; 9; 9; 10; 10;
   11; 11; 12; 12; 13; 13]%nat.

(** Copy [len] bytes from [dist] bytes back; [out] is the output so far,
    last byte first. *)
Fixpoint copy (len : nat) (dist : nat) (out : list Z) : list Z :=
  match len with
  | O => out
  | S n => copy n dist (nth (dist - 1) out 0 :: out)
  end.

(** The literals, lengths and distances of one compressed block. *)
Fixpoint codes (fuel : nat) (lencode distcode : huffman) (s : list bool) (out : list Z)
  : option (list bool * list Z) :=
  match fuel with
  | O => None
  | S fuel' =>
      match decode lencode s with
      | None => None
      | Some (sym, s) =>
          if sym <? 256 then codes fuel' lencode distcode s (sym :: out)
          else if sym =? 256 then Some (s, out)
          else
            let i := Z.to_nat (sym - 257) in
            match nth_error lbase i, nth_error lext i with
            | Some base, Some ext =>
                match bits ext s with
                | None => None
                | Some (extra, s) =>
                    let len := base + extra in
                    match decode distcode s with
                    | None => None
                    | Some (dsym, s) =>
                        let j := Z.to_nat dsym in
                        match nth_error dbase j, nth_error dext j with
                        | Some base, Some ext =>
                            match bits ext s with
                            | None => None
                            | Some (extra, s) =>
                                let dist := base + extra in
                                if Z.of_nat (List.length out) <? dist then None
                                else codes fuel' lencode distcode s
                                       (copy (Z.to_nat len) (Z.to_nat dist) out)
                            end
                        | _, _ => None
                        end
                    end
                end
            | _, _ => None
            end
      end
  end.

(** The codes of a block compressed with the fixed tables. *)
Definition fixed_lencode : huffman :=
  fst (construct (repeat 8 144 ++ repeat 9 112 ++ repeat 7 24 ++ repeat 8 8)).
Definition fixed_distcode : huffman := fst (construct (repeat 5 30)).

(** A stored block: skip to the byte boundary, then the length, its
    complement and the bytes. *)
Fixpoint take_bytes (n : nat) (s : list bool) (out : list Z) : option (list bool * list Z) :=
  match n with
  | O => Some (s, out)
  | S n' =>
      match bits 8 s with
      | None => None
      | Some (b, s) => take_bytes n' s (b :: out)
      end
  end.

Definition stored (s : list bool) (out : list Z) : option (list bool * list Z) :=
  let s := skipn (Nat.modulo (List.length s) 8) s in
  match bits 16 s with
  | None => None
  | Some (len, s) =>
      match bits 16 s with
      | None => None
      | Some (nlen, s) =>
          if negb (len =? Z.lxor nlen 65535) then None
          else take_bytes (Z.to_nat len) s out
      end
  end.

Definition order : list nat :=
  [16; 17; 18; 0; 8; 7; 9; 6; 10; 5; 11; 4; 12; 3; 13; 2; 14; 1; 15]%nat.

(** Read [ncode] code length code lengths, in the order of [order]. *)
Fixpoint read_code_lengths (ncode : nat) (ord : list nat) (s : list bool) (lengths : list Z)
  : option (list Z * list bool) :=
  match ncode, ord with
  | S n, pos :: ord' =>
      match bits 3 s with
      | None => None
      | Some (len, s) =>
          read_code_lengths n ord' s
            (firstn pos lengths ++ len :: skipn (S pos) lengths)
      end
  | _, _ => Some (lengths, s)
  end.

(** Read the [total] literal/length and distance code lengths;
    [lengths] holds the ones read so far, last first. *)
Fixpoint read_lengths (fuel : nat) (lencode : huffman) (total : Z) (s : list bool)
  (lengths : list Z) : option (list Z * list bool) :=
  match fuel with
  | O => None
  | S fuel' =>
      if total <=? Z.of_nat (List.length lengths) then Some (rev lengths, s)
      else
        match decode lencode s with
        | None => None
        | Some (sym, s) =>
            if sym <? 16 then read_lengths fuel' lencode total s (sym :: lengths)
            else
              let rep (len : Z) (base : Z) (nbits : nat) :=
                match bits nbits s with
                | None => None
                | Some (extra, s) =>
                    let n := base + extra in
                    if total <? Z.of_nat (List.length lengths) + n then None
                    else read_lengths fuel' lencode total s
                           (repeat len (Z.to_nat n) ++ lengths)
                end in
              if sym =? 16 then
                match lengths with
                | [] => None
                | last :: _ => rep last 3 2%nat
                end
              else if sym =? 17 then rep 0 3 3%nat
              else rep 0 11 7%nat
        end
  end.

(** A usable code: complete, or incomplete with a single code of one
    bit. *)
Definition code_ok (h : huffman * Z) (n : Z) (lengths : list Z) : bool :=
  (snd h =? 0) ||
  ((0 <? snd h) && (n =? count_of lengths 0 + count_of lengths 1)).

(** A block compressed with its own tables. *)
Definition dynamic (fuel : nat) (s : list bool) (out : list Z)
  : option (list bool * list Z) :=
  match bits 5 s with
  | None => None
  | Some (hlit, s) =>
  match bits 5 s with
  | None => None
  | Some (hdist, s) =>
  match bits 4 s with
  | None => None
  | Some (hclen, s) =>
      let nlen := hlit + 257 in
      let ndist := hdist + 1 in
      let ncode := hclen + 4 in
      if (286 <? nlen) || (30 <? ndist) then None
      else
        match read_code_lengths (Z.to_nat ncode) order s (repeat 0 19) with
        | None => None
        | Some (cl, s) =>
            let lc := construct cl in
            if negb (snd lc =? 0) then None
            else
              match read_lengths fuel (fst lc) (nlen + ndist) s [] with
              | None => None
              | Some (lengths, s) =>
                  let ll := firstn (Z.to_nat nlen) lengths in
                  let dl := skipn (Z.to_nat nlen) lengths in
                  if nth 256 ll 0 =? 0 then None
                  else
                    let lencode := construct ll in
                    let distcode := construct dl in
                    if negb (code_ok lencode nlen ll) then None
                    else if negb (code_ok distcode ndist dl) then None
                    else codes fuel (fst lencode) (fst distcode) s out
              end
        end
  end end end.

(** The blocks of a deflate stream, up to the one marked last. *)
Fixpoint blocks (fuel : nat) (s : list bool) (out : list Z) : option (list bool * list Z) :=
  match fuel with
  | O => None
  | S fuel' =>
      match bits 1 s with
      | None => None
      | Some (last, s) =>
          match bits 2 s with
          | None => None
          | Some (type, s) =>
              match
                (if type =? 0 then stored s out
                 else if type =? 1 then codes (List.length s) fixed_lencode fixed_distcode s out
                 else if type =? 2 then dynamic (List.length s) s out
                 else None)
              with
              | None => None
              | Some (s, out) => if last =? 1 then Some (s, out) else blocks fuel' s out
              end
          end
      end
  end.

(** [zlib.adler32] *)
Definition adler32 (data : list Z) : Z :=
  let '(a, b) :=
    fold_left (fun ab x =>
                 let a := (fst ab + x) mod 65521 in
                 (a, (snd ab + a) mod 65521))
              data (1, 0) in
  b * 65536 + a.

(** [zlib.decompress(data)]: the two bytes of the zlib header, the
    deflate stream, and the Adler-32 checksum of the output.  What
    follows the checksum is not looked at. *)
Definition decompress (data : string) : outcome string :=
  match map Str.code (list_ascii_of_string data) with
  | cmf :: flg :: rest =>
      if negb ((256 * cmf + flg) mod 31 =? 0) then Raise zlib_error
      else if negb (Z.land cmf 15 =? 8) then Raise zlib_error
      else if 7 <? Z.shiftr cmf 4 then Raise zlib_error
      else if negb (Z.land flg 32 =? 0) then Raise zlib_error
      else
        let s := bits_of_bytes rest in
        match blocks (S (List.length s)) s [] with
        | None => Raise zlib_error
        | Some (s, out) =>
            let s := skipn (Nat.modulo (List.length s) 8) s in
            match bits 32 s with
            | None => Raise zlib_error
            | Some (v, _) =>
                let out := rev out in
                let check :=
                  Z.land (Z.shiftr v 24) 255 + 256 * Z.land (Z.shiftr v 16) 255 +
                  65536 * Z.land (Z.shiftr v 8) 255 + 16777216 * Z.land v 255 in
                if check =? adler32 out then Return (Str.of_codes out)
                else Raise zlib_error
            end
        end
  | _ => Raise zlib_error
  end.

End zlib.

(* ================================================================== *)
(** * store_creds.py *)
(* ================================================================== *)

(** [s.encode('ascii')] *)
Definition encode_ascii (s : string) : outcome string :=
  if forallb (fun c => Str.code c <? 128) (list_ascii_of_string s) then Return s
  else Raise UnicodeEncodeError.

(** [data.decode('ascii')] *)
Definition decode_ascii (data : string) : outcome string :=
  if forallb (fun c => Str.code c <? 128) (list_ascii_of_string data) then Return data
  else Raise UnicodeDecodeError.

(** [lines[i]] *)
Definition list_getitem {A} (l : list A) (i : nat) : outcome A :=
  match nth_error l i with
  | Some x => Return x
  | None => Raise IndexError
  end.

(** [decode_pass] *)
Definition decode_pass (obscured : string) : outcome string :=
  data <- base64.urlsafe_b64decode obscured ;;
  zlib.decompress data.

Section Credentials.

(** [zlib.compress(data, level)], the compressor of the C library. *)
Variable zlib_compress : string -> Z -> string.

(** [open(file_name, "r")] followed by [reader.readlines()]. *)
Variable readlines : string -> outcome (list string).

(** [encode_pass] *)
Definition encode_pass (data : string) : string :=
  base64.urlsafe_b64encode (zlib_compress data 9).

(** One line of the file, as [store_creds] writes it:
    [f"{encode_pass(text.encode('ascii')).decode('ascii')}\n"] *)
Definition encode_line (text : string) : outcome string :=
  data <- encode_ascii text ;;
  obscured <- decode_ascii (encode_pass data) ;;
  Return (obscured ++ newline)%string.

(** One line of the file, decoded:
    [decode_pass(line.strip().encode('ascii')).decode()] *)
Definition decode_line (line : string) : outcome string :=
  obscured <- encode_ascii (Str.strip line) ;;
  data <- decode_pass obscured ;;
  Str.decode_utf8 data.

(** [get_creds] *)
Definition get_creds (file_name : string) : M (string * string) :=
  try_except
    (lines <~ lift (readlines file_name) ;;
     username <~ lift (line <- list_getitem lines 0 ;; decode_line line) ;;
     password <~ lift (line <- list_getitem lines 1 ;; decode_line line) ;;
     mret (username, password))
    is_IOError
    (fun e =>
       logging_error [Lit "Error reading from file: "; FmtExn e] ;;;
       mret (""%string, ""%string)).

End Credentials.

(* ================================================================== *)
(** * [argparse], for the parser of [parse_arguments] *)
(* ================================================================== *)

(** The namespace [parse_arguments] returns. *)
Record Namespace : Type := {
  vmanage_address : string;
  password_file : string;
  log_file : string;
  output_file : string;
  ignore_list : list string
}.

Module argparse.

(** The actions of the parser: the help action [ArgumentParser] adds,
    then the five of [parse_arguments]. *)
Inductive action : Type :=
| help
| store_vmanage_address
| store_password_file
| store_log_file
| store_output_file
| store_ignore_list.

(** [parser._option_string_actions] *)
Definition option_string_actions : list (string * action) :=
  [("-h", help); ("--help", help);
   ("-a", store_vmanage_address); ("--vmanage_address", store_vmanage_address);
   ("-p", store_password_file); ("--password_file", store_password_file);
   ("-l", store_log_file); ("--log_file", store_log_file);
   ("-o", store_output_file); ("--output_file", store_output_file);
   ("-i", store_ignore_list); ("--ignore_list", store_ignore_list)]%string.

Fixpoint find_action (option_string : string) (table : list (string * action))
  : option action :=
  match table with
  | [] => None
  | (s, a) :: rest => if String.eqb option_string s then Some a else find_action option_string rest
  end.

(** [action.nargs]: [0] for the help action, ['+'] for the ignore list,
    [None] for the others. *)
Inductive nargs : Type := Zero | One | OneOrMore.

Definition nargs_of (a : action) : nargs :=
  match a with
  | help => Zero
  | store_ignore_list => OneOrMore
  | _ => One
  end.

(** An option found in an argument: its action ([None] when the parser
    has no such option), the option string, and the argument joined to
    it, if any. *)
Record option_tuple : Type := Tuple {
  tuple_action : option action;
  option_string : string;
  explicit_arg : option string
}.

(** What [_parse_optional] makes of an argument: not an option, an
    option, or an error.  [Unread] marks an argument this model does not
    decide: one that is no option of the parser and holds a character
    outside ASCII, for which the test for a negative number would need
    the digits of Unicode. *)
Inductive parsed_optional : Type :=
| NotOptional
| Optional (t : option_tuple)
| Ambiguous
| Unread.

Definition is_ascii_digit (c : ascii) : bool := Str.is_digit c.

(** [_negative_number_matcher]: ['^-\d+$|^-\d*\.\d+$'], where ['$'] also
    matches before a final newline. *)
Definition negative_number (s : string) : bool :=
  let chars := list_ascii_of_string s in
  let chars :=
    match rev chars with
    | c :: before => if Ascii.eqb c (ascii_of_nat 10) then rev before else chars
    | [] => chars
    end in
  match chars with
  | c :: body =>
      Ascii.eqb c "-" &&
      ((match body with [] => false | _ => true end && forallb is_ascii_digit body) ||
       (let fix split_at_dot (l : list ascii) : option (list ascii * list ascii) :=
          match l with
          | [] => None
          | d :: rest =>
              if is_ascii_digit d then
                match split_at_dot rest with
                | Some (a, b) => Some (d :: a, b)
                | None => None
                end
              else if Ascii.eqb d "." then Some ([], rest)
              else None
          end in
        match split_at_dot body with
        | Some (_, after) =>
            match after with [] => false | _ => true end && forallb is_ascii_digit after
        | None => false
        end))
  | [] => false
  end.

(** [_get_option_tuples] *)
Definition get_option_tuples (arg_string : string) : list option_tuple :=
  match arg_string with
  | String c0 (String c1 _) =>
      if Ascii.eqb c1 "-" then
        let '(option_prefix, found, after) := Str.partition "=" arg_string in
        let explicit := if found : bool then Some after else None in
        map (fun sa => Tuple (Some (snd sa)) (fst sa) explicit)
            (filter (fun sa => String.prefix option_prefix (fst sa)) option_string_actions)
      else
        let short_option_prefix := String c0 (String c1 "") in
        let short_explicit_arg := String.substring 2 (String.length arg_string - 2) arg_string in
        flat_map
          (fun sa =>
             if String.eqb (fst sa) short_option_prefix
             then [Tuple (Some (snd sa)) (fst sa) (Some short_explicit_arg)]
             else if String.prefix arg_string (fst sa)
             then [Tuple (Some (snd sa)) (fst sa) None]
             else [])
          option_string_actions
  | _ => []
  end.

(** [_parse_optional] *)
Definition parse_optional (arg_string : string) : parsed_optional :=
  match arg_string with
  | EmptyString => NotOptional
  | String c0 rest =>
      if negb (Ascii.eqb c0 "-") then NotOptional
      else
        match find_action arg_string option_string_actions with
        | Some a => Optional (Tuple (Some a) arg_string None)
        | None =>
            if String.eqb rest "" then NotOptional
            else
              let '(before, found, after) := Str.partition "=" arg_string in
              match (if found : bool then find_action before option_string_actions else None) with
              | Some a => Optional (Tuple (Some a) before (Some after))
              | None =>
                  match get_option_tuples arg_string with
                  | _ :: _ :: _ => Ambiguous
                  | [t] => Optional t
                  | [] =>
                      if negb (forallb (fun c => Str.code c <? 128)
                                       (list_ascii_of_string arg_string))
                      then Unread
                      else if negative_number arg_string then NotOptional
                      else if Str.contains " " arg_string then NotOptional
                      else Optional (Tuple None arg_string None)
                  end
              end
        end
  end.

(** One character of [arg_strings_pattern]: ['O'] with the option it
    stands for, ['A'], or ['-']. *)
Inductive kind : Type :=
| Opt (t : option_tuple)
| Arg
| Dash.

(** The first pass of [_parse_known_args]: the pattern of the
    arguments, or the error of an ambiguous option.  After ['--'] every
    argument is an ['A']. *)
Inductive first_pass : Type :=
| Pattern (ks : list (kind * string))
| PatternError
| PatternUnread.

Fixpoint pattern (arg_strings : list string) : first_pass :=
  match arg_strings with
  | [] => Pattern []
  | s :: rest =>
      if String.eqb s "--" then Pattern ((Dash, s) :: map (fun r => (Arg, r)) rest)
      else
        match parse_optional s with
        | Ambiguous => PatternError
        | Unread => PatternUnread
        | parsed =>
            match pattern rest with
            | Pattern ks =>
                Pattern ((match parsed with Optional t => Opt t | _ => Arg end, s) :: ks)
            | other => other
            end
        end
  end.

(** What [parse_args] ends with: the namespace, or [SystemExit] with
    its status (0 after the help, 2 after an error).  [Unmodelled]: an
    argument was [Unread], or an option that stores one text was given
    ['--'] joined to it, and stores a list. *)
Inductive result : Type :=
| Parsed (args : Namespace)
| Exit (status : Z)
| Unmodelled.

(** The namespace while it is filled: ['vmanage_address'] has no
    default. *)
Record namespace : Type := {
  ns_vmanage_address : option string;
  ns_password_file : string;
  ns_log_file : string;
  ns_output_file : string;
  ns_ignore_list : list string
}.

Definition defaults : namespace :=
  {| ns_vmanage_address := None;
     ns_password_file := "vManageCreds.txt";
     ns_log_file := "RetrieveCiscoPublicIP.log";
     ns_output_file := "CiscoPublicIPs";
     ns_ignore_list := ["ge0/0.22"%string] |}.

(** The store action of an option of one argument. *)
Definition store (a : action) (value : string) (ns : namespace) : namespace :=
  match a with
  | store_vmanage_address =>
      {| ns_vmanage_address := Some value; ns_password_file := ns_password_file ns;
         ns_log_file := ns_log_file ns; ns_output_file := ns_output_file ns;
         ns_ignore_list := ns_ignore_list ns |}
  | store_password_file =>
      {| ns_vmanage_address := ns_vmanage_address ns; ns_password_file := value;
         ns_log_file := ns_log_file ns; ns_output_file := ns_output_file ns;
         ns_ignore_list := ns_ignore_list ns |}
  | store_log_file =>
      {| ns_vmanage_address := ns_vmanage_address ns; ns_password_file := ns_password_file ns;
         ns_log_file := value; ns_output_file := ns_output_file ns;
         ns_ignore_list := ns_ignore_list ns |}
  | store_output_file =>
      {| ns_vmanage_address := ns_vmanage_address ns; ns_password_file := ns_password_file ns;
         ns_log_file := ns_log_file ns; ns_output_file := value;
         ns_ignore_list := ns_ignore_list ns |}
  | _ => ns
  end.

(** The store action of the ignore list. *)
Definition store_list (values : list string) (ns : namespace) : namespace :=
  {| ns_vmanage_address := ns_vmanage_address ns; ns_password_file := ns_password_file ns;
     ns_log_file := ns_log_file ns; ns_output_file := ns_output_file ns;
     ns_ignore_list := values |}.

(** The arguments at the head of the pattern: the run of ['A'] that the
    pattern of [nargs='+'] matches. *)
Fixpoint leading_arguments (ks : list (kind * string)) : list string * list (kind * string) :=
  match ks with
  | (Arg, s) :: rest =>
      let '(taken, others) := leading_arguments rest in (s :: taken, others)
  | _ => ([], ks)
  end.

(** Whether [_match_argument] finds the arguments of [a] at the head of
    the pattern. *)
Definition matches (a : action) (ks : list (kind * string)) : bool :=
  match nargs_of a with
  | Zero => true
  | _ => match ks with (Arg, _) :: _ => true | _ => false end
  end.

(** The loop of [consume_optional] once the help action is met with an
    argument joined to it: the characters that follow [-h] are read as
    options of one letter.  The help action is the first of the actions
    to take, so the parser exits with 0 when the loop ends well, and
    with 2 when it ends with an error. *)
Fixpoint help_chain (joined : list ascii) (ks : list (kind * string)) : Z :=
  match joined with
  | [] => 0
  | c :: rest =>
      match find_action (String "-" (String c "")) option_string_actions with
      | None => 2
      | Some a =>
          match rest with
          | [] => if matches a ks then 0 else 2
          | _ =>
              match nargs_of a with
              | Zero => help_chain rest ks
              | _ => 0
              end
          end
      end
  end.

(** The second pass, over what is left of the pattern: [consume_optional]
    at each option, any other argument an extra; then the check of the
    required option, and the error of [parse_args] for the extras. *)
Fixpoint consume (fuel : nat) (ks : list (kind * string)) (ns : namespace)
  (extras : bool) : result :=
  match fuel with
  | O%nat => Unmodelled
  | S fuel' =>
      match ks with
      | [] =>
          match ns_vmanage_address ns with
          | None => Exit 2
          | Some address =>
              if extras then Exit 2
              else Parsed {| vmanage_address := address;
                             password_file := ns_password_file ns;
                             log_file := ns_log_file ns;
                             output_file := ns_output_file ns;
                             ignore_list := ns_ignore_list ns |}
          end
      | (Arg, _) :: rest | (Dash, _) :: rest => consume fuel' rest ns true
      | (Opt t, _) :: rest =>
          match tuple_action t with
          | None => consume fuel' rest ns true
          | Some a =>
              match explicit_arg t, nargs_of a with
              | None, Zero => Exit 0
              | None, One =>
                  match rest with
                  | (Arg, value) :: rest' => consume fuel' rest' (store a value ns) extras
                  | _ => Exit 2
                  end
              | None, OneOrMore =>
                  match leading_arguments rest with
                  | ([], _) => Exit 2
                  | (values, rest') => consume fuel' rest' (store_list values ns) extras
                  end
              | Some joined, Zero =>
                  match option_string t with
                  | String _ (String c1 _) =>
                      if negb (Ascii.eqb c1 "-") && negb (String.eqb joined "")
                      then Exit (help_chain (list_ascii_of_string joined) rest)
                      else Exit 2
                  | _ => Exit 2
                  end
              | Some joined, One =>
                  if String.eqb joined "--" then Unmodelled
                  else consume fuel' rest (store a joined ns) extras
              | Some joined, OneOrMore =>
                  consume fuel' rest
                    (store_list (if String.eqb joined "--" then [] else [joined]) ns) extras
              end
          end
      end
  end.

(** [parser.parse_args(argv)] *)
Definition parse_args (argv : list string) : result :=
  match pattern argv with
  | Pattern ks => consume (S (List.length ks)) ks defaults false
  | PatternError => Exit 2
  | PatternUnread => Unmodelled
  end.

End argparse.

(** [parse_arguments], for the arguments [sys.argv[1:]] of the
    command line. *)
Definition parse_arguments (argv : list string) : argparse.result :=
  argparse.parse_args argv.

(* ================================================================== *)
(** * The files of a run *)
(* ================================================================== *)

Module fs.

(** What a path holds: a text file, with its bytes; the file a
    [logging.FileHandler] appends to (what it held, then the records
    with their time stamps); a workbook closed by xlsxwriter, with the
    cells written to its sheet; a page, with the texts written to it. *)
Inductive content : Type :=
| Text (data : string)
| Journal
| Book (cells : list xlsxwriter.write)
| Page (chunks : list (list frag)).

(** The files, by path.  Two paths are one file when they are one
    text. *)
Definition files : Type := list (string * content).

Fixpoint lookup (path : string) (d : files) : option content :=
  match d with
  | [] => None
  | (p, c) :: rest => if String.eqb path p then Some c else lookup path rest
  end.

Fixpoint update (path : string) (c : content) (d : files) : files :=
  match d with
  | [] => [(path, c)]
  | (p, c') :: rest =>
      if String.eqb path p then (p, c) :: rest else (p, c') :: update path c rest
  end.

(** Universal newlines, as a file opened in text mode reads them:
    ["\r\n"] and ["\r"] become ["\n"]. *)
Fixpoint universal_newlines (l : list ascii) : list ascii :=
  match l with
  | [] => []
  | c :: rest =>
      if Ascii.eqb c (ascii_of_nat 13) then
        match rest with
        | c' :: rest' =>
            if Ascii.eqb c' (ascii_of_nat 10) then ascii_of_nat 10 :: universal_newlines rest'
            else ascii_of_nat 10 :: universal_newlines rest
        | [] => [ascii_of_nat 10]
        end
      else c :: universal_newlines rest
  end.

(** The lines of a text, each with its newline; [line] holds the
    characters of the line being read, last first. *)
Fixpoint split_lines (l : list ascii) (line : list ascii) : list string :=
  match l with
  | [] =>
      match line with
      | [] => []
      | _ => [string_of_list_ascii (rev line)]
      end
  | c :: rest =>
      if Ascii.eqb c (ascii_of_nat 10)
      then string_of_list_ascii (rev (c :: line)) :: split_lines rest []
      else split_lines rest (c :: line)
  end.

(** [reader.readlines()] on the bytes of a file opened with
    [open(path, "r")], the encoding being UTF-8. *)
Definition readlines (data : string) : outcome (list string) :=
  text <- Str.decode_utf8 data ;;
  Return (split_lines (universal_newlines (list_ascii_of_string text)) []).

End fs.

(* ================================================================== *)
(** * The world of a run, and its monad *)
(* ================================================================== *)

(** The handlers [setup_logging] adds to the root logger. *)
Inductive handler : Type :=
| FileHandler (path : string)
| StreamHandler.

(** The state a run of [main] works on: the calls of [logging.info] and
    [logging.error] made so far; the files; the paths on which every
    [open] fails with an [OSError] (a directory, a file of another user,
    a path under a directory that is not there); the level and the
    handlers of the root logger. *)
Record world : Type := World {
  log : list logrec;
  disk : fs.files;
  denied : list string;
  logger_level : option level;
  handlers : list handler
}.

Definition set_log (l : list logrec) (w : world) : world :=
  World l (disk w) (denied w) (logger_level w) (handlers w).

Definition set_disk (d : fs.files) (w : world) : world :=
  World (log w) d (denied w) (logger_level w) (handlers w).

(** A computation on the world. *)
Definition W (A : Type) : Type := world -> outcome A * world.

Definition wret {A} (a : A) : W A := fun w => (Return a, w).

Definition wbind {A B} (m : W A) (k : A -> W B) : W B :=
  fun w =>
    match m w with
    | (Return a, w') => k a w'
    | (Raise e, w') => (Raise e, w')
    | (OutOfModel, w') => (OutOfModel, w')
    end.

Definition wlift {A} (o : outcome A) : W A := fun w => (o, w).

(** A computation that only logs, run on the log of the world. *)
Definition run {A} (m : M A) : W A :=
  fun w => let '(o, l) := m (log w) in (o, set_log l w).

(** [try: m  except cls as e: handler(e)] *)
Definition wtry {A} (m : W A) (cls : exn -> bool) (handler : exn -> W A) : W A :=
  fun w =>
    match m w with
    | (Raise e, w') => if cls e then handler e w' else (Raise e, w')
    | other => other
    end.

Notation "x <~~ m ;; k" := (wbind m (fun x => k))
  (at level 61, m at next level, right associativity) : py_scope.
Notation "m ~~; k" := (wbind m (fun _ => k))
  (at level 61, right associativity) : py_scope.

Definition is_denied (path : string) (w : world) : bool :=
  existsb (String.eqb path) (denied w).

(** [os.path.exists(path)] *)
Definition os_path_exists (path : string) : W bool :=
  fun w =>
    (Return match fs.lookup path (disk w) with Some _ => true | None => false end, w).

(** [open(path, "r")] followed by [reader.readlines()], in the world
    [w].  A file that is no text file is not read by this model. *)
Definition read_lines_in (w : world) (path : string) : outcome (list string) :=
  if is_denied path w then Raise OSError
  else
    match fs.lookup path (disk w) with
    | None => Raise OSError
    | Some (fs.Text data) => fs.readlines data
    | Some _ => OutOfModel
    end.

(** [open(path, "w")]: the file is created, or emptied; [empty] is the
    empty file of its kind.  Opening the file the logger appends to is
    left out of the model. *)
Definition open_w (path : string) (empty : fs.content) : W unit :=
  fun w =>
    if is_denied path w then (Raise OSError, w)
    else
      match fs.lookup path (disk w) with
      | Some fs.Journal => (OutOfModel, w)
      | _ => (Return tt, set_disk (fs.update path empty (disk w)) w)
      end.

(** [writer.write(text)] on the text file opened at [path]. *)
Definition write_text (path : string) (text : string) : W unit :=
  fun w =>
    match fs.lookup path (disk w) with
    | Some (fs.Text data) =>
        (Return tt, set_disk (fs.update path (fs.Text (data ++ text)) (disk w)) w)
    | _ => (OutOfModel, w)
    end.

(** [html_file.write(text)] on the page opened at [path]. *)
Definition write_chunk (path : string) (text : list frag) : W unit :=
  fun w =>
    match fs.lookup path (disk w) with
    | Some (fs.Page chunks) =>
        (Return tt, set_disk (fs.update path (fs.Page (chunks ++ [text])) (disk w)) w)
    | _ => (OutOfModel, w)
    end.

(** [workbook.close()]: the file is written then.  Where it cannot be,
    xlsxwriter raises its own [FileCreateError], which this model does
    not have. *)
Definition save_book (path : string) (cells : list xlsxwriter.write) : W unit :=
  fun w =>
    if is_denied path w then (OutOfModel, w)
    else
      match fs.lookup path (disk w) with
      | Some fs.Journal => (OutOfModel, w)
      | _ => (Return tt, set_disk (fs.update path (fs.Book cells) (disk w)) w)
      end.

(* ================================================================== *)
(** * store_creds.py and the report writers, on the files *)
(* ================================================================== *)

Section OnFiles.

(** [zlib.compress(data, level)], the compressor of the C library. *)
Variable zlib_compress : string -> Z -> string.

(** [store_creds], for the user name and the password typed at its two
    prompts.  The file is opened before the first line is encoded, and
    a line is written before the next is encoded: an exception leaves
    the file with what was written by then. *)
Definition store_creds (typed : string * string) (file_name : string) : W unit :=
  wtry
    (let '(username, password) := typed in
     open_w file_name (fs.Text "") ~~;
     line <~~ wlift (encode_line zlib_compress username) ;;
     write_text file_name line ~~;
     line <~~ wlift (encode_line zlib_compress password) ;;
     write_text file_name line)
    is_IOError
    (fun e => run (logging_error [Lit "Error writing to file: "; FmtExn e])).

End OnFiles.

(** [get_creds] on the files of the world. *)
Definition get_creds_in (file_name : string) : W (string * string) :=
  fun w =>
    let '(o, l) := get_creds (read_lines_in w) file_name (log w) in
    (o, set_log l w).

(** [export_to_excel], with the file it leaves: the workbook is written
    when it is closed, after the last cell. *)
Definition export_to_excel_in (devices : pydict) (output_file : string) (keys : list string)
  : W unit :=
  cells <~~ wlift (export_to_excel devices keys) ;;
  save_book (output_file ++ ".xlsx") cells.

(** The loop of [export_to_html], writing each row as it comes. *)
Fixpoint html_rows_in (path : string) (keys : list string) (devices : pydict) : W unit :=
  match devices with
  | [] => wret tt
  | (device, data) :: rest =>
      interfaces <~~ wlift (py_get data "interfaces" JNull) ;;
      (if py_truthy interfaces then
         row <~~ wlift (html_row keys data) ;;
         write_chunk path row
       else wret tt) ~~;
      html_rows_in path keys rest
  end.

(** [export_to_html], with the file it leaves. *)
Definition export_to_html_in (devices : pydict) (output_file : string) (keys : list string)
  : W unit :=
  let header := [Lit tab; Lit tab; Lit "<tr>"] ++ html_header_columns keys ++ [Lit cr] in
  let path := (output_file ++ ".html")%string in
  open_w path (fs.Page []) ~~;
  write_chunk path html_head ~~;
  write_chunk path header ~~;
  html_rows_in path keys devices ~~;
  write_chunk path html_tail.

(* ================================================================== *)
(** * get_vEdgeAddresses.py: [setup_logging] and [main] *)
(* ================================================================== *)

(** [setup_logging]: the level of the root logger is set, the log file
    is opened for appending by [logging.FileHandler], and the two
    handlers are added. *)
Definition setup_logging (log_file : string) : W unit :=
  fun w =>
    let w := World (log w) (disk w) (denied w) (Some INFO) (handlers w) in
    if is_denied log_file w then (Raise OSError, w)
    else
      (Return tt,
       World (log w) (fs.update log_file fs.Journal (disk w)) (denied w) (logger_level w)
             (handlers w ++ [FileHandler log_file; StreamHandler])).

(** [len(v)]; the length of a text is the number of its characters, the
    bytes of its UTF-8 form that start one. *)
Definition py_len (v : json) : outcome Z :=
  match v with
  | JList l => Return (Z.of_nat (List.length l))
  | JDict m => Return (Z.of_nat (List.length m))
  | JStr s =>
      Return (Z.of_nat (List.length
                (filter (fun c => negb (Z.land (Str.code c) 192 =? 128))
                        (list_ascii_of_string s))))
  | _ => Raise TypeError
  end.

Section Main.

Variable requests_get : string -> string * string -> requests.get_result.
Variable zlib_compress : string -> Z -> string.

(** The credentials, as [main] gets them: from the password file when
    it is there, else from the prompts, by way of the file. *)
Definition get_credentials (args : Namespace) (typed : string * string)
  : W (string * string) :=
  present <~~ os_path_exists (password_file args) ;;
  if present : bool then get_creds_in (password_file args)
  else
    store_creds zlib_compress typed (password_file args) ~~;
    get_creds_in (password_file args).

(** The rest of [main], from the credentials on. *)
Definition make_report (args : Namespace) (keys : list string) (auth : string * string)
  : W unit :=
  let device_query_url :=
    ("https://" ++ vmanage_address args ++ ":8443/dataservice/device")%string in
  let interface_query_base_url :=
    ("https://" ++ vmanage_address args
       ++ ":8443/dataservice/device/interface?deviceId=")%string in
  let ignore_interface_list := ignore_list args in
  raw_devices <~~ run (fetch_raw_json requests_get device_query_url auth) ;;
  count <~~ wlift (py_len raw_devices) ;;
  run (logging_info [Lit "Fetched "; Fmt (JInt count);
                     Lit " devices from the vManage server"]) ~~;
  if py_truthy raw_devices then
    devices <~~ wlift (format_device_data raw_devices keys) ;;
    devices <~~ run (add_interface_info requests_get devices auth
                       interface_query_base_url ignore_interface_list) ;;
    export_to_excel_in devices (output_file args) keys ~~;
    export_to_html_in devices (output_file args) keys
  else wret tt.

(** [main] from its second statement on, for the arguments [args] that
    [parse_arguments] returned and for what is typed at the prompts of
    [store_creds], should it ask. *)
Definition main_body (args : Namespace) (typed : string * string) : W unit :=
  let keys := ["system-ip"; "host-name"; "reachability"; "version"; "site-id"]%string in
  setup_logging (log_file args) ~~;
  auth <~~ get_credentials args typed ;;
  make_report args keys auth.

(** How a run of [main] ends: it returns or raises, or [parse_arguments]
    leaves with [SystemExit]. *)
Inductive ending : Type :=
| Finished (o : outcome unit)
| SystemExit (status : Z).

(** [main], for the arguments [argv] of the command line. *)
Definition main (argv : list string) (typed : string * string)
  : world -> ending * world :=
  fun w =>
    match parse_arguments argv with
    | argparse.Parsed args =>
        let '(o, w') := main_body args typed w in (Finished o, w')
    | argparse.Exit status => (SystemExit status, w)
    | argparse.Unmodelled => (Finished OutOfModel, w)
    end.

End Main.

(* ================================================================== *)
(** * Vocabulary of the statements *)
(* ================================================================== *)

(** What the inner loop of [add_interface_info] decides for one
    interface record: skip it ([None]), or record a name and an address. *)
Definition classify (ignore_interface_list : list string) (interface : json)
  : outcome (option (string * json)) :=
  ifname <- py_getitem interface "ifname" ;;
  if py_in ifname ignore_interface_list then Return None
  else
    address <- py_getitem interface "ip-address" ;;
    valid <- is_ipv4 address ;;
    if valid : bool then
      net <- ipaddress.ip_network address false ;;
      if ipaddress.is_private net then Return None
      else
        match ifname with
        | JStr name => Return (Some (name, address))
        | JList _ | JDict _ => Raise TypeError
        | _ => OutOfModel
        end
    else Return None.

(** The entries among [l] that are there. *)
Fixpoint somes {A} (l : list (option A)) : list A :=
  match l with
  | [] => []
  | Some x :: rest => x :: somes rest
  | None :: rest => somes rest
  end.

(** [d[name] = address] for each pair, in order. *)
Definition record_all (pairs : list (string * json)) (d : pydict) : pydict :=
  fold_left (fun acc na => dict_set (fst na) (snd na) acc) pairs d.

(** The list [fetch_raw_json] returns, whatever was logged before. *)
Definition fetched (requests_get : string -> string * string -> requests.get_result)
  (query_url : string) (auth : string * string) : outcome json :=
  fst (fetch_raw_json requests_get query_url auth []).

(** An interface record as the controller sends it: an object with a
    text under ['ifname'] and something under ['ip-address']. *)
Definition is_interface_record (interface : json) : bool :=
  match interface with
  | JDict m =>
      match dict_get "ifname" m, dict_get "ip-address" m with
      | Some (JStr _), Some _ => true
      | _, _ => false
      end
  | _ => false
  end.

(** An object whose ['ifname'], when it has one, is a text. *)
Definition is_named_record (interface : json) : bool :=
  match interface with
  | JDict m =>
      match dict_get "ifname" m with
      | Some (JStr _) | None => true
      | Some _ => false
      end
  | _ => false
  end.

(** A record that lacks ['ifname'], or that is not ignored and lacks
    ['ip-address']. *)
Definition lacks_field (ignore_interface_list : list string) (interface : json) : bool :=
  match interface with
  | JDict m =>
      match dict_get "ifname" m with
      | None => true
      | Some ifname =>
          negb (py_in ifname ignore_interface_list) &&
          match dict_get "ip-address" m with None => true | Some _ => false end
      end
  | _ => false
  end.

Definition is_dict (v : json) : bool :=
  match v with JDict _ => true | _ => false end.

Definition is_str (v : json) : bool :=
  match v with JStr _ => true | _ => false end.

(** The interfaces of a device record, when it has the mapping. *)
Definition interfaces_of (record : json) : option pydict :=
  match record with
  | JDict r =>
      match dict_get "interfaces" r with
      | Some (JDict ifs) => Some ifs
      | _ => None
      end
  | _ => None
  end.

(** A device record after enrichment, as the report writers expect it:
    an object whose ['interfaces'] maps names to texts. *)
Definition is_enriched (record : json) : bool :=
  match interfaces_of record with
  | Some ifs => forallb is_str (dict_values ifs)
  | None => false
  end.

(** A raw device record whose ['system-ip'] is the text [ip]. *)
Definition has_system_ip (ip : string) (device : json) : bool :=
  match device with
  | JDict m =>
      match dict_get "system-ip" m with
      | Some (JStr s) => String.eqb s ip
      | _ => false
      end
  | _ => false
  end.

Definition is_raw_device (device : json) : bool :=
  match device with
  | JDict m =>
      match dict_get "system-ip" m with
      | Some (JStr _) => true
      | _ => false
      end
  | _ => false
  end.

(** [o] returns, or raises an exception that satisfies [P]. *)
Definition raises_only {A} (P : exn -> Prop) (o : outcome A) : Prop :=
  match o with
  | Return _ => True
  | Raise e => P e
  | OutOfModel => False
  end.

Definition network_error (e : exn) : Prop :=
  e = AddressValueError \/ e = NetmaskValueError.

(** The outcome of [m] is [o], whatever was logged before. *)
Definition computes {A} (m : M A) (o : outcome A) : Prop :=
  forall log, fst (m log) = o.

(** [for x in l: s = f(x, s)], stopping at the first exception. *)
Fixpoint ofold {A S} (f : A -> S -> outcome S) (l : list A) (s : S) : outcome S :=
  match l with
  | [] => Return s
  | x :: rest =>
      s' <- f x s ;;
      ofold f rest s'
  end.

Section Reference.

Variable requests_get : string -> string * string -> requests.get_result.

(** One turn of the outer loop of [add_interface_info], without the
    log: the interfaces are fetched, the mapping is set to [{}], and the
    records retained are written into it in order. *)
Definition enrich_device (auth : string * string) (interface_query_base_url : string)
  (ignore_interface_list : list string) (device : string) (devices : pydict)
  : outcome pydict :=
  interfaces <- fetched requests_get (interface_query_base_url ++ device)%string auth ;;
  devices <- set_interfaces devices device (JDict []) ;;
  items <- py_iter interfaces ;;
  decisions <- omap (classify ignore_interface_list) items ;;
  set_interfaces devices device (JDict (record_all (somes decisions) [])).

(** [add_interface_info] without the log. *)
Definition enrich (devices : pydict) (auth : string * string)
  (interface_query_base_url : string) (ignore_interface_list : list string)
  : outcome pydict :=
  ofold (enrich_device auth interface_query_base_url ignore_interface_list)
        (dict_keys devices) devices.

(** The (name, address) pairs the inner loop retains for [device], in
    the order of the records. *)
Definition retained (auth : string * string) (interface_query_base_url : string)
  (ignore_interface_list : list string) (device : string)
  : outcome (list (string * json)) :=
  interfaces <- fetched requests_get (interface_query_base_url ++ device)%string auth ;;
  items <- py_iter interfaces ;;
  decisions <- omap (classify ignore_interface_list) items ;;
  Return (somes decisions).

(** The controller answers the query for [device] with a list whose
    items all satisfy [check]. *)
Definition replies_with (auth : string * string) (interface_query_base_url : string)
  (check : json -> bool) (device : string) : bool :=
  match fetched requests_get (interface_query_base_url ++ device)%string auth with
  | Return (JList items) => forallb check items
  | _ => false
  end.

End Reference.

(** The devices once [device] has had its turn of the outer loop. *)
Definition with_interfaces (device : string) (r : pydict) (pairs : list (string * json))
  (devices : pydict) : pydict :=
  dict_set device (JDict (dict_set "interfaces" (JDict (record_all pairs [])) r)) devices.

(** The exceptions of a run over records that only miss fields. *)
Definition missing_field (e : exn) : Prop :=
  e = KeyError "ifname" \/ e = KeyError "ip-address".

(** [device.get(key, "N/A")] on the fields [m] of a record. *)
Definition field_or_na (m : pydict) (key : string) : json :=
  match dict_get key m with
  | Some v => v
  | None => JStr "N/A"
  end.

(** The text of a value that is a [str]. *)
Definition text_of (v : json) : string :=
  match v with
  | JStr s => s
  | _ => ""
  end.

(** Each part followed by a newline. *)
Fixpoint lines_of (parts : list string) : string :=
  match parts with
  | [] => ""
  | p :: rest => (p ++ newline ++ lines_of rest)%string
  end.

(** The cells [export_to_excel] writes in [row] for a device record:
    one for each key and, when the record has interfaces, one with the
    names and one with the addresses. *)
Definition excel_key_cells_of (keys : list string) (row : Z) (r : pydict)
  : list xlsxwriter.write :=
  map (fun ck => xlsxwriter.Write row (fst ck) (field_or_na r (snd ck)) xlsxwriter.base_format)
      (enumerate keys 0).

Definition excel_interface_cells_of (keys : list string) (row : Z) (ifs : pydict)
  : list xlsxwriter.write :=
  match ifs with
  | [] => []
  | _ =>
      [xlsxwriter.Write row (Z.of_nat (List.length keys))
         (JStr (Str.strip (lines_of (dict_keys ifs)))) xlsxwriter.wrap_format;
       xlsxwriter.Write row (Z.of_nat (List.length keys) + 1)
         (JStr (Str.strip (lines_of (map text_of (dict_values ifs)))))
         xlsxwriter.wrap_format]
  end.

Definition excel_cells_of (keys : list string) (row : Z) (data : json)
  : list xlsxwriter.write :=
  match data with
  | JDict r =>
      excel_key_cells_of keys row r ++
      match interfaces_of data with
      | Some ifs => excel_interface_cells_of keys row ifs
      | None => []
      end
  | _ => []
  end.

(** The header line [export_to_html] writes. *)
Definition html_header (keys : list string) : list frag :=
  [Lit tab; Lit tab; Lit "<tr>"] ++ html_header_columns keys ++ [Lit cr].

(** A device record with at least one interface. *)
Definition has_interface (record : json) : bool :=
  match interfaces_of record with
  | Some (_ :: _) => true
  | _ => false
  end.

(** A value [worksheet.write] takes: [None], a [bool], a text, a float
    that is no NaN and no infinity, an [int] within the range of the
    floats. *)
Definition is_cell_value (v : json) : bool :=
  match v with
  | JNull | JBool _ | JStr _ => true
  | JInt n => Z.abs n <? 2 ^ 1024 - 2 ^ 970
  | JFloat bits => negb (Z.land (Z.shiftr bits 52) 2047 =? 2047)
  | JList _ | JDict _ => false
  end.

(** The fields of a record under [keys] are values [worksheet.write]
    takes. *)
Definition has_cell_values (keys : list string) (record : json) : bool :=
  match record with
  | JDict r => forallb (fun key => is_cell_value (field_or_na r key)) keys
  | _ => false
  end.

(** The exceptions of [worksheet.write] on a value it refuses. *)
Definition write_refusal (e : exn) : Prop :=
  e = TypeError \/ e = OverflowError.

(** The row [export_to_html] writes for a device record with
    interfaces: a cell for each key, one with the names and one with
    the addresses, each list joined by [<br>]. *)
Definition html_row_of (keys : list string) (record : json) : list frag :=
  match record, interfaces_of record with
  | JDict r, Some ifs =>
      [Lit tab; Lit tab; Lit tab; Lit "<tr>"] ++
      flat_map (fun key => [Lit "<td>"; Fmt (field_or_na r key); Lit "</td>"]) keys ++
      [Lit "<td>"; Lit (Str.join "<br>" (dict_keys ifs)); Lit "</td><td>";
       Lit (Str.join "<br>" (map text_of (dict_values ifs))); Lit "</td></tr>"; Lit cr]
  | _, _ => []
  end.

(** The data rows of the table: one for each device with an interface,
    in the order of the devices. *)
Definition html_rows_of (keys : list string) (devices : pydict) : list (list frag) :=
  map (fun kv => html_row_of keys (snd kv))
      (filter (fun kv => has_interface (snd kv)) devices).

(** The values of a byte, and of a base64 digit. *)
Definition byte_values : list Z := map Z.of_nat (seq 0 256).
Definition sextet_values : list Z := map Z.of_nat (seq 0 64).

(** The characters [urlsafe_b64encode] writes. *)
Definition b64url_chars : list ascii :=
  list_ascii_of_string
    "ABCDEFGHIJKLMNOPQRSTUVWXYZabcdefghijklmnopqrstuvwxyz0123456789-_=".

Definition b64url_char (c : ascii) : bool := existsb (Ascii.eqb c) b64url_chars.

Definition is_ascii_text (s : string) : bool :=
  forallb (fun c => Str.code c <? 128) (list_ascii_of_string s).

(** What [urlsafe_b64decode] reads where [urlsafe_b64encode] wrote [c]. *)
Definition b64_there_and_back (c : ascii) : ascii :=
  base64.urlsafe_decode_translation (base64.urlsafe_encode_translation c).

(** The base64 digits of the bytes [a], [b] (second and third digit of
    a group). *)
Definition sextet2 (a b : Z) : Z := Z.lor (Z.shiftl (Z.land a 3) 4) (Z.shiftr b 4).
Definition sextet3 (b c : Z) : Z := Z.lor (Z.shiftl (Z.land b 15) 2) (Z.shiftr c 6).

(** The arithmetic of a group, checked on one digit, one byte, two
    bytes. *)
Definition sextet_check (v : Z) : bool :=
  negb (Ascii.eqb (b64_there_and_back (base64.b2a_char v)) "=") &&
  match base64.a2b_value (b64_there_and_back (base64.b2a_char v)) with
  | Some v' => v' =? v
  | None => false
  end.

Definition in_sextet (v : Z) : bool := (0 <=? v) && (v <? 64).

Definition byte_check (a : Z) : bool :=
  in_sextet (Z.shiftr a 2) && in_sextet (Z.land a 63) &&
  in_sextet (Z.shiftl (Z.land a 3) 4) && in_sextet (Z.shiftl (Z.land a 15) 2) &&
  (Z.lor (Z.land (Z.shiftl (Z.shiftr a 6) 6) 255) (Z.land a 63) =? a) &&
  (Z.lor (Z.land (Z.shiftl (Z.shiftr a 2) 2) 255) (Z.shiftr (Z.shiftl (Z.land a 3) 4) 4) =? a) &&
  (Z.land (Z.shiftl (Z.land a 3) 4) 15 =? 0) &&
  (Z.lor (Z.land (Z.shiftl (Z.shiftr a 4) 4) 255) (Z.shiftr (Z.shiftl (Z.land a 15) 2) 2) =? a).

Definition pair_check (a b : Z) : bool :=
  in_sextet (sextet2 a b) && in_sextet (sextet3 a b) &&
  (Z.lor (Z.land (Z.shiftl (Z.shiftr a 2) 2) 255) (Z.shiftr (sextet2 a b) 4) =? a) &&
  (Z.land (sextet2 a b) 15 =? Z.shiftr b 4) &&
  (Z.lor (Z.land (Z.shiftl (Z.shiftr a 4) 4) 255) (Z.shiftr (sextet3 a b) 2) =? a) &&
  (Z.land (sextet3 a b) 3 =? Z.shiftr b 6).

Definition is_byte (a : Z) : Prop := 0 <= a < 256.

(* ================================================================== *)
(** * A controller to run the program against *)
(* ================================================================== *)

Module Scenario.

Definition interface (ifname address : string) : json :=
  JDict [("ifname", JStr ifname); ("ip-address", JStr address)].

Definition base : string := "https://vmanage:8443/dataservice/device/interface?deviceId=".

Definition auth : string * string := ("admin", "secret").

(** A controller that answers the interface query of each listed device
    with status 200 and its list under ['data'], and refuses the
    connection for any other URL. *)
Fixpoint controller (replies : list (string * list json)) (url : string)
  (credentials : string * string) : requests.get_result :=
  match replies with
  | [] => requests.Raises (RequestException ConnectionError)
  | (device, items) :: rest =>
      if String.eqb url (base ++ device)%string
      then requests.Responds
             {| requests.status_code := 200;
                requests.body := requests.Json (JDict [("data", JList items)]) |}
      else controller rest url credentials
  end.

(** The device of the scenario of the specification, formatted. *)
Definition r1 : pydict :=
  [("1.1.1.1", JDict [("system-ip", JStr "1.1.1.1"); ("host-name", JStr "r1")])].

Definition r1_with (interfaces : pydict) : pydict :=
  [("1.1.1.1", JDict [("system-ip", JStr "1.1.1.1"); ("host-name", JStr "r1");
                      ("interfaces", JDict interfaces)])].

(** The interfaces of the scenario of the specification. *)
Definition spec_interfaces : list json :=
  [interface "ge0/0" "8.8.8.8"; interface "ge0/1" "10.0.0.1";
   interface "ge0/0.22" "9.9.9.9"].

(** A public IPv6 address under ['ip-address']. *)
Definition ipv6_interfaces : list json :=
  [interface "ge0/0" "2001:4860:4860::8888"].

(** Two records of one name, both public. *)
Definition twice_interfaces : list json :=
  [interface "ge0/0" "8.8.8.8"; interface "ge0/0" "9.9.9.9"].

(** A record without ['ip-address'] after a good one. *)
Definition short_interfaces : list json :=
  [interface "ge0/0" "8.8.8.8"; JDict [("ifname", JStr "ge0/1")]].

(** Malformed addresses. *)
Definition malformed_interfaces : list json :=
  [interface "ge0/0" "not-an-ip"; interface "ge0/1" ""; interface "ge0/2" "8.8.8.8"].

(** A controller that answers every request with [r]. *)
Definition answering (r : requests.Response) (url : string) (credentials : string * string)
  : requests.get_result :=
  requests.Responds r.

(** Two raw devices with one ['system-ip'], and a third. *)
Definition raw_devices : list json :=
  [JDict [("system-ip", JStr "1.1.1.1"); ("host-name", JStr "old")];
   JDict [("system-ip", JStr "2.2.2.2"); ("host-name", JStr "r2"); ("uptime", JInt 7)];
   JDict [("system-ip", JStr "1.1.1.1"); ("version", JStr "20.9")]].

(** Two enriched devices: one with no interface, one with two. *)
Definition enriched : pydict :=
  [("1.1.1.1", JDict [("system-ip", JStr "1.1.1.1"); ("host-name", JStr "r1");
                      ("interfaces", JDict [])]);
   ("2.2.2.2", JDict [("system-ip", JStr "2.2.2.2"); ("host-name", JStr "r2");
                      ("interfaces", JDict [("ge0/0", JStr "8.8.8.8");
                                            ("ge0/1", JStr "9.9.9.9")])])].

(** A device without interface whose ['host-name'] is a list. *)
Definition listed : pydict :=
  [("1.1.1.1", JDict [("system-ip", JStr "1.1.1.1"); ("host-name", JList [JStr "r1"]);
                      ("interfaces", JDict [])])].

(** What [zlib.compress(data, 9)] of zlib 1.2.13 gives for three texts. *)
Definition zlib_compress (data : string) (level : Z) : string :=
  if String.eqb data "admin" then
    Str.of_codes [120; 218; 75; 76; 201; 205; 204; 3; 0; 6; 1; 2; 10]
  else if String.eqb data "secret" then
    Str.of_codes [120; 218; 43; 78; 77; 46; 74; 45; 1; 0; 8; 209; 2; 135]
  else if String.eqb data ("s3cret pass" ++ tab ++ "word ") then
    Str.of_codes [120; 218; 43; 54; 78; 46; 74; 45; 81; 40; 72; 44; 46; 230; 44; 207;
                  47; 74; 81; 0; 0; 55; 231; 6; 17]
  else Str.of_codes [120; 218; 3; 0; 0; 0; 0; 1].

(** A credential file as [store_creds] writes it for admin / secret. *)
Definition creds_file : list string :=
  [("eNpLTMnNzAMABgECCg==" ++ newline)%string; ("eNorTk0uSi0BAAjRAoc=" ++ newline)%string].

(** File systems: the file cannot be opened; it holds [lines]. *)
Definition unreadable (file_name : string) : outcome (list string) := Raise OSError.
Definition holding (lines : list string) (file_name : string) : outcome (list string) :=
  Return lines.

End Scenario.

Ltac break_match :=
  match goal with
  | |- context [match ?x with _ => _ end] => destruct x eqn:?
  end.

Ltac break_if :=
  match goal with
  | |- context [if ?x then _ else _] => destruct x eqn:?
  end.

(* ================================================================== *)
(** * Vocabulary: addresses as the controller writes them *)
(* ================================================================== *)

Definition is_octet (n : Z) : bool := (0 <=? n) && (n <=? 255).

(** The decimal text of [n], for [0 <= n <= 255]. *)
Definition octet_text (n : Z) : string :=
  let digit (d : Z) := String (ascii_of_nat (Z.to_nat (48 + d))) "" in
  if n <? 10 then digit n
  else if n <? 100 then (digit (n / 10) ++ digit (n mod 10))%string
  else (digit (n / 100) ++ digit (n / 10 mod 10) ++ digit (n mod 10))%string.

(** The text ["a.b.c.d"]. *)
Definition dotted_quad (a b c d : Z) : string :=
  (octet_text a ++ "." ++ octet_text b ++ "." ++ octet_text c ++ "." ++ octet_text d)%string.

(** The text ["a.b.c.d"], or ["a.b.c.d/p"] with a prefix length. *)
Definition address_text (a b c d : Z) (p : option Z) : string :=
  match p with
  | None => dotted_quad a b c d
  | Some n => (dotted_quad a b c d ++ "/" ++ octet_text n)%string
  end.

(** The prefix length of such a text: 32 when it has none. *)
Definition prefixlen_of (p : option Z) : Z :=
  match p with
  | None => 32
  | Some n => n
  end.

(** The network of [a.b.c.d] under the prefix length [p], host bits
    masked off. *)
Definition network_of (a b c d : Z) (p : Z) : ipaddress.network :=
  let netmask := ipaddress.ip_int_from_prefix ipaddress.V4 p in
  ipaddress.Network ipaddress.V4
    (Z.land (ipaddress.from_bytes_big [a; b; c; d]) netmask) netmask p.

(** The prefix length of the block of RFC 1918 that holds the addresses
    [a.b.*.*]: 10.0.0.0/8, 172.16.0.0/12 and 192.168.0.0/16. *)
Definition rfc1918_block (a b : Z) : option Z :=
  if a =? 10 then Some 8
  else if (a =? 172) && (16 <=? b) && (b <=? 31) then Some 12
  else if (a =? 192) && (b =? 168) then Some 16
  else None.

(** An octet and its text, checked: the text is made of digits, holds
    no separator, and reads back as the octet. *)
Definition octet_check (n : Z) : bool :=
  match ipaddress.parse_octet (octet_text n) with
  | Return m => m =? n
  | _ => false
  end
  && negb (Str.contains "." (octet_text n))
  && negb (Str.contains "/" (octet_text n))
  && Str.isascii_isdigit (octet_text n)
  && (Str.int10 (octet_text n) =? n).

(** The masks of two prefix lengths [q <= p]: the longer mask covers
    the shorter, whose bits the host part of the longer leaves alone. *)
Definition mask_check (q p : Z) : bool :=
  let mask := ipaddress.ip_int_from_prefix ipaddress.V4 in
  (Z.land (mask p) (mask q) =? mask q) &&
  (Z.land (Z.lxor (mask p) (ipaddress.ALL_ONES ipaddress.V4)) (mask q) =? 0) &&
  (mask q =? Z.shiftl (Z.ones q) (32 - q)).

(* ================================================================== *)
(** * Vocabulary: the order of the devices, the cells of the sheet *)
(* ================================================================== *)

(** The text under ['system-ip'] of a raw device. *)
Definition system_ip_of (device : json) : string :=
  match device with
  | JDict m =>
      match dict_get "system-ip" m with
      | Some (JStr s) => s
      | _ => ""
      end
  | _ => ""
  end.

(** The items of [l] that are not in [seen], each once, in the order of
    their first appearance. *)
Fixpoint first_occurrences (l seen : list string) : list string :=
  match l with
  | [] => []
  | x :: rest =>
      if existsb (String.eqb x) seen then first_occurrences rest seen
      else x :: first_occurrences rest (seen ++ [x])
  end.

(** The place of a cell in the sheet. *)
Definition position (w : xlsxwriter.write) : Z * Z :=
  (xlsxwriter.row w, xlsxwriter.col w).

(* ================================================================== *)
(** * Vocabulary: credentials and files *)
(* ================================================================== *)

(** The exceptions of a line of the password file that does not
    decode. *)
Definition decode_error (e : exn) : Prop :=
  e = UnicodeEncodeError \/ e = binascii_Error \/ e = zlib_error \/ e = UnicodeDecodeError.

(** A character that ends no line. *)
Definition no_line_end (c : ascii) : bool :=
  negb (Ascii.eqb c (ascii_of_nat 13)) && negb (Ascii.eqb c (ascii_of_nat 10)).

(** The record [store_creds] logs when the file cannot be written, and
    the one [get_creds] logs when it cannot be read. *)
Definition write_error (e : exn) : logrec :=
  (ERROR, [Lit "Error writing to file: "; FmtExn e]).

Definition read_error (e : exn) : logrec :=
  (ERROR, [Lit "Error reading from file: "; FmtExn e]).

(** The record [main] logs once the devices are fetched. *)
Definition fetched_record (count : Z) : logrec :=
  (INFO, [Lit "Fetched "; Fmt (JInt count); Lit " devices from the vManage server"]).

(** The keys [main] asks for. *)
Definition main_keys : list string :=
  ["system-ip"; "host-name"; "reachability"; "version"; "site-id"]%string.

(** The two URLs of [main]. *)
Definition device_query_url (args : Namespace) : string :=
  ("https://" ++ vmanage_address args ++ ":8443/dataservice/device")%string.

Definition interface_query_base_url (args : Namespace) : string :=
  ("https://" ++ vmanage_address args ++ ":8443/dataservice/device/interface?deviceId=")%string.

(** A run that got its arguments ends as the body of [main] does. *)
Definition ended (r : outcome unit * world) : ending * world :=
  (Finished (fst r), snd r).

(** The world once [setup_logging] has run. *)
Definition logging_to (log_file : string) (w : world) : world :=
  World (log w) (fs.update log_file fs.Journal (disk w)) (denied w) (Some INFO)
        (handlers w ++ [FileHandler log_file; StreamHandler]).

(** The password file is there, can be opened, and its first two lines
    decode to the user name and the password of [auth]. *)
Definition password_file_holds (path : string) (auth : string * string) (w : world) : Prop :=
  is_denied path w = false /\
  exists data lines l0 l1,
    fs.lookup path (disk w) = Some (fs.Text data) /\
    fs.readlines data = Return lines /\
    nth_error lines 0 = Some l0 /\
    nth_error lines 1 = Some l1 /\
    decode_line l0 = Return (fst auth) /\
    decode_line l1 = Return (snd auth).

(** An interface record whose name and address are texts. *)
Definition is_text_record (interface : json) : bool :=
  match interface with
  | JDict m =>
      match dict_get "ifname" m, dict_get "ip-address" m with
      | Some (JStr _), Some (JStr _) => true
      | _, _ => false
      end
  | _ => false
  end.

(** A path a file can be written at: not denied, and not the log
    file. *)
Definition can_write (path : string) (w : world) : bool :=
  negb (is_denied path w) &&
  match fs.lookup path (disk w) with
  | Some fs.Journal => false
  | _ => true
  end.

(* ================================================================== *)
(** * A run of [main] *)
(* ================================================================== *)

Module Run.

(** The arguments [parse_arguments] gives for [-a vmanage]: the
    defaults for the rest. *)
Definition args : Namespace :=
  {| vmanage_address := "vmanage";
     password_file := "vManageCreds.txt";
     log_file := "RetrieveCiscoPublicIP.log";
     output_file := "CiscoPublicIPs";
     ignore_list := ["ge0/0.22"%string] |}.

(** A world with no file, where every path can be opened. *)
Definition fresh : world := World [] [] [] None [].

(** The same, with a password file that cannot be opened. *)
Definition locked : world := World [] [] ["vManageCreds.txt"%string] None [].

(** The same, with no log file to be had. *)
Definition no_log : world := World [] [] ["RetrieveCiscoPublicIP.log"%string] None [].

(** A world after a first run: the password file holds the lines for
    [admin] and [secret]. *)
Definition later : world :=
  World [] [("vManageCreds.txt",
             fs.Text (("eNpLTMnNzAMABgECCg==" ++ newline) ++ ("eNorTk0uSi0BAAjRAoc=" ++ newline)))]
        [] None [].

(** One device, as the controller lists it. *)
Definition raw_device : json :=
  JDict [("system-ip", JStr "1.1.1.1"); ("host-name", JStr "r1");
         ("reachability", JStr "reachable"); ("uptime-date", JInt 1700000000)].

(** A controller that lists this device, and answers the query for its
    interfaces with those of the scenario of the specification. *)
Definition controller (url : string) (credentials : string * string) : requests.get_result :=
  if String.eqb url "https://vmanage:8443/dataservice/device"
  then requests.Responds
         {| requests.status_code := 200;
            requests.body := requests.Json (JDict [("data", JList [raw_device])]) |}
  else Scenario.controller [("1.1.1.1", Scenario.spec_interfaces)] url credentials.

(** A controller that lists a device without ['system-ip'] after it. *)
Definition careless (url : string) (credentials : string * string) : requests.get_result :=
  if String.eqb url "https://vmanage:8443/dataservice/device"
  then requests.Responds
         {| requests.status_code := 200;
            requests.body :=
              requests.Json (JDict [("data", JList [raw_device; JDict [("host-name", JStr "r2")]])]) |}
  else Scenario.controller [("1.1.1.1", Scenario.spec_interfaces)] url credentials.

(** A controller that refuses every connection. *)
Definition down (url : string) (credentials : string * string) : requests.get_result :=
  requests.Raises (RequestException ConnectionError).

End Run.

(* ================================================================== *)
(** * Vocabulary: command lines *)
(* ================================================================== *)

(** An argument that starts with no dash: a value. *)
Definition is_value (s : string) : bool := negb (String.prefix "-" s).

(** An option of the command line with the values that follow it. *)
Definition setting : Type := (string * list string)%type.

(** The option is one of the parser, written in full (['-a'] or
    ['--vmanage_address'], not an abbreviation), and is followed by
    values: at least one for the ignore list, one for any other. *)
Definition well_formed_setting (st : setting) : bool :=
  forallb is_value (snd st) &&
  match argparse.find_action (fst st) argparse.option_string_actions with
  | Some argparse.help | None => false
  | Some argparse.store_ignore_list => match snd st with [] => false | _ => true end
  | Some _ => match snd st with [_] => true | _ => false end
  end.

(** The option of the setting is the one of the address, ['-a'] or
    ['--vmanage_address']. *)
Definition gives_the_address (st : setting) : bool :=
  match argparse.find_action (fst st) argparse.option_string_actions with
  | Some argparse.store_vmanage_address => true
  | _ => false
  end.

(** The arguments of a command line made of settings. *)
Definition command_line (settings : list setting) : list string :=
  flat_map (fun st => fst st :: snd st) settings.

(** What a setting stores. *)
Definition apply_setting (ns : argparse.namespace) (st : setting) : argparse.namespace :=
  match argparse.find_action (fst st) argparse.option_string_actions with
  | Some argparse.store_ignore_list => argparse.store_list (snd st) ns
  | Some a => argparse.store a (hd ""%string (snd st)) ns
  | None => ns
  end.

(** The namespace [parse_args] returns for a filled namespace, or the
    exit for the missing address. *)
Definition finish (ns : argparse.namespace) : argparse.result :=
  match argparse.ns_vmanage_address ns with
  | None => argparse.Exit 2
  | Some address =>
      argparse.Parsed {| vmanage_address := address;
                         password_file := argparse.ns_password_file ns;
                         log_file := argparse.ns_log_file ns;
                         output_file := argparse.ns_output_file ns;
                         ignore_list := argparse.ns_ignore_list ns |}
  end.

(** The pattern of a setting. *)
Definition setting_pattern (st : setting) : list (argparse.kind * string) :=
  (argparse.Opt (argparse.Tuple
                   (argparse.find_action (fst st) argparse.option_string_actions)
                   (fst st) None), fst st)
  :: map (fun v => (argparse.Arg, v)) (snd st).

(* ================================================================== *)
(** * Dictionaries *)
(* ================================================================== *)

Unset Implicit Arguments.

Section DictFacts.

Lemma dict_get_set_same (k : string) (v : json) (d : pydict) :
  dict_get k (dict_set k v d) = Some v.
Proof.
  induction d as [|[k' v'] d IH]; simpl.
  - now rewrite String.eqb_refl.
  - destruct (String.eqb k k') eqn:E; simpl; rewrite E; auto.
Qed.

Lemma dict_get_set_other (k k' : string) (v : json) (d : pydict) :
  k <> k' -> dict_get k' (dict_set k v d) = dict_get k' d.
Proof.
  intros Hne. induction d as [|[k0 v0] d IH]; simpl.
  - destruct (String.eqb k' k) eqn:E; auto.
    apply String.eqb_eq in E. congruence.
  - destruct (String.eqb k k0) eqn:E; simpl.
    + apply String.eqb_eq in E. subst k0.
      destruct (String.eqb k' k) eqn:E'; auto.
      apply String.eqb_eq in E'. congruence.
    + now rewrite IH.
Qed.

Lemma dict_get_set (k k' : string) (v : json) (d : pydict) :
  dict_get k' (dict_set k v d) = if String.eqb k k' then Some v else dict_get k' d.
Proof.
  destruct (String.eqb k k') eqn:E.
  - apply String.eqb_eq in E. subst. apply dict_get_set_same.
  - apply String.eqb_neq in E. now apply dict_get_set_other.
Qed.

Lemma dict_get_some_in (k : string) (v : json) (d : pydict) :
  dict_get k d = Some v -> In (k, v) d.
Proof.
  induction d as [|[k' v'] d IH]; simpl; [discriminate|].
  destruct (String.eqb k k') eqn:E.
  - apply String.eqb_eq in E. intros [= ->]. subst. now left.
  - intros H. right. auto.
Qed.

Lemma dict_get_none_iff (k : string) (d : pydict) :
  dict_get k d = None <-> ~ In k (dict_keys d).
Proof.
  induction d as [|[k' v'] d IH]; simpl.
  - tauto.
  - destruct (String.eqb k k') eqn:E.
    + apply String.eqb_eq in E. subst. split; [discriminate|]. intros H. exfalso. auto.
    + apply String.eqb_neq in E. rewrite IH. split.
      * intros H [H1|H1]; [congruence|auto].
      * intros H H1. apply H. now right.
Qed.

Lemma dict_get_in_keys (k : string) (v : json) (d : pydict) :
  dict_get k d = Some v -> In k (dict_keys d).
Proof.
  intros H. destruct (in_dec string_dec k (dict_keys d)) as [Hin|Hnin]; auto.
  apply dict_get_none_iff in Hnin. congruence.
Qed.

Lemma in_keys_dict_get (k : string) (d : pydict) :
  In k (dict_keys d) -> exists v, dict_get k d = Some v.
Proof.
  intros Hin. destruct (dict_get k d) eqn:E; eauto.
  apply dict_get_none_iff in E. contradiction.
Qed.

Lemma dict_keys_set_present (k : string) (v : json) (d : pydict) :
  In k (dict_keys d) -> dict_keys (dict_set k v d) = dict_keys d.
Proof.
  unfold dict_keys. induction d as [|[k' v'] d IH]; simpl; [tauto|].
  intros Hin. destruct (String.eqb k k') eqn:E; simpl; auto.
  apply String.eqb_neq in E. f_equal. apply IH. destruct Hin; congruence.
Qed.

Lemma dict_keys_set_absent (k : string) (v : json) (d : pydict) :
  ~ In k (dict_keys d) -> dict_keys (dict_set k v d) = dict_keys d ++ [k].
Proof.
  unfold dict_keys. induction d as [|[k' v'] d IH]; simpl; auto.
  intros Hnin. destruct (String.eqb k k') eqn:E; simpl.
  - apply String.eqb_eq in E. subst. exfalso. auto.
  - f_equal. apply IH. auto.
Qed.

Lemma in_dict_keys_set (k k' : string) (v : json) (d : pydict) :
  In k' (dict_keys (dict_set k v d)) <-> k' = k \/ In k' (dict_keys d).
Proof.
  destruct (in_dec string_dec k (dict_keys d)) as [Hin|Hnin].
  - rewrite dict_keys_set_present by assumption. split; auto.
    intros [->|H]; auto.
  - rewrite dict_keys_set_absent by assumption. rewrite in_app_iff. simpl.
    split; intros H; intuition.
Qed.

Lemma wf_dict_set (k : string) (v : json) (d : pydict) :
  wf_dict d -> wf_dict (dict_set k v d).
Proof.
  unfold wf_dict. intros Hwf.
  destruct (in_dec string_dec k (dict_keys d)) as [Hin|Hnin].
  - now rewrite dict_keys_set_present.
  - rewrite dict_keys_set_absent by assumption.
    apply NoDup_app; auto.
    + constructor; [simpl; tauto|constructor].
    + intros x Hx [<-|[]]. contradiction.
Qed.

Lemma dict_set_set_same (k : string) (v v' : json) (d : pydict) :
  dict_set k v' (dict_set k v d) = dict_set k v' d.
Proof.
  induction d as [|[k0 v0] d IH]; simpl.
  - now rewrite String.eqb_refl.
  - destruct (String.eqb k k0) eqn:E; simpl; rewrite E; auto. now rewrite IH.
Qed.

Lemma dict_values_in (k : string) (v : json) (d : pydict) :
  In (k, v) d -> In v (dict_values d).
Proof.
  intros H. unfold dict_values. change v with (snd (k, v)). now apply in_map.
Qed.

(** Every entry of [dict_set k v d] is the new one or an old one. *)
Lemma in_dict_set (k k' : string) (v v' : json) (d : pydict) :
  In (k', v') (dict_set k v d) -> (k' = k /\ v' = v) \/ In (k', v') d.
Proof.
  induction d as [|[k0 v0] d IH]; simpl.
  - intros [[= <- <-]|[]]. auto.
  - destruct (String.eqb k k0) eqn:E; simpl.
    + apply String.eqb_eq in E. subst.
      intros [[= <- <-]|H]; auto.
    + intros [H|H]; auto. apply IH in H. tauto.
Qed.

End DictFacts.

(* ================================================================== *)
(** * What [ip_network] can raise *)
(* ================================================================== *)

Section IpFacts.

Import ipaddress.

Lemma raises_only_bind {A B} (P : exn -> Prop) (o : outcome A) (k : A -> outcome B) :
  raises_only P o -> (forall a, o = Return a -> raises_only P (k a)) ->
  raises_only P (obind o k).
Proof.
  destruct o; simpl; intros; auto; tauto.
Qed.

Lemma raises_only_weaken {A} (P Q : exn -> Prop) (o : outcome A) :
  (forall e, P e -> Q e) -> raises_only P o -> raises_only Q o.
Proof.
  destruct o; simpl; auto.
Qed.

Lemma raises_only_omap {A B} (P : exn -> Prop) (f : A -> outcome B) (l : list A) :
  (forall x, raises_only P (f x)) -> raises_only P (omap f l).
Proof.
  intros Hf. induction l as [|x l IH]; simpl; auto.
  apply raises_only_bind; auto. intros y _.
  apply raises_only_bind; auto. intros ys _. exact I.
Qed.

Lemma parse_octet_raises (s : string) :
  raises_only (eq ValueError) (parse_octet s).
Proof.
  unfold parse_octet. repeat break_if; simpl; auto.
Qed.

Lemma ip_int_from_string4_raises (s : string) :
  raises_only (eq AddressValueError) (ip_int_from_string4 s).
Proof.
  unfold ip_int_from_string4. repeat break_if; simpl; auto.
  pose proof (raises_only_omap (eq ValueError) parse_octet (Str.split "." s)
                parse_octet_raises) as H.
  destruct (omap parse_octet (Str.split "." s)); simpl in *; auto.
  now subst.
Qed.

Lemma IPv4Address_raises (s : string) :
  raises_only (eq AddressValueError) (IPv4Address s).
Proof.
  unfold IPv4Address. break_if; simpl; auto. apply ip_int_from_string4_raises.
Qed.

Lemma parse_hextet_raises (s : string) :
  raises_only (eq ValueError) (parse_hextet s).
Proof.
  unfold parse_hextet. repeat break_if; simpl; auto.
Qed.

Lemma shift_in_raises (ps : list string) (acc : Z) :
  raises_only (eq ValueError) (shift_in ps acc).
Proof.
  revert acc. induction ps as [|p ps IH]; intros acc; simpl; auto.
  apply raises_only_bind; auto using parse_hextet_raises.
Qed.

Lemma find_skip_raises (inner : list string) (i : nat) (skip : option nat) :
  raises_only (eq AddressValueError) (find_skip inner i skip).
Proof.
  revert i skip. induction inner as [|p inner IH]; intros i skip; simpl; auto.
  break_if; auto. destruct skip; simpl; auto.
Qed.

Lemma ip_int_from_string6_raises (s : string) :
  raises_only (eq AddressValueError) (ip_int_from_string6 s).
Proof.
  unfold ip_int_from_string6.
  break_if; simpl; auto.
  break_if; simpl; auto.
  apply raises_only_bind.
  { break_if; simpl; auto.
    pose proof (IPv4Address_raises (last (Str.split ":" s) "")) as H.
    destruct (IPv4Address (last (Str.split ":" s) "")); simpl in *; auto. }
  intros parts _.
  break_if; simpl; auto.
  apply raises_only_bind; [apply find_skip_raises|].
  intros skip _.
  apply raises_only_bind.
  { destruct skip; simpl.
    - apply raises_only_bind.
      { repeat break_if; simpl; auto. }
      intros hi _. apply raises_only_bind.
      { repeat break_if; simpl; auto. }
      intros lo _. break_if; simpl; auto.
    - repeat break_if; simpl; auto. }
  intros [[hi lo] skipped] _.
  match goal with
  | |- raises_only _ (match ?o with _ => _ end) =>
      assert (raises_only (eq ValueError) o) as H;
      [| destruct o; simpl in *; auto; now subst ]
  end.
  apply raises_only_bind; [apply shift_in_raises|].
  intros ? _. apply shift_in_raises.
Qed.

Lemma IPv6Address_raises (s : string) :
  raises_only (eq AddressValueError) (IPv6Address s).
Proof.
  unfold IPv6Address. break_if; simpl; auto.
  apply raises_only_bind.
  - unfold split_scope_id. destruct (Str.partition "%" s) as [[a sep] sc].
    repeat break_if; simpl; auto.
  - intros. apply ip_int_from_string6_raises.
Qed.

Lemma prefix_from_prefix_string_raises (v : version) (s : string) :
  raises_only (eq NetmaskValueError) (prefix_from_prefix_string v s).
Proof.
  unfold prefix_from_prefix_string. repeat break_if; simpl; auto.
Qed.

Lemma prefix_from_ip_string_raises (s : string) :
  raises_only (eq NetmaskValueError) (prefix_from_ip_string s).
Proof.
  unfold prefix_from_ip_string.
  pose proof (ip_int_from_string4_raises s) as H.
  destruct (ip_int_from_string4 s); simpl in *; auto.
  repeat break_match; simpl; auto.
Qed.

Lemma make_netmask_raises (v : version) (arg : mask_arg) :
  raises_only (eq NetmaskValueError) (make_netmask v arg).
Proof.
  unfold make_netmask. destruct arg as [n|s].
  - break_if; simpl; auto.
  - destruct v.
    + pose proof (prefix_from_prefix_string_raises V4 s) as H.
      destruct (prefix_from_prefix_string V4 s); simpl in *; auto.
      subst. apply prefix_from_ip_string_raises.
    + apply prefix_from_prefix_string_raises.
Qed.

Lemma IPNetwork_raises (v : version) (a : address_arg) :
  raises_only network_error (IPNetwork v a false).
Proof.
  unfold IPNetwork, network_error.
  apply raises_only_bind.
  { unfold split_addr_prefix. destruct a; simpl; auto.
    repeat break_match; simpl; auto. }
  intros [addr mask] _.
  apply raises_only_bind.
  { destruct addr as [n|s].
    - unfold check_int_address. repeat break_if; simpl; auto.
    - destruct v.
      + eapply raises_only_weaken; [|apply IPv4Address_raises]. intros; subst; auto.
      + eapply raises_only_weaken; [|apply IPv6Address_raises]. intros; subst; auto. }
  intros ip _.
  apply raises_only_bind.
  { eapply raises_only_weaken; [|apply make_netmask_raises]. intros; subst; auto. }
  intros p _. break_if; simpl; auto.
Qed.

Lemma ip_network_arg_raises (a : address_arg) :
  raises_only (eq ValueError) (ip_network_arg a false).
Proof.
  unfold ip_network_arg, IPv4Network, IPv6Network.
  pose proof (IPNetwork_raises V4 a) as H4.
  pose proof (IPNetwork_raises V6 a) as H6.
  unfold network_error in *.
  destruct (IPNetwork V4 a false) as [n|e|]; simpl in *; auto.
  destruct H4 as [-> | ->];
    (destruct (IPNetwork V6 a false) as [n|e'|]; simpl in *; auto;
     destruct H6 as [-> | ->]; simpl; auto).
Qed.

(** [ip_network] returns a network or raises [ValueError], whatever the
    JSON value. *)
Lemma ip_network_raises (address : json) :
  raises_only (eq ValueError) (ip_network address false).
Proof.
  destruct address; simpl; auto using ip_network_arg_raises.
Qed.

(** The same parse decides [is_ipv4]: it never raises. *)
Lemma is_ipv4_spec (address : json) :
  (exists net, ip_network address false = Return net /\ is_ipv4 address = Return true) \/
  (ip_network address false = Raise ValueError /\ is_ipv4 address = Return false).
Proof.
  unfold is_ipv4. pose proof (ip_network_raises address) as H.
  destruct (ip_network address false) as [n|e|]; simpl in *.
  - left. eauto.
  - right. subst. auto.
  - contradiction.
Qed.

(** An address the IPv4 constructor accepts is the one [ip_network]
    returns: the IPv4 parse is tried first. *)
Lemma ip_network_ipv4 (s : string) (net : network) :
  IPv4Network (AddrStr s) false = Return net ->
  ip_network (JStr s) false = Return net.
Proof.
  intros H. simpl. unfold ip_network_arg. now rewrite H.
Qed.

End IpFacts.

(* ================================================================== *)
(** * The monad: outcomes do not depend on the log *)
(* ================================================================== *)

Section MonadFacts.

Lemma computes_ret {A} (a : A) : computes (mret a) (Return a).
Proof. intros log. reflexivity. Qed.

Lemma computes_lift {A} (o : outcome A) : computes (lift o) o.
Proof. intros log. reflexivity. Qed.

Lemma computes_info (msg : list frag) : computes (logging_info msg) (Return tt).
Proof. intros log. reflexivity. Qed.

Lemma computes_bind {A B} (m : M A) (k : A -> M B) (o : outcome A) (f : A -> outcome B) :
  computes m o ->
  (forall a, o = Return a -> computes (k a) (f a)) ->
  computes (mbind m k) (obind o f).
Proof.
  intros Hm Hk log. unfold mbind. specialize (Hm log).
  destruct (m log) as [[a|e|] log']; simpl in *; subst; simpl; auto.
  now apply Hk.
Qed.

Lemma computes_seq {A B} (m : M A) (k : M B) (a : A) (o : outcome B) :
  computes m (Return a) -> computes k o -> computes (mbind m (fun _ => k)) o.
Proof.
  intros Hm Hk.
  change o with (obind (Return a) (fun _ => o)).
  apply computes_bind; auto.
Qed.

Lemma omap_return_forall2 {A B} (f : A -> outcome B) (l : list A) (ys : list B) :
  omap f l = Return ys <-> Forall2 (fun x y => f x = Return y) l ys.
Proof.
  revert ys. induction l as [|x l IH]; intros ys; simpl.
  - split.
    + intros [= <-]. constructor.
    + intros H. inversion H. reflexivity.
  - split.
    + destruct (f x) eqn:E; simpl; try discriminate.
      destruct (omap f l) eqn:E'; simpl; try discriminate.
      intros [= <-]. constructor; auto. now apply IH.
    + intros H. inversion H as [|? y ? ys' Hy Hys]; subst.
      rewrite Hy. simpl. apply IH in Hys. now rewrite Hys.
Qed.

End MonadFacts.

(* ================================================================== *)
(** * [add_interface_info] and its reference semantics *)
(* ================================================================== *)

Section EnricherFacts.

Variable requests_get : string -> string * string -> requests.get_result.
Variable auth : string * string.
Variable base : string.
Variable ignore : list string.

(** [fetch_raw_json] returns the same list whatever was logged before. *)
Lemma fetch_raw_json_computes (url : string) :
  computes (fetch_raw_json requests_get url auth) (fetched requests_get url auth).
Proof.
  intros log. unfold fetched, fetch_raw_json, try_except, mbind, lift.
  destruct (requests_get url auth) as [e|r]; simpl.
  - destruct (is_RequestException e); reflexivity.
  - destruct (requests.raise_for_status r) as [[]|e|]; simpl; auto.
    + destruct (requests.json_of r) as [j|e|]; simpl; auto.
      * destruct (py_get j "data" (JList [])) as [v|e|]; simpl; auto.
        destruct (is_RequestException e); reflexivity.
      * destruct (is_RequestException e); reflexivity.
    + destruct (is_RequestException e); reflexivity.
Qed.

Lemma dict_set_get_same (k : string) (v : json) (d : pydict) :
  dict_get k d = Some v -> dict_set k v d = d.
Proof.
  induction d as [|[k' v'] d IH]; simpl; [discriminate|].
  destruct (String.eqb k k') eqn:E.
  - intros [= ->]. reflexivity.
  - intros H. now rewrite IH.
Qed.

Lemma set_interfaces_ok (devices : pydict) (device : string) (r : pydict) (v : json) :
  dict_get device devices = Some (JDict r) ->
  set_interfaces devices device v =
  Return (dict_set device (JDict (dict_set "interfaces" v r)) devices).
Proof.
  intros H. unfold set_interfaces. simpl. rewrite H. reflexivity.
Qed.

Lemma set_interfaces_returns (devices devices' : pydict) (device : string) (v : json) :
  set_interfaces devices device v = Return devices' ->
  exists r, dict_get device devices = Some (JDict r) /\
            devices' = dict_set device (JDict (dict_set "interfaces" v r)) devices.
Proof.
  unfold set_interfaces. simpl.
  destruct (dict_get device devices) as [[]|] eqn:E; simpl; try discriminate.
  intros [= <-]. eauto.
Qed.

Lemma set_interface_ok (devices : pydict) (device name : string) (r ifs : pydict)
  (address : json) :
  dict_get device devices = Some (JDict r) ->
  dict_get "interfaces" r = Some (JDict ifs) ->
  set_interface devices device (JStr name) address =
  Return (dict_set device
            (JDict (dict_set "interfaces" (JDict (dict_set name address ifs)) r)) devices).
Proof.
  intros H1 H2. unfold set_interface. simpl. rewrite H1. simpl. rewrite H2. simpl.
  now apply set_interfaces_ok.
Qed.

(** The body of the inner loop does what [classify] decides. *)
Lemma interface_body_computes (device : string) (interface : json) (devices : pydict)
  (r ifs : pydict) :
  dict_get device devices = Some (JDict r) ->
  dict_get "interfaces" r = Some (JDict ifs) ->
  computes (interface_body ignore device interface devices)
    (decision <- classify ignore interface ;;
     match decision with
     | None => Return devices
     | Some (name, address) =>
         Return (dict_set device
                   (JDict (dict_set "interfaces" (JDict (dict_set name address ifs)) r))
                   devices)
     end).
Proof.
  intros H1 H2 log. unfold interface_body, classify, mbind, lift, logging_info, mret.
  destruct (py_getitem interface "ifname") as [ifname|e|]; simpl; auto.
  destruct (py_in ifname ignore); simpl; auto.
  destruct (py_getitem interface "ip-address") as [address|e|]; simpl; auto.
  destruct (is_ipv4 address) as [[]|e|]; simpl; auto.
  destruct (ipaddress.ip_network address false) as [net|e|]; simpl; auto.
  destruct (ipaddress.is_private net); simpl; auto.
  destruct ifname; simpl;
    try (unfold set_interface; simpl; rewrite H1; simpl; rewrite H2; reflexivity).
  now rewrite (set_interface_ok _ _ _ _ _ _ H1 H2).
Qed.

(** The inner loop writes the retained records into the mapping, in
    order, and raises what the first failing record raises. *)
Lemma interface_loop_computes (device : string) (items : list json) :
  forall (devices r ifs : pydict),
  dict_get device devices = Some (JDict r) ->
  dict_get "interfaces" r = Some (JDict ifs) ->
  computes (interface_loop ignore device items devices)
    (decisions <- omap (classify ignore) items ;;
     Return (dict_set device
               (JDict (dict_set "interfaces" (JDict (record_all (somes decisions) ifs)) r))
               devices)).
Proof.
  induction items as [|interface items IH]; intros devices r ifs H1 H2.
  - intros log. simpl. unfold record_all. simpl.
    rewrite (dict_set_get_same _ _ _ H2). now rewrite (dict_set_get_same _ _ _ H1).
  - intros log. simpl. unfold mbind.
    pose proof (interface_body_computes _ interface _ _ _ H1 H2 log) as Hb.
    destruct (interface_body ignore device interface devices log) as [o log'].
    simpl in Hb. subst o.
    destruct (classify ignore interface) as [[[name address]|]|e|]; simpl; auto.
    + set (ifs1 := dict_set name address ifs).
      set (r1 := dict_set "interfaces" (JDict ifs1) r).
      assert (G1 : dict_get device (dict_set device (JDict r1) devices) = Some (JDict r1))
        by apply dict_get_set_same.
      assert (G2 : dict_get "interfaces" r1 = Some (JDict ifs1))
        by apply dict_get_set_same.
      rewrite (IH _ _ _ G1 G2 log').
      destruct (omap (classify ignore) items) as [ds| |]; simpl; auto.
      unfold r1. now rewrite !dict_set_set_same.
    + rewrite (IH _ _ _ H1 H2 log').
      destruct (omap (classify ignore) items) as [ds| |]; simpl; auto.
Qed.

(** One turn of the outer loop is [enrich_device]. *)
Lemma device_body_computes (deviceCount deviceNum : Z) (device : string)
  (devices : pydict) :
  computes (device_body requests_get auth base ignore deviceCount deviceNum device devices)
           (enrich_device requests_get auth base ignore device devices).
Proof.
  unfold device_body, enrich_device.
  eapply computes_seq; [apply computes_info|].
  apply computes_bind; [apply fetch_raw_json_computes|].
  intros interfaces _.
  apply computes_bind; [apply computes_lift|].
  intros devices1 Hd1.
  apply computes_bind; [apply computes_lift|].
  intros items _.
  apply set_interfaces_returns in Hd1 as (r & Hr & ->).
  set (r1 := dict_set "interfaces" (JDict []) r).
  assert (G1 : dict_get device (dict_set device (JDict r1) devices) = Some (JDict r1))
    by apply dict_get_set_same.
  assert (G2 : dict_get "interfaces" r1 = Some (JDict []))
    by apply dict_get_set_same.
  intros log. rewrite (interface_loop_computes _ _ _ _ _ G1 G2 log).
  destruct (omap (classify ignore) items) as [ds| |]; simpl; auto.
  now rewrite (set_interfaces_ok _ _ _ _ G1).
Qed.

Lemma device_loop_computes (deviceCount : Z) (todo : list (Z * string)) :
  forall devices,
  computes (device_loop requests_get auth base ignore deviceCount todo devices)
           (ofold (enrich_device requests_get auth base ignore) (map snd todo) devices).
Proof.
  induction todo as [|[deviceNum device] todo IH]; intros devices.
  - apply computes_ret.
  - simpl. apply computes_bind; [apply device_body_computes|].
    intros devices1 _. apply IH.
Qed.

Lemma map_snd_enumerate {A} (l : list A) (start : Z) :
  map snd (enumerate l start) = l.
Proof.
  revert start. induction l as [|x l IH]; intros start; simpl; auto. now rewrite IH.
Qed.

(** [add_interface_info] returns (or raises) what [enrich] does,
    whatever was logged before. *)
Lemma add_interface_info_computes (devices : pydict) :
  computes (add_interface_info requests_get devices auth base ignore)
           (enrich requests_get devices auth base ignore).
Proof.
  unfold add_interface_info, enrich.
  intros log. rewrite device_loop_computes. now rewrite map_snd_enumerate.
Qed.

End EnricherFacts.

(* ================================================================== *)
(** * What the enriched mapping holds *)
(* ================================================================== *)

Section RecordAll.

Lemma record_all_app (p1 p2 : list (string * json)) (d : pydict) :
  record_all (p1 ++ p2) d = record_all p2 (record_all p1 d).
Proof. unfold record_all. apply fold_left_app. Qed.

Lemma in_record_all (pairs : list (string * json)) :
  forall (d : pydict) (n : string) (a : json),
  In (n, a) (record_all pairs d) -> In (n, a) pairs \/ In (n, a) d.
Proof.
  induction pairs as [|[n0 a0] pairs IH]; intros d n a; simpl; auto.
  intros H. apply IH in H as [H|H]; auto.
  apply in_dict_set in H as [[-> ->]|H]; auto.
Qed.

(** A name no pair carries keeps its entry. *)
Lemma record_all_other (pairs : list (string * json)) (n : string) :
  forall d, (forall a, ~ In (n, a) pairs) ->
  dict_get n (record_all pairs d) = dict_get n d.
Proof.
  induction pairs as [|[n0 a0] pairs IH]; intros d Hn; simpl; auto.
  rewrite IH.
  - apply dict_get_set_other. intros ->. apply (Hn a0). now left.
  - intros a Ha. apply (Hn a). now right.
Qed.

(** The last pair that carries a name decides its entry. *)
Lemma record_all_last (p1 p2 : list (string * json)) (n : string) (a : json) (d : pydict) :
  (forall a', ~ In (n, a') p2) ->
  dict_get n (record_all (p1 ++ (n, a) :: p2) d) = Some a.
Proof.
  intros Hn. rewrite record_all_app. simpl.
  rewrite record_all_other by assumption. apply dict_get_set_same.
Qed.

Lemma in_somes {A} (x : A) (l : list (option A)) :
  In x (somes l) <-> In (Some x) l.
Proof.
  induction l as [|[y|] l IH]; simpl; try tauto.
  - rewrite IH. split; intros [H|H]; auto; left; congruence.
  - rewrite IH. split; auto. intros [H|H]; [discriminate|auto].
Qed.

Lemma somes_app {A} (l1 l2 : list (option A)) :
  somes (l1 ++ l2) = somes l1 ++ somes l2.
Proof.
  induction l1 as [|[y|] l1 IH]; simpl; auto. now rewrite IH.
Qed.

End RecordAll.

Section Classify.

Variable ignore : list string.

(** When [classify] keeps a record. *)
Lemma classify_some_iff (interface : json) (name : string) (address : json) :
  classify ignore interface = Return (Some (name, address)) <->
  py_getitem interface "ifname" = Return (JStr name) /\
  existsb (String.eqb name) ignore = false /\
  py_getitem interface "ip-address" = Return address /\
  exists net, ipaddress.ip_network address false = Return net /\
              ipaddress.is_private net = false.
Proof.
  unfold classify. split.
  - destruct (py_getitem interface "ifname") as [ifname|e|]; simpl; try discriminate.
    destruct (py_in ifname ignore) eqn:Hin; try discriminate.
    destruct (py_getitem interface "ip-address") as [addr|e|]; simpl; try discriminate.
    destruct (is_ipv4_spec addr) as [(net & Hn & Hv)|(Hn & Hv)]; rewrite Hv; simpl;
      try discriminate.
    rewrite Hn. simpl.
    destruct (ipaddress.is_private net) eqn:Hp; try discriminate.
    destruct ifname; try discriminate.
    intros [= -> ->]. simpl in Hin. eauto 10.
  - intros (H1 & H2 & H3 & net & H4 & H5).
    rewrite H1. simpl. rewrite H2. rewrite H3. simpl.
    unfold is_ipv4. rewrite H4. simpl. now rewrite H5.
Qed.

(** A record with both fields and a text for a name is classified
    without an exception. *)
Lemma classify_record (interface : json) :
  is_interface_record interface = true ->
  exists decision, classify ignore interface = Return decision.
Proof.
  unfold is_interface_record, classify.
  destruct interface as [| | | | | |m]; try discriminate. simpl.
  destruct (dict_get "ifname" m) as [[| | | |n| |]|]; try discriminate.
  destruct (dict_get "ip-address" m) as [addr|]; try discriminate.
  intros _. simpl.
  destruct (existsb (String.eqb n) ignore); eauto.
  destruct (is_ipv4_spec addr) as [(net & Hn & Hv)|(Hn & Hv)]; rewrite Hv; simpl; eauto.
  rewrite Hn. simpl. destruct (ipaddress.is_private net); eauto.
Qed.

(** A record whose name, if any, is a text is classified or raises
    [KeyError]; it raises it when a field it needs is missing. *)
Lemma classify_named_record (interface : json) :
  is_named_record interface = true ->
  if lacks_field ignore interface
  then exists key, classify ignore interface = Raise (KeyError key) /\
                   (key = "ifname" \/ key = "ip-address")
  else exists decision, classify ignore interface = Return decision.
Proof.
  unfold is_named_record, lacks_field, classify.
  destruct interface as [| | | | | |m]; try discriminate. simpl.
  destruct (dict_get "ifname" m) as [[| | | |n| |]|]; try discriminate; intros _; simpl.
  - destruct (existsb (String.eqb n) ignore); simpl; eauto.
    destruct (dict_get "ip-address" m) as [addr|]; simpl; eauto.
    destruct (is_ipv4_spec addr) as [(net & Hn & Hv)|(Hn & Hv)]; rewrite Hv; simpl; eauto.
    rewrite Hn. simpl. destruct (ipaddress.is_private net); eauto.
  - eauto.
Qed.

Lemma omap_classify_records (items : list json) :
  forallb is_interface_record items = true ->
  exists decisions, omap (classify ignore) items = Return decisions.
Proof.
  induction items as [|i items IH]; simpl; eauto.
  intros H. apply andb_true_iff in H as [Hi Hs].
  destruct (classify_record i Hi) as [d ->]. destruct (IH Hs) as [ds ->]. simpl. eauto.
Qed.

(** Over records whose names are texts the loop returns, unless one
    lacks a field it needs: then it raises [KeyError]. *)
Lemma omap_classify_named (items : list json) :
  forallb is_named_record items = true ->
  if existsb (lacks_field ignore) items
  then exists key, omap (classify ignore) items = Raise (KeyError key) /\
                   (key = "ifname" \/ key = "ip-address")
  else exists decisions, omap (classify ignore) items = Return decisions.
Proof.
  induction items as [|i items IH]; simpl; eauto.
  intros H. apply andb_true_iff in H as [Hi Hs].
  pose proof (classify_named_record i Hi) as Hc.
  destruct (lacks_field ignore i); simpl.
  - destruct Hc as (key & -> & Hk). simpl. eauto.
  - destruct Hc as (d & ->). simpl. specialize (IH Hs).
    destruct (existsb (lacks_field ignore) items).
    + destruct IH as (key & -> & Hk). simpl. eauto.
    + destruct IH as (ds & ->). simpl. eauto.
Qed.

End Classify.

Section EnrichFacts.

Variable requests_get : string -> string * string -> requests.get_result.
Variable auth : string * string.
Variable base : string.
Variable ignore : list string.

Local Abbreviation step := (enrich_device requests_get auth base ignore).
Local Abbreviation kept := (retained requests_get auth base ignore).

(** On a device whose record is an object, one turn of the outer loop
    sets its interfaces to the retained pairs. *)
Lemma enrich_device_eq (device : string) (devices r : pydict) :
  dict_get device devices = Some (JDict r) ->
  step device devices =
  (pairs <- kept device ;; Return (with_interfaces device r pairs devices)).
Proof.
  intros Hr. unfold step, kept, enrich_device, retained, with_interfaces.
  destruct (fetched requests_get (base ++ device) auth) as [v|e|]; simpl; auto.
  rewrite (set_interfaces_ok _ _ _ _ Hr). simpl.
  destruct (py_iter v) as [items|e|]; simpl; auto.
  destruct (omap (classify ignore) items) as [ds|e|]; simpl; auto.
  rewrite (set_interfaces_ok _ _ (dict_set "interfaces" (JDict []) r))
    by apply dict_get_set_same.
  now rewrite !dict_set_set_same.
Qed.

Lemma enrich_device_returns (device : string) (devices devices' : pydict) :
  step device devices = Return devices' ->
  exists r pairs, dict_get device devices = Some (JDict r) /\
                  kept device = Return pairs /\
                  devices' = with_interfaces device r pairs devices.
Proof.
  intros H.
  assert (exists r, dict_get device devices = Some (JDict r)) as [r Hr].
  { unfold step, enrich_device in H.
    destruct (fetched requests_get (base ++ device) auth); simpl in H; try discriminate.
    destruct (set_interfaces devices device (JDict [])) eqn:E; simpl in H; try discriminate.
    apply set_interfaces_returns in E as (r & Hr & _). eauto. }
  rewrite (enrich_device_eq _ _ _ Hr) in H.
  destruct (kept device) as [pairs|e|]; simpl in H; try discriminate.
  injection H as <-. eauto.
Qed.

Lemma dict_get_with_interfaces (device d : string) (r : pydict)
  (pairs : list (string * json)) (devices : pydict) :
  dict_get d (with_interfaces device r pairs devices) =
  if String.eqb device d
  then Some (JDict (dict_set "interfaces" (JDict (record_all pairs [])) r))
  else dict_get d devices.
Proof. unfold with_interfaces. apply dict_get_set. Qed.

Lemma dict_keys_with_interfaces (device : string) (r : pydict)
  (pairs : list (string * json)) (devices : pydict) (v : json) :
  dict_get device devices = Some v ->
  dict_keys (with_interfaces device r pairs devices) = dict_keys devices.
Proof.
  intros H. unfold with_interfaces. apply dict_keys_set_present.
  eapply dict_get_in_keys; eauto.
Qed.

(** The mapping the loop over the devices [ks] returns. *)
Lemma ofold_enrich_returns (ks : list string) :
  forall devices devices',
  NoDup ks ->
  ofold step ks devices = Return devices' ->
  dict_keys devices' = dict_keys devices /\
  (forall d, ~ In d ks -> dict_get d devices' = dict_get d devices) /\
  (forall d, In d ks ->
     exists r pairs, dict_get d devices = Some (JDict r) /\
                     kept d = Return pairs /\
                     dict_get d devices' =
                     Some (JDict (dict_set "interfaces" (JDict (record_all pairs [])) r))).
Proof.
  induction ks as [|k ks IH]; intros devices devices' Hnd H; simpl in H.
  - injection H as <-. repeat split; auto. intros d [].
  - inversion Hnd as [|? ? Hk Hnd']; subst.
    destruct (step k devices) as [devices1|e|] eqn:E; simpl in H; try discriminate.
    apply enrich_device_returns in E as (r & pairs & Hr & Hp & ->).
    destruct (IH _ _ Hnd' H) as (Hkeys & Hout & Hin).
    split; [|split].
    + rewrite Hkeys. eapply dict_keys_with_interfaces; eauto.
    + intros d Hd. rewrite Hout by (intros Hd'; apply Hd; now right).
      rewrite dict_get_with_interfaces.
      destruct (String.eqb k d) eqn:Ekd; auto.
      apply String.eqb_eq in Ekd. subst. exfalso. apply Hd. now left.
    + intros d [<-|Hd].
      * exists r, pairs. repeat split; auto.
        rewrite Hout by assumption. rewrite dict_get_with_interfaces.
        now rewrite String.eqb_refl.
      * destruct (Hin d Hd) as (r' & pairs' & Hr' & Hp' & Hd').
        exists r', pairs'. repeat split; auto.
        rewrite dict_get_with_interfaces in Hr'.
        destruct (String.eqb k d) eqn:Ekd; auto.
        apply String.eqb_eq in Ekd. subst. contradiction.
Qed.

(** Over devices whose records are objects: the loop returns when every
    device's records are classified, and raises the first exception
    otherwise. *)
Lemma ofold_enrich_outcome (P : exn -> Prop) (ks : list string) :
  forall devices,
  (forall d, In d ks -> exists r, dict_get d devices = Some (JDict r)) ->
  (forall d, In d ks -> raises_only P (kept d)) ->
  raises_only P (ofold step ks devices) /\
  ((exists d e, In d ks /\ kept d = Raise e) -> exists e, ofold step ks devices = Raise e).
Proof.
  induction ks as [|k ks IH]; intros devices Hdict Hkept; simpl.
  - split; auto. intros (d & e & [] & _).
  - destruct (Hdict k (or_introl eq_refl)) as [r Hr].
    rewrite (enrich_device_eq _ _ _ Hr).
    pose proof (Hkept k (or_introl eq_refl)) as Hk.
    destruct (kept k) as [pairs|e|] eqn:E; simpl in *.
    + destruct (IH (with_interfaces k r pairs devices)) as [IH1 IH2].
      * intros d Hd. rewrite dict_get_with_interfaces.
        destruct (String.eqb k d); eauto.
      * intros d Hd. apply Hkept. now right.
      * split; auto. intros (d & e & [<-|Hd] & He); [congruence|].
        apply IH2. eauto.
    + split; eauto.
    + contradiction.
Qed.

(** Replies made of interface records: the pairs are retained without
    an exception. *)
Lemma retained_records (d : string) :
  replies_with requests_get auth base is_interface_record d = true ->
  exists pairs, kept d = Return pairs.
Proof.
  unfold replies_with, kept, retained.
  destruct (fetched requests_get (base ++ d) auth) as [[| | | | |items|]|e|];
    try discriminate.
  intros H. simpl. destruct (omap_classify_records ignore items H) as [ds ->].
  simpl. eauto.
Qed.

(** Replies made of records with a text for a name: only a missing
    field can raise, and it does. *)
Lemma retained_named (d : string) (items : list json) :
  replies_with requests_get auth base is_named_record d = true ->
  raises_only missing_field (kept d) /\
  (fetched requests_get (base ++ d)%string auth = Return (JList items) ->
   existsb (lacks_field ignore) items = true ->
   exists e, kept d = Raise e).
Proof.
  unfold replies_with, kept, retained.
  destruct (fetched requests_get (base ++ d) auth) as [[| | | | |items'|]|e|];
    try discriminate.
  intros H. simpl.
  pose proof (omap_classify_named ignore items' H) as Hc.
  destruct (existsb (lacks_field ignore) items') eqn:E.
  - destruct Hc as (key & -> & Hk). simpl. split.
    + unfold missing_field. destruct Hk as [-> | ->]; auto.
    + eauto.
  - destruct Hc as (ds & ->). simpl. split; auto.
    intros [= <-]. congruence.
Qed.

End EnrichFacts.

(* ================================================================== *)
(** * The interface enricher: what the returned mapping holds *)
(* ================================================================== *)

Section EnricherClaims.

Variable requests_get : string -> string * string -> requests.get_result.
Variable auth : string * string.
Variable base : string.
Variable ignore : list string.

(** The mapping [add_interface_info] returns: the same devices, each
    record with its ['interfaces'] set to the retained pairs. *)
Lemma add_interface_info_returns (devices devices' : pydict) (log : list logrec) :
  wf_dict devices ->
  fst (add_interface_info requests_get devices auth base ignore log) = Return devices' ->
  dict_keys devices' = dict_keys devices /\
  forall d, In d (dict_keys devices') ->
    exists r pairs,
      dict_get d devices = Some (JDict r) /\
      retained requests_get auth base ignore d = Return pairs /\
      dict_get d devices' =
      Some (JDict (dict_set "interfaces" (JDict (record_all pairs [])) r)).
Proof.
  intros Hwf H. rewrite add_interface_info_computes in H. unfold enrich in H.
  destruct (ofold_enrich_returns requests_get auth base ignore _ _ _ Hwf H)
    as (Hkeys & _ & Hin).
  split; auto. intros d Hd. rewrite Hkeys in Hd. auto.
Qed.

(** Over devices whose records are objects and replies made of interface
    records, [add_interface_info] returns. *)
Lemma add_interface_info_total (devices : pydict) (log : list logrec) :
  forallb is_dict (dict_values devices) = true ->
  forallb (replies_with requests_get auth base is_interface_record) (dict_keys devices) = true ->
  exists devices' log',
    add_interface_info requests_get devices auth base ignore log = (Return devices', log').
Proof.
  intros Hd Hr.
  pose proof (add_interface_info_computes requests_get auth base ignore devices log) as Hc.
  destruct (add_interface_info requests_get devices auth base ignore log) as [o log'].
  simpl in Hc. subst o. unfold enrich.
  destruct (ofold_enrich_outcome requests_get auth base ignore (fun _ => False)
              (dict_keys devices) devices) as [Ho _].
  - intros d Hin. apply in_keys_dict_get in Hin as [v Hv].
    rewrite forallb_forall in Hd.
    pose proof (Hd v (dict_values_in _ _ _ (dict_get_some_in _ _ _ Hv))) as Hdv.
    destruct v; try discriminate. eauto.
  - intros d Hin. rewrite forallb_forall in Hr.
    destruct (retained_records requests_get auth base ignore d (Hr d Hin)) as [pairs ->].
    exact I.
  - destruct (ofold (enrich_device requests_get auth base ignore) (dict_keys devices) devices);
      simpl in Ho; try contradiction. eauto.
Qed.

(** Each pair retained for a device comes from a record that is not
    ignored and whose address [ip_network] accepts as not private. *)
Lemma retained_sound (d name : string) (address : json) (pairs : list (string * json)) :
  retained requests_get auth base ignore d = Return pairs ->
  In (name, address) pairs ->
  existsb (String.eqb name) ignore = false /\
  exists net, ipaddress.ip_network address false = Return net /\
              ipaddress.is_private net = false.
Proof.
  unfold retained.
  destruct (fetched requests_get (base ++ d) auth) as [v|e|]; simpl; try discriminate.
  destruct (py_iter v) as [items|e|]; simpl; try discriminate.
  destruct (omap (classify ignore) items) as [ds|e|] eqn:E; simpl; try discriminate.
  intros [= <-] Hin. apply in_somes in Hin.
  apply omap_return_forall2 in E.
  assert (exists i, classify ignore i = Return (Some (name, address))) as [i Hi].
  { clear -E Hin. induction E as [|i dcs items ds Hi E IH]; [inversion Hin|].
    destruct Hin as [->|Hin]; eauto. }
  apply classify_some_iff in Hi as (_ & H2 & _ & H4). auto.
Qed.

(** The invariant of the returned mapping: no ignored name, no address
    that [ip_network] refuses, no private network. *)
Lemma add_interface_info_invariant (devices devices' : pydict) (log : list logrec)
  (d name : string) (r ifs : pydict) (address : json) :
  wf_dict devices ->
  fst (add_interface_info requests_get devices auth base ignore log) = Return devices' ->
  dict_get d devices' = Some (JDict r) ->
  dict_get "interfaces" r = Some (JDict ifs) ->
  In (name, address) ifs ->
  ~ In name ignore /\
  is_ipv4 address = Return true /\
  exists net, ipaddress.ip_network address false = Return net /\
              ipaddress.is_private net = false.
Proof.
  intros Hwf H Hd Hr Hin.
  destruct (add_interface_info_returns _ _ _ Hwf H) as (_ & Hall).
  destruct (Hall d (dict_get_in_keys _ _ _ Hd)) as (r0 & pairs & _ & Hp & Hd').
  rewrite Hd in Hd'. injection Hd' as ->.
  rewrite dict_get_set_same in Hr. injection Hr as <-.
  apply in_record_all in Hin as [Hin|[]].
  destruct (retained_sound _ _ _ _ Hp Hin) as (Hig & net & Hn & Hpriv).
  split; [|split].
  - intros Hi. assert (existsb (String.eqb name) ignore = true); [|congruence].
    apply existsb_exists. exists name. split; auto. apply String.eqb_refl.
  - unfold is_ipv4. now rewrite Hn.
  - eauto.
Qed.

End EnricherClaims.

(** C1 (the code at the input where the claim fails).  The controller
    reports one interface whose ['ip-address'] is the public IPv6 address
    ["2001:4860:4860::8888"].  [is_ipv4] answers [True] for it, since
    [ipaddress.ip_network] accepts IPv6 text as well, and the address is
    retained in the device's ['interfaces'], although the IPv4 parse of
    it fails. *)
Theorem C1_public_ipv6_address_is_retained :
  fst (add_interface_info
         (Scenario.controller [("1.1.1.1", Scenario.ipv6_interfaces)])
         Scenario.r1 Scenario.auth Scenario.base ["ge0/0.22"] [])
  = Return (Scenario.r1_with [("ge0/0", JStr "2001:4860:4860::8888")])
  /\ is_ipv4 (JStr "2001:4860:4860::8888") = Return true
  /\ ipaddress.IPv4Network (ipaddress.AddrStr "2001:4860:4860::8888") false
     = Raise AddressValueError.
Proof. vm_compute. repeat split. Qed.

Section EnricherTheorems.

Variable requests_get : string -> string * string -> requests.get_result.
Variable auth : string * string.
Variable base : string.
Variable ignore : list string.

Lemma forall2_return_in {A B} (f : A -> outcome B) (l : list A) (ys : list B) (y : B) :
  Forall2 (fun x y => f x = Return y) l ys -> In y ys ->
  exists x, In x l /\ f x = Return y.
Proof.
  induction 1 as [|x y0 l ys Hx _ IH]; intros Hin; [inversion Hin|].
  destruct Hin as [->|Hin].
  - exists x. split; auto. now left.
  - destruct (IH Hin) as (x' & Hx' & Hf). exists x'. split; auto. now right.
Qed.

(** The pairs retained from a list of records in which [interface] is
    kept under [name] and no later record is: [name] ends up bound to
    the address of [interface]. *)
Lemma last_kept_wins (pre post : list json) (interface : json) (name : string)
  (address : json) (decisions : list (option (string * json))) :
  omap (classify ignore) (pre ++ interface :: post) = Return decisions ->
  classify ignore interface = Return (Some (name, address)) ->
  (forall later a, In later post -> classify ignore later <> Return (Some (name, a))) ->
  dict_get name (record_all (somes decisions) []) = Some address.
Proof.
  intros Hd Hi Hpost. apply omap_return_forall2 in Hd.
  apply Forall2_app_inv_l in Hd as (ds1 & ds2 & H1 & H2 & ->).
  inversion H2 as [|? d ? ds2' Hd Hds2]; subst.
  rewrite Hi in Hd. injection Hd as <-.
  rewrite somes_app. simpl. apply record_all_last.
  intros a' Hin. apply in_somes in Hin.
  destruct (forall2_return_in _ _ _ _ Hds2 Hin) as (later & Hl & Hc).
  exact (Hpost later a' Hl Hc).
Qed.

(** C2 (amended).  A fetched interface record whose name is not in the
    ignore list and whose address text parses as a public IPv4 address
    or network is recorded under its name; the device's ['interfaces']
    of the returned mapping binds the name to that address, provided no
    later record of the same device is retained under the same name. *)
Theorem C2_public_interface_is_recorded
  (devices devices' : pydict) (log : list logrec) (device : string)
  (pre post : list json) (interface : json) (name s : string)
  (net : ipaddress.network) :
  wf_dict devices ->
  fst (add_interface_info requests_get devices auth base ignore log) = Return devices' ->
  In device (dict_keys devices) ->
  fetched requests_get (base ++ device)%string auth
    = Return (JList (pre ++ interface :: post)) ->
  py_getitem interface "ifname" = Return (JStr name) ->
  py_in (JStr name) ignore = false ->
  py_getitem interface "ip-address" = Return (JStr s) ->
  ipaddress.IPv4Network (ipaddress.AddrStr s) false = Return net ->
  ipaddress.is_private net = false ->
  (forall later a, In later post -> classify ignore later <> Return (Some (name, a))) ->
  exists r ifs,
    dict_get device devices' = Some (JDict r) /\
    dict_get "interfaces" r = Some (JDict ifs) /\
    dict_get name ifs = Some (JStr s).
Proof.
  intros Hwf H Hdev Hf Hname Hig Haddr Hnet Hpub Hpost.
  destruct (add_interface_info_returns _ _ _ _ _ _ _ Hwf H) as (Hkeys & Hall).
  rewrite <- Hkeys in Hdev.
  destruct (Hall device Hdev) as (r & pairs & _ & Hp & Hd').
  eexists. eexists. split; [exact Hd'|]. split; [apply dict_get_set_same|].
  unfold retained in Hp. rewrite Hf in Hp. simpl in Hp.
  destruct (omap (classify ignore) (pre ++ interface :: post)) as [ds|e|] eqn:E;
    simpl in Hp; try discriminate.
  injection Hp as <-.
  eapply last_kept_wins; eauto.
  apply classify_some_iff. repeat split; auto.
  exists net. split; auto. now apply ip_network_ipv4.
Qed.

(** C8.  [is_ipv4] never raises: it answers [False] exactly on what
    [ip_network] refuses.  Over interface records that carry ['ifname']
    and ['ip-address'], whatever the address, [add_interface_info]
    returns, and no address text that [is_ipv4] refuses is in any
    device's ['interfaces']. *)
Theorem C8_malformed_address_is_skipped (devices : pydict) (log : list logrec) :
  wf_dict devices ->
  forallb is_dict (dict_values devices) = true ->
  forallb (replies_with requests_get auth base is_interface_record) (dict_keys devices) = true ->
  (forall s, (exists net, ipaddress.ip_network (JStr s) false = Return net /\
                          is_ipv4 (JStr s) = Return true) \/
             (ipaddress.ip_network (JStr s) false = Raise ValueError /\
              is_ipv4 (JStr s) = Return false)) /\
  exists devices' log',
    add_interface_info requests_get devices auth base ignore log = (Return devices', log') /\
    forall device r ifs name s,
      dict_get device devices' = Some (JDict r) ->
      dict_get "interfaces" r = Some (JDict ifs) ->
      is_ipv4 (JStr s) = Return false ->
      ~ In (name, JStr s) ifs.
Proof.
  intros Hwf Hd Hr. split; [intros s; apply is_ipv4_spec|].
  destruct (add_interface_info_total requests_get auth base ignore devices log Hd Hr)
    as (devices' & log' & Hrun).
  exists devices', log'. split; auto.
  intros device r ifs name s Hdev Hifs Hbad Hin.
  assert (Hfst : fst (add_interface_info requests_get devices auth base ignore log)
                 = Return devices') by now rewrite Hrun.
  destruct (add_interface_info_invariant _ _ _ _ _ _ _ _ _ _ _ _ Hwf Hfst Hdev Hifs Hin)
    as (_ & Hv & _).
  congruence.
Qed.

(** C9.  Over interface records that carry both fields,
    [add_interface_info] returns the same devices in the same order;
    every record has ['interfaces'] bound to a mapping, which is empty
    when no record of the device is retained (none fetched, or none
    surviving), and every other field of the record is as it was. *)
Theorem C9_interfaces_added_rest_unchanged (devices : pydict) (log : list logrec) :
  wf_dict devices ->
  forallb is_dict (dict_values devices) = true ->
  forallb (replies_with requests_get auth base is_interface_record) (dict_keys devices) = true ->
  exists devices' log',
    add_interface_info requests_get devices auth base ignore log = (Return devices', log') /\
    dict_keys devices' = dict_keys devices /\
    forall device r,
      dict_get device devices = Some (JDict r) ->
      exists r' ifs,
        dict_get device devices' = Some (JDict r') /\
        dict_get "interfaces" r' = Some (JDict ifs) /\
        (forall field, field <> "interfaces" -> dict_get field r' = dict_get field r) /\
        (retained requests_get auth base ignore device = Return [] -> ifs = []) /\
        (fetched requests_get (base ++ device)%string auth = Return (JList []) -> ifs = []).
Proof.
  intros Hwf Hd Hr.
  destruct (add_interface_info_total requests_get auth base ignore devices log Hd Hr)
    as (devices' & log' & Hrun).
  exists devices', log'. split; auto.
  assert (Hfst : fst (add_interface_info requests_get devices auth base ignore log)
                 = Return devices') by now rewrite Hrun.
  destruct (add_interface_info_returns _ _ _ _ _ _ _ Hwf Hfst) as (Hkeys & Hall).
  split; auto.
  intros device r Hdev.
  assert (Hin : In device (dict_keys devices')).
  { rewrite Hkeys. eapply dict_get_in_keys; eauto. }
  destruct (Hall device Hin) as (r0 & pairs & Hr0 & Hp & Hd').
  rewrite Hdev in Hr0. injection Hr0 as <-.
  eexists. eexists. split; [exact Hd'|]. split; [apply dict_get_set_same|].
  split; [|split].
  - intros field Hf. apply dict_get_set_other. congruence.
  - intros Hnone. rewrite Hp in Hnone. injection Hnone as ->. reflexivity.
  - intros Hnone. unfold retained in Hp. rewrite Hnone in Hp. simpl in Hp.
    injection Hp as <-. reflexivity.
Qed.

(** C10.  Over records whose ['ifname'], when present, is a text: if a
    fetched record lacks ['ifname'], or is not ignored and lacks
    ['ip-address'], [add_interface_info] raises [KeyError] for one of
    the two keys. *)
Theorem C10_missing_field_raises_KeyError (devices : pydict) (log : list logrec)
  (device : string) (items : list json) (interface : json) :
  forallb is_dict (dict_values devices) = true ->
  forallb (replies_with requests_get auth base is_named_record) (dict_keys devices) = true ->
  In device (dict_keys devices) ->
  fetched requests_get (base ++ device)%string auth = Return (JList items) ->
  In interface items ->
  lacks_field ignore interface = true ->
  exists key,
    fst (add_interface_info requests_get devices auth base ignore log) = Raise (KeyError key) /\
    (key = "ifname" \/ key = "ip-address").
Proof.
  intros Hd Hr Hdev Hf Hin Hlack.
  rewrite add_interface_info_computes. unfold enrich.
  destruct (ofold_enrich_outcome requests_get auth base ignore missing_field
              (dict_keys devices) devices) as [Ho Hraise].
  - intros d Hd'. apply in_keys_dict_get in Hd' as [v Hv].
    rewrite forallb_forall in Hd.
    pose proof (Hd v (dict_values_in _ _ _ (dict_get_some_in _ _ _ Hv))) as Hdv.
    destruct v; try discriminate. eauto.
  - intros d Hd'. rewrite forallb_forall in Hr.
    apply (retained_named requests_get auth base ignore d [] (Hr d Hd')).
  - destruct Hraise as [e He].
    + rewrite forallb_forall in Hr.
      destruct (retained_named requests_get auth base ignore device items (Hr device Hdev))
        as [_ Hex].
      destruct Hex as [e He]; auto.
      * apply existsb_exists. eauto.
      * eauto.
    + rewrite He in Ho. simpl in Ho. rewrite He.
      destruct Ho as [-> | ->]; eauto.
Qed.

End EnricherTheorems.

Lemma wf_scenario_r1 : wf_dict Scenario.r1.
Proof. repeat constructor. simpl. tauto. Qed.

(** C2 (as stated, refuted).  Two records carry the name ["ge0/0"], with
    the public addresses ["8.8.8.8"] and ["9.9.9.9"].  The first is
    classified as retained, yet the returned mapping binds ["ge0/0"] to
    ["9.9.9.9"] only: ["8.8.8.8"] does not appear in the output. *)
Lemma C2_counterexample_same_name_twice :
  classify ["ge0/0.22"] (Scenario.interface "ge0/0" "8.8.8.8")
  = Return (Some ("ge0/0", JStr "8.8.8.8"))
  /\ ipaddress.IPv4Network (ipaddress.AddrStr "8.8.8.8") false
     = Return (ipaddress.Network ipaddress.V4 134744072 4294967295 32)
  /\ ipaddress.is_private (ipaddress.Network ipaddress.V4 134744072 4294967295 32) = false
  /\ fst (add_interface_info
            (Scenario.controller [("1.1.1.1", Scenario.twice_interfaces)])
            Scenario.r1 Scenario.auth Scenario.base ["ge0/0.22"] [])
     = Return (Scenario.r1_with [("ge0/0", JStr "9.9.9.9")]).
Proof. vm_compute. repeat split. Qed.

(** The scenario of the specification: ["ge0/0"] with ["8.8.8.8"] is
    recorded, the private and the ignored interface are not. *)
Lemma C2_witness_spec_scenario :
  exists r ifs,
    dict_get "1.1.1.1" (Scenario.r1_with [("ge0/0", JStr "8.8.8.8")]) = Some (JDict r) /\
    dict_get "interfaces" r = Some (JDict ifs) /\
    dict_get "ge0/0" ifs = Some (JStr "8.8.8.8").
Proof.
  apply (C2_public_interface_is_recorded
           (Scenario.controller [("1.1.1.1", Scenario.spec_interfaces)])
           Scenario.auth Scenario.base ["ge0/0.22"]
           Scenario.r1 (Scenario.r1_with [("ge0/0", JStr "8.8.8.8")]) []
           "1.1.1.1" [] [Scenario.interface "ge0/1" "10.0.0.1";
                         Scenario.interface "ge0/0.22" "9.9.9.9"]
           (Scenario.interface "ge0/0" "8.8.8.8") "ge0/0" "8.8.8.8"
           (ipaddress.Network ipaddress.V4 134744072 4294967295 32)).
  - exact wf_scenario_r1.
  - vm_compute. reflexivity.
  - simpl. tauto.
  - vm_compute. reflexivity.
  - reflexivity.
  - reflexivity.
  - reflexivity.
  - vm_compute. reflexivity.
  - vm_compute. reflexivity.
  - intros later a [<-|[<-|[]]]; vm_compute; discriminate.
Defined.

(** The addresses ["not-an-ip"] and [""] are skipped without an
    exception. *)
Lemma C8_witness_malformed_addresses :
  (forall s, (exists net, ipaddress.ip_network (JStr s) false = Return net /\
                          is_ipv4 (JStr s) = Return true) \/
             (ipaddress.ip_network (JStr s) false = Raise ValueError /\
              is_ipv4 (JStr s) = Return false)) /\
  exists devices' log',
    add_interface_info (Scenario.controller [("1.1.1.1", Scenario.malformed_interfaces)])
      Scenario.r1 Scenario.auth Scenario.base ["ge0/0.22"] [] = (Return devices', log') /\
    forall device r ifs name s,
      dict_get device devices' = Some (JDict r) ->
      dict_get "interfaces" r = Some (JDict ifs) ->
      is_ipv4 (JStr s) = Return false ->
      ~ In (name, JStr s) ifs.
Proof.
  apply (C8_malformed_address_is_skipped
           (Scenario.controller [("1.1.1.1", Scenario.malformed_interfaces)])
           Scenario.auth Scenario.base ["ge0/0.22"] Scenario.r1 []).
  - exact wf_scenario_r1.
  - reflexivity.
  - vm_compute. reflexivity.
Defined.

(** The device of the scenario keeps its fields and gains
    ['interfaces']. *)
Lemma C9_witness_spec_scenario :
  exists devices' log',
    add_interface_info (Scenario.controller [("1.1.1.1", Scenario.spec_interfaces)])
      Scenario.r1 Scenario.auth Scenario.base ["ge0/0.22"] [] = (Return devices', log') /\
    dict_keys devices' = dict_keys Scenario.r1 /\
    forall device r,
      dict_get device Scenario.r1 = Some (JDict r) ->
      exists r' ifs,
        dict_get device devices' = Some (JDict r') /\
        dict_get "interfaces" r' = Some (JDict ifs) /\
        (forall field, field <> "interfaces" -> dict_get field r' = dict_get field r) /\
        (retained (Scenario.controller [("1.1.1.1", Scenario.spec_interfaces)])
           Scenario.auth Scenario.base ["ge0/0.22"] device = Return [] -> ifs = []) /\
        (fetched (Scenario.controller [("1.1.1.1", Scenario.spec_interfaces)])
           (Scenario.base ++ device)%string Scenario.auth = Return (JList []) -> ifs = []).
Proof.
  apply (C9_interfaces_added_rest_unchanged
           (Scenario.controller [("1.1.1.1", Scenario.spec_interfaces)])
           Scenario.auth Scenario.base ["ge0/0.22"] Scenario.r1 []).
  - exact wf_scenario_r1.
  - reflexivity.
  - vm_compute. reflexivity.
Defined.

(** A record with ['ifname'] and no ['ip-address'], after a good one:
    the run ends in [KeyError]. *)
Lemma C10_witness_missing_address :
  exists key,
    fst (add_interface_info (Scenario.controller [("1.1.1.1", Scenario.short_interfaces)])
           Scenario.r1 Scenario.auth Scenario.base ["ge0/0.22"] [])
    = Raise (KeyError key) /\
    (key = "ifname" \/ key = "ip-address").
Proof.
  apply (C10_missing_field_raises_KeyError
           (Scenario.controller [("1.1.1.1", Scenario.short_interfaces)])
           Scenario.auth Scenario.base ["ge0/0.22"] Scenario.r1 []
           "1.1.1.1" Scenario.short_interfaces (JDict [("ifname", JStr "ge0/1")])).
  - reflexivity.
  - vm_compute. reflexivity.
  - simpl. tauto.
  - vm_compute. reflexivity.
  - simpl. tauto.
  - reflexivity.
Defined.

(* ================================================================== *)
(** * The HTTP fetcher *)
(* ================================================================== *)

(** C4 (amended).  [fetch_raw_json] logs the error and returns the empty
    list, raising nothing, when [requests.get] raises a
    [RequestException], when the status is 4xx or 5xx, and when the body
    is not JSON; when [Response.json()] returns an object without
    ['data'] it returns the empty list.  What [Response.json()] raises
    that is no [RequestException] (the [ValueError] of [json.loads] for
    an integer of more than 4300 digits, its [RecursionError]) leaves
    [fetch_raw_json], and nothing is logged. *)
Theorem C4_fetch_raw_json_failures
  (requests_get : string -> string * string -> requests.get_result)
  (url : string) (auth : string * string) (log : list logrec) :
  (forall e, requests_get url auth = requests.Raises e ->
             is_RequestException e = true ->
     fetch_raw_json requests_get url auth log
     = (Return (JList []), log ++ [(ERROR, [Lit "HTTP request failed: "; FmtExn e])])) /\
  (forall r, requests_get url auth = requests.Responds r ->
             400 <= requests.status_code r < 600 ->
     fetch_raw_json requests_get url auth log
     = (Return (JList []),
        log ++ [(ERROR, [Lit "HTTP request failed: ";
                         FmtExn (RequestException HTTPError)])])) /\
  (forall r, requests_get url auth = requests.Responds r ->
             requests.body r = requests.not_json ->
     exists e,
       fetch_raw_json requests_get url auth log
       = (Return (JList []), log ++ [(ERROR, [Lit "HTTP request failed: "; FmtExn e])])) /\
  (forall r m, requests_get url auth = requests.Responds r ->
               requests.body r = requests.Json (JDict m) ->
               dict_get "data" m = None ->
     fst (fetch_raw_json requests_get url auth log) = Return (JList [])) /\
  (forall r e, requests_get url auth = requests.Responds r ->
               ~ 400 <= requests.status_code r < 600 ->
               requests.body r = requests.Fails e ->
               is_RequestException e = false ->
     fetch_raw_json requests_get url auth log = (Raise e, log)).
Proof.
  unfold fetch_raw_json, try_except, mbind, lift, logging_error, mret,
    requests.raise_for_status, requests.json_of.
  repeat split.
  - intros e -> He. simpl. rewrite He. reflexivity.
  - intros r -> [H1 H2].
    apply Z.leb_le in H1. apply Z.ltb_lt in H2. rewrite H1, H2. reflexivity.
  - intros r -> Hb. rewrite Hb.
    destruct ((400 <=? requests.status_code r) && (requests.status_code r <? 600));
      simpl; eauto.
  - intros r m -> Hb Hd. rewrite Hb.
    destruct ((400 <=? requests.status_code r) && (requests.status_code r <? 600));
      simpl; auto.
    now rewrite Hd.
  - intros r e -> Hs Hb He. rewrite Hb.
    destruct ((400 <=? requests.status_code r) && (requests.status_code r <? 600)) eqn:E.
    + exfalso. apply Hs. apply andb_true_iff in E as [H1 H2].
      apply Z.leb_le in H1. apply Z.ltb_lt in H2. lia.
    + cbn [obind]. rewrite He. reflexivity.
Qed.

(** C4 (as stated, refuted).  A response with the status 300, which is
    not 2xx, and the body [{"data": ["x"]}]: [raise_for_status] raises
    nothing, so the list is returned and nothing is logged. *)
Lemma C4_counterexample_status_300 :
  fetch_raw_json
    (Scenario.answering
       {| requests.status_code := 300;
          requests.body := requests.Json (JDict [("data", JList [JStr "x"])]) |})
    "https://vmanage:8443/dataservice/device" Scenario.auth []
  = (Return (JList [JStr "x"]), []).
Proof. reflexivity. Qed.

(** A refused connection, a 404, a body that is not JSON, an object
    without ['data'], and a body with an integer too long for
    [json.loads]. *)
Lemma C4_witness_four_failures :
  fetch_raw_json (Scenario.controller []) "u" Scenario.auth []
  = (Return (JList []),
     [(ERROR, [Lit "HTTP request failed: "; FmtExn (RequestException ConnectionError)])])
  /\ fetch_raw_json
       (Scenario.answering {| requests.status_code := 404; requests.body := requests.not_json |})
       "u" Scenario.auth []
     = (Return (JList []),
        [(ERROR, [Lit "HTTP request failed: "; FmtExn (RequestException HTTPError)])])
  /\ (exists e,
       fetch_raw_json
         (Scenario.answering {| requests.status_code := 200; requests.body := requests.not_json |})
         "u" Scenario.auth []
       = (Return (JList []), [(ERROR, [Lit "HTTP request failed: "; FmtExn e])]))
  /\ fst (fetch_raw_json
            (Scenario.answering
               {| requests.status_code := 200; requests.body := requests.Json (JDict []) |})
            "u" Scenario.auth [])
     = Return (JList [])
  /\ fetch_raw_json
       (Scenario.answering
          {| requests.status_code := 200; requests.body := requests.Fails ValueError |})
       "u" Scenario.auth []
     = (Raise ValueError, []).
Proof.
  split; [|split; [|split; [|split]]].
  - apply (proj1 (C4_fetch_raw_json_failures (Scenario.controller []) "u" Scenario.auth [])
             (RequestException ConnectionError)); reflexivity.
  - apply (proj1 (proj2 (C4_fetch_raw_json_failures
                           (Scenario.answering
                              {| requests.status_code := 404; requests.body := requests.not_json |})
                           "u" Scenario.auth []))
             {| requests.status_code := 404; requests.body := requests.not_json |});
      [reflexivity | simpl; lia].
  - apply (proj1 (proj2 (proj2 (C4_fetch_raw_json_failures
                                  (Scenario.answering
                                     {| requests.status_code := 200;
                                        requests.body := requests.not_json |})
                                  "u" Scenario.auth [])))
             {| requests.status_code := 200; requests.body := requests.not_json |}); reflexivity.
  - apply (proj1 (proj2 (proj2 (proj2 (C4_fetch_raw_json_failures
                                  (Scenario.answering
                                     {| requests.status_code := 200;
                                        requests.body := requests.Json (JDict []) |})
                                  "u" Scenario.auth []))))
             {| requests.status_code := 200; requests.body := requests.Json (JDict []) |} []);
      reflexivity.
  - apply (proj2 (proj2 (proj2 (proj2 (C4_fetch_raw_json_failures
                                  (Scenario.answering
                                     {| requests.status_code := 200;
                                        requests.body := requests.Fails ValueError |})
                                  "u" Scenario.auth []))))
             {| requests.status_code := 200; requests.body := requests.Fails ValueError |}
             ValueError); try reflexivity.
    simpl. lia.
Defined.

(* ================================================================== *)
(** * The device formatter *)
(* ================================================================== *)

Section FormatterFacts.

Variable keys : list string.

Lemma device_data_of_spec (m : pydict) :
  forall (ks : list string) (acc : pydict),
  exists rec,
    device_data_of (JDict m) ks acc = Return rec /\
    forall key,
      dict_get key rec =
      if in_dec string_dec key ks then Some (field_or_na m key) else dict_get key acc.
Proof.
  induction ks as [|k ks IH]; intros acc; simpl.
  - exists acc. split; auto.
  - assert (Hget : py_get (JDict m) k (JStr "N/A") = Return (field_or_na m k)).
    { unfold py_get, field_or_na. destruct (dict_get k m); reflexivity. }
    unfold py_get in Hget. rewrite Hget. simpl.
    destruct (IH (dict_set k (field_or_na m k) acc)) as (rec & Hrec & Hlook).
    exists rec. split; auto.
    intros key. rewrite Hlook.
    destruct (in_dec string_dec key ks) as [Hin|Hnin].
    + destruct (string_dec k key); auto.
    + rewrite dict_get_set.
      destruct (string_dec k key) as [->|Hne].
      * now rewrite String.eqb_refl.
      * apply String.eqb_neq in Hne. now rewrite Hne.
Qed.

Lemma has_system_ip_eq (ip : string) (m : pydict) :
  has_system_ip ip (JDict m) = true <-> dict_get "system-ip" m = Some (JStr ip).
Proof.
  simpl. destruct (dict_get "system-ip" m) as [[| | | |s| |]|]; split;
    try discriminate; try (intros [=]; fail).
  - intros H. apply String.eqb_eq in H. now subst.
  - intros [= ->]. apply String.eqb_refl.
Qed.

(** One turn of the loop of [format_device_data] on a raw device. *)
Lemma format_step (m : pydict) (ip : string) (rest : list json) (devices : pydict) :
  dict_get "system-ip" m = Some (JStr ip) ->
  exists rec,
    format_loop (JDict m :: rest) keys devices
    = format_loop rest keys (dict_set ip (JDict rec) devices) /\
    (forall key, In key keys -> dict_get key rec = Some (field_or_na m key)) /\
    (forall key, ~ In key keys -> dict_get key rec = None).
Proof.
  intros Hip. simpl. rewrite Hip. simpl.
  destruct (device_data_of_spec m keys []) as (rec & Hrec & Hlook).
  rewrite Hrec. simpl. exists rec. split; auto. split.
  - intros key Hin. rewrite Hlook. destruct (in_dec string_dec key keys); tauto.
  - intros key Hnin. rewrite Hlook. destruct (in_dec string_dec key keys); tauto.
Qed.

(** The loop over raw devices returns; it adds their system IPs to the
    keys and leaves the other entries alone. *)
Lemma format_loop_total (items : list json) :
  forall devices,
  forallb is_raw_device items = true ->
  exists devices',
    format_loop items keys devices = Return devices' /\
    (wf_dict devices -> wf_dict devices') /\
    (forall ip, In ip (dict_keys devices') <->
                In ip (dict_keys devices) \/ existsb (has_system_ip ip) items = true) /\
    (forall ip, existsb (has_system_ip ip) items = false ->
                dict_get ip devices' = dict_get ip devices).
Proof.
  induction items as [|d items IH]; intros devices Hraw.
  - exists devices. simpl. repeat split; auto.
    + intros [H|H]; [auto|discriminate].
  - simpl in Hraw. apply andb_true_iff in Hraw as [Hd Hitems].
    destruct d as [| | | | | |m]; try discriminate.
    assert (exists ip, dict_get "system-ip" m = Some (JStr ip)) as [ip Hip].
    { simpl in Hd. destruct (dict_get "system-ip" m) as [[| | | |s| |]|];
        try discriminate. eauto. }
    destruct (format_step m ip items devices Hip) as (rec & -> & _).
    destruct (IH (dict_set ip (JDict rec) devices) Hitems)
      as (devices' & Hrun & Hwf & Hkeys & Hother).
    exists devices'. split; auto. split; [|split].
    + intros H. apply Hwf. now apply wf_dict_set.
    + intros ip'. rewrite Hkeys. rewrite in_dict_keys_set.
      simpl existsb. rewrite orb_true_iff.
      assert (Heq : has_system_ip ip' (JDict m) = true <-> ip' = ip).
      { rewrite has_system_ip_eq, Hip. split; [intros [= ->]|intros ->]; auto. }
      rewrite Heq. tauto.
    + intros ip' Hnone. cbn [existsb] in Hnone. apply orb_false_iff in Hnone as [Hm Hrest].
      rewrite (Hother ip' Hrest). apply dict_get_set_other.
      intros ->. apply has_system_ip_eq in Hip. congruence.
Qed.

Lemma format_loop_app (l1 l2 : list json) :
  forall devices,
  format_loop (l1 ++ l2) keys devices =
  obind (format_loop l1 keys devices) (fun devices1 => format_loop l2 keys devices1).
Proof.
  induction l1 as [|d l1 IH]; intros devices; simpl; auto.
  destruct (py_getitem d "system-ip"); simpl; auto.
  destruct (device_data_of d keys []); simpl; auto.
  destruct (dict_setitem devices a (JDict a0)); simpl; auto.
Qed.

End FormatterFacts.

(** C6.  Over raw device records that each carry a ['system-ip'] text,
    [format_device_data] returns a mapping whose keys are the system IPs
    met; the record under a system IP has exactly the requested keys,
    each with the value of the last raw device that carries this system
    IP, or ["N/A"] where that device lacks the key. *)
Theorem C6_format_device_data (raw : list json) (keys : list string) :
  forallb is_raw_device raw = true ->
  exists devices,
    format_device_data (JList raw) keys = Return devices /\
    wf_dict devices /\
    (forall ip, In ip (dict_keys devices) <-> existsb (has_system_ip ip) raw = true) /\
    (forall pre m post ip,
       raw = pre ++ JDict m :: post ->
       has_system_ip ip (JDict m) = true ->
       existsb (has_system_ip ip) post = false ->
       exists rec,
         dict_get ip devices = Some (JDict rec) /\
         (forall key, In key keys -> dict_get key rec = Some (field_or_na m key)) /\
         (forall key, ~ In key keys -> dict_get key rec = None)).
Proof.
  intros Hraw. unfold format_device_data. simpl.
  destruct (format_loop_total keys raw [] Hraw) as (devices & Hrun & Hwf & Hkeys & _).
  exists devices. split; auto. split; [apply Hwf; constructor|]. split.
  - intros ip. rewrite Hkeys. simpl. tauto.
  - intros pre m post ip -> Hm Hpost.
    rewrite forallb_app in Hraw. apply andb_true_iff in Hraw as [Hpre Hrest].
    simpl in Hrest. apply andb_true_iff in Hrest as [_ Hpostraw].
    rewrite format_loop_app in Hrun.
    destruct (format_loop_total keys pre [] Hpre) as (d1 & Hd1 & _).
    rewrite Hd1 in Hrun. cbn [obind] in Hrun.
    apply has_system_ip_eq in Hm.
    destruct (format_step keys m ip post d1 Hm) as (rec & Hstep & Hin & Hout).
    rewrite Hstep in Hrun.
    destruct (format_loop_total keys post (dict_set ip (JDict rec) d1) Hpostraw)
      as (d2 & Hd2 & _ & _ & Hother).
    rewrite Hd2 in Hrun. injection Hrun as <-.
    exists rec. split; auto.
    rewrite (Hother ip Hpost). apply dict_get_set_same.
Qed.

(** Two raw devices share ["1.1.1.1"]: the later one gives the record,
    with ["N/A"] for the host name it lacks. *)
Lemma C6_witness_later_device_wins :
  exists devices,
    format_device_data (JList Scenario.raw_devices) ["system-ip"; "host-name"]
    = Return devices /\
    wf_dict devices /\
    (forall ip, In ip (dict_keys devices) <->
                existsb (has_system_ip ip) Scenario.raw_devices = true) /\
    (forall pre m post ip,
       Scenario.raw_devices = pre ++ JDict m :: post ->
       has_system_ip ip (JDict m) = true ->
       existsb (has_system_ip ip) post = false ->
       exists rec,
         dict_get ip devices = Some (JDict rec) /\
         (forall key, In key ["system-ip"; "host-name"] ->
                      dict_get key rec = Some (field_or_na m key)) /\
         (forall key, ~ In key ["system-ip"; "host-name"] -> dict_get key rec = None)).
Proof.
  apply (C6_format_device_data Scenario.raw_devices ["system-ip"; "host-name"]).
  reflexivity.
Defined.

(* ================================================================== *)
(** * The report writers *)
(* ================================================================== *)

Section ExportFacts.

Variable keys : list string.

Lemma py_get_field (r : pydict) (key : string) :
  py_get (JDict r) key (JStr "N/A") = Return (field_or_na r key).
Proof. unfold py_get, field_or_na. destruct (dict_get key r); reflexivity. Qed.

Lemma worksheet_write_taken (row col : Z) (v : json) (f : xlsxwriter.format) :
  is_cell_value v = true ->
  xlsxwriter.worksheet_write row col v f = Return (xlsxwriter.Write row col v f).
Proof.
  unfold xlsxwriter.worksheet_write, xlsxwriter.accepts, xlsxwriter.fits_a_float,
    xlsxwriter.is_nan_or_inf.
  destruct v; cbn [is_cell_value]; try discriminate; try reflexivity.
  - intros ->. reflexivity.
  - intros H. apply negb_true_iff in H. rewrite H. reflexivity.
Qed.

Lemma worksheet_write_refused (row col : Z) (v : json) (f : xlsxwriter.format) :
  is_cell_value v = false ->
  exists e, write_refusal e /\ xlsxwriter.worksheet_write row col v f = Raise e.
Proof.
  unfold xlsxwriter.worksheet_write, xlsxwriter.accepts, xlsxwriter.fits_a_float,
    xlsxwriter.is_nan_or_inf, write_refusal.
  destruct v; cbn [is_cell_value]; try discriminate; eauto.
  - intros ->. eauto.
  - intros H. apply negb_false_iff in H. rewrite H. eauto.
Qed.

(** The cells of the keys, when every field is taken. *)
Lemma excel_key_cells_spec (r : pydict) (row : Z) (ks : list string) :
  forall col,
  forallb (fun key => is_cell_value (field_or_na r key)) ks = true ->
  excel_key_cells (JDict r) row col ks =
  Return (map (fun ck => xlsxwriter.Write row (fst ck) (field_or_na r (snd ck))
                           xlsxwriter.base_format)
              (enumerate ks col)).
Proof.
  induction ks as [|k ks IH]; intros col Hv; auto.
  cbn [forallb] in Hv. apply andb_true_iff in Hv as [Hk Hks].
  cbn [excel_key_cells]. rewrite py_get_field. cbn [obind].
  rewrite (worksheet_write_taken _ _ _ _ Hk). cbn [obind].
  rewrite (IH _ Hks). reflexivity.
Qed.

(** The first field that is refused stops the row. *)
Lemma excel_key_cells_refused (r : pydict) (row : Z) (ks : list string) :
  forall col,
  forallb (fun key => is_cell_value (field_or_na r key)) ks = false ->
  exists e, write_refusal e /\ excel_key_cells (JDict r) row col ks = Raise e.
Proof.
  induction ks as [|k ks IH]; intros col Hv; [discriminate|].
  cbn [forallb] in Hv. cbn [excel_key_cells]. rewrite py_get_field. cbn [obind].
  destruct (is_cell_value (field_or_na r k)) eqn:Hk.
  - rewrite (worksheet_write_taken _ _ _ _ Hk). cbn [obind].
    destruct (IH (col + 1) Hv) as (e & He & ->). eauto.
  - destruct (worksheet_write_refused row col _ xlsxwriter.base_format Hk) as (e & He & ->).
    eauto.
Qed.

Lemma append_assoc3 (a p q rest : string) :
  ((a ++ p ++ q) ++ rest)%string = (a ++ (p ++ q ++ rest))%string.
Proof.
  induction a as [|c a IH]; simpl.
  - induction p as [|c p IHp]; simpl; auto. now rewrite IHp.
  - now rewrite IH.
Qed.

Lemma append_empty_r (a : string) : (a ++ "")%string = a.
Proof. induction a as [|c a IH]; simpl; auto. now rewrite IH. Qed.

Lemma excel_interface_text_spec (items : pydict) :
  forall ifnames ifaddresses,
  forallb is_str (dict_values items) = true ->
  excel_interface_text items ifnames ifaddresses =
  Return ((ifnames ++ lines_of (dict_keys items))%string,
          (ifaddresses ++ lines_of (map text_of (dict_values items)))%string).
Proof.
  induction items as [|[n v] items IH]; intros a b Hstr.
  - cbn. now rewrite !append_empty_r.
  - cbn [dict_values map forallb snd] in Hstr. apply andb_true_iff in Hstr as [Hv Hrest].
    destruct v; try discriminate.
    cbn [excel_interface_text py_str obind]. rewrite (IH _ _ Hrest).
    cbn [dict_keys dict_values map fst snd lines_of text_of].
    now rewrite !append_assoc3.
Qed.

Lemma is_enriched_inv (data : json) :
  is_enriched data = true ->
  exists r ifs, data = JDict r /\ dict_get "interfaces" r = Some (JDict ifs) /\
                forallb is_str (dict_values ifs) = true.
Proof.
  unfold is_enriched, interfaces_of. destruct data as [| | | | | |r]; try discriminate.
  destruct (dict_get "interfaces" r) as [[| | | | | |ifs]|] eqn:E; try discriminate.
  intros H. exists r, ifs. auto.
Qed.

Lemma append_nil_l (s : string) : ("" ++ s)%string = s.
Proof. reflexivity. Qed.

(** The cells of one row. *)
Lemma excel_row_spec (row : Z) (data : json) :
  is_enriched data = true ->
  has_cell_values keys data = true ->
  excel_row keys row data = Return (excel_cells_of keys row data).
Proof.
  intros He Hv. destruct (is_enriched_inv _ He) as (r & ifs & -> & Hifs & Hstr).
  unfold excel_row, excel_cells_of, interfaces_of.
  rewrite (excel_key_cells_spec _ _ _ _ Hv). cbn [obind].
  unfold py_get, py_getitem. rewrite Hifs. cbn [obind].
  destruct ifs as [|kv ifs].
  - cbn. now rewrite app_nil_r.
  - cbn [py_truthy py_items obind].
    rewrite (excel_interface_text_spec _ _ _ Hstr). cbn [obind].
    rewrite !append_nil_l. reflexivity.
Qed.

Lemma excel_row_refused (row : Z) (data : json) :
  is_enriched data = true ->
  has_cell_values keys data = false ->
  exists e, write_refusal e /\ excel_row keys row data = Raise e.
Proof.
  intros He Hv. destruct (is_enriched_inv _ He) as (r & ifs & -> & Hifs & Hstr).
  unfold excel_row.
  destruct (excel_key_cells_refused r row keys 0 Hv) as (e & Hre & ->). eauto.
Qed.

(** The cells of the data rows, one row for each device. *)
Lemma excel_rows_spec (devices : pydict) :
  forall row,
  forallb is_enriched (dict_values devices) = true ->
  forallb (has_cell_values keys) (dict_values devices) = true ->
  excel_rows keys row devices =
  Return (flat_map (fun nd => excel_cells_of keys (fst nd) (snd (snd nd)))
                   (enumerate devices row)).
Proof.
  induction devices as [|[d data] devices IH]; intros row He Hv; auto.
  cbn [dict_values map forallb snd] in He, Hv.
  apply andb_true_iff in He as [Hd Hrest]. apply andb_true_iff in Hv as [Hvd Hvrest].
  cbn [excel_rows]. rewrite (excel_row_spec _ _ Hd Hvd). cbn [obind].
  rewrite (IH _ Hrest Hvrest). reflexivity.
Qed.

(** The first device with a field that is refused stops the sheet. *)
Lemma excel_rows_refused (devices : pydict) :
  forall row,
  forallb is_enriched (dict_values devices) = true ->
  forallb (has_cell_values keys) (dict_values devices) = false ->
  exists e, write_refusal e /\ excel_rows keys row devices = Raise e.
Proof.
  induction devices as [|[d data] devices IH]; intros row He Hv; [discriminate|].
  cbn [dict_values map forallb snd] in He, Hv.
  apply andb_true_iff in He as [Hd Hrest].
  cbn [excel_rows]. destruct (has_cell_values keys data) eqn:Hvd.
  - rewrite (excel_row_spec _ _ Hd Hvd). cbn [obind].
    destruct (IH (row + 1) Hrest Hv) as (e & Hre & ->). eauto.
  - destruct (excel_row_refused row data Hd Hvd) as (e & Hre & ->). eauto.
Qed.

Lemma in_enumerate {A} (l : list A) :
  forall (start n : Z) (x : A),
  In (n, x) (enumerate l start) <->
  exists i, nth_error l i = Some x /\ n = start + Z.of_nat i.
Proof.
  induction l as [|y l IH]; intros start n x; simpl.
  - split; [tauto|]. intros (i & H & _). destruct i; discriminate.
  - rewrite IH. split.
    + intros [[= <- <-]|(i & Hi & ->)].
      * exists 0%nat. split; auto. simpl. lia.
      * exists (S i). split; auto. lia.
    + intros (i & Hi & ->). destruct i as [|i]; simpl in Hi.
      * left. injection Hi as ->. f_equal. simpl. lia.
      * right. exists i. split; auto. lia.
Qed.

Lemma cell_value_has_text (v : json) : is_cell_value v = true -> has_text v = true.
Proof.
  destruct v; cbn [is_cell_value has_text]; try discriminate; auto.
  intros H. apply Z.ltb_lt in H. apply Z.ltb_lt.
  eapply Z.lt_le_trans; [exact H|]. apply Z.leb_le. vm_compute. reflexivity.
Qed.

Lemma html_row_data_spec (r : pydict) (ks : list string) :
  forallb (fun key => is_cell_value (field_or_na r key)) ks = true ->
  html_row_data (JDict r) ks
  = Return (flat_map (fun key => [Lit "<td>"; Fmt (field_or_na r key); Lit "</td>"]) ks).
Proof.
  induction ks as [|k ks IH]; intros Hv; [reflexivity|].
  cbn [forallb] in Hv. apply andb_true_iff in Hv as [Hk Hks].
  cbn [html_row_data]. rewrite py_get_field. cbn [obind].
  unfold py_format. rewrite (cell_value_has_text _ Hk). cbn [obind].
  rewrite (IH Hks). reflexivity.
Qed.

Lemma py_join_strs (sep : string) (l : list string) :
  py_join sep (map JStr l) = Return (Str.join sep l).
Proof.
  unfold py_join.
  assert (H : omap (fun v => match v with JStr s => Return s | _ => Raise TypeError end)
                   (map JStr l) = Return l).
  { induction l as [|s l IH]; auto. cbn [map omap obind]. rewrite IH. reflexivity. }
  rewrite H. reflexivity.
Qed.

Lemma py_join_texts (sep : string) (values : list json) :
  forallb is_str values = true ->
  py_join sep values = Return (Str.join sep (map text_of values)).
Proof.
  intros H. rewrite <- py_join_strs. f_equal.
  induction values as [|v values IH]; auto.
  cbn [forallb] in H. apply andb_true_iff in H as [Hv Hrest].
  destruct v; try discriminate. cbn [map text_of]. now rewrite <- IH.
Qed.

(** The row of an enriched record. *)
Lemma html_row_spec (data : json) :
  is_enriched data = true ->
  has_cell_values keys data = true ->
  html_row keys data = Return (html_row_of keys data).
Proof.
  intros He Hv. destruct (is_enriched_inv _ He) as (r & ifs & -> & Hifs & Hstr).
  unfold html_row, html_row_of, interfaces_of. rewrite (html_row_data_spec r keys Hv).
  cbn [obind]. unfold py_getitem. rewrite Hifs. cbn [obind py_items].
  rewrite py_join_strs. cbn [obind].
  rewrite (py_join_texts _ _ Hstr). cbn [obind]. reflexivity.
Qed.

Lemma has_interface_truthy (r ifs : pydict) :
  dict_get "interfaces" r = Some (JDict ifs) ->
  has_interface (JDict r) = py_truthy (JDict ifs).
Proof.
  intros H. unfold has_interface, interfaces_of. rewrite H. destruct ifs; reflexivity.
Qed.

(** The data rows of the HTML table: one for each device that has an
    interface, in order, and none for the others. *)
Lemma html_rows_spec (devices : pydict) :
  forallb is_enriched (dict_values devices) = true ->
  forallb (has_cell_values keys) (dict_values devices) = true ->
  html_rows keys devices = Return (html_rows_of keys devices).
Proof.
  unfold html_rows_of.
  induction devices as [|[d data] devices IH]; intros He Hv; [reflexivity|].
  cbn [dict_values map forallb snd] in He, Hv.
  apply andb_true_iff in He as [Hd Hrest]. apply andb_true_iff in Hv as [Hvd Hvrest].
  pose proof (html_row_spec _ Hd Hvd) as Hrow.
  destruct (is_enriched_inv _ Hd) as (r & ifs & -> & Hifs & Hstr).
  cbn [html_rows filter snd]. rewrite (has_interface_truthy _ _ Hifs).
  unfold py_get at 1. rewrite Hifs. cbn [obind].
  destruct (py_truthy (JDict ifs)).
  - rewrite Hrow. cbn [obind]. rewrite (IH Hrest Hvrest). reflexivity.
  - exact (IH Hrest Hvrest).
Qed.

End ExportFacts.

(** C5 (amended).  Over enriched devices whose fields under the keys
    are values [worksheet.write] takes, both writers return.  The
    spreadsheet has, in the row of each device, a cell for each key; a
    device without interfaces has no cell in the two interface columns,
    a device with interfaces has the names and the addresses there.
    The HTML table has one data row for each device with an interface,
    in order, and none for a device without: the row holds a cell for
    each key, the names joined by [<br>] and the addresses joined by
    [<br>].  When a device has a field that [worksheet.write] refuses,
    [export_to_excel] raises [TypeError] or [OverflowError] and no row
    is written for any device. *)
Theorem C5_rows_of_the_two_reports (devices : pydict) (keys : list string) :
  forallb is_enriched (dict_values devices) = true ->
  (forallb (has_cell_values keys) (dict_values devices) = true ->
   exists cells,
     export_to_excel devices keys = Return cells /\
     export_to_html devices keys
     = Return ([html_head; html_header keys] ++ html_rows_of keys devices ++ [html_tail]) /\
     forall i device r ifs,
       nth_error devices i = Some (device, JDict r) ->
       dict_get "interfaces" r = Some (JDict ifs) ->
       (forall c key, nth_error keys c = Some key ->
          In (xlsxwriter.Write (Z.of_nat i + 1) (Z.of_nat c) (field_or_na r key)
                xlsxwriter.base_format) cells) /\
       (ifs = [] ->
          forall w, In w cells -> xlsxwriter.row w = Z.of_nat i + 1 ->
                    xlsxwriter.col w < Z.of_nat (List.length keys)) /\
       (ifs <> [] ->
          In (html_row_of keys (JDict r)) (html_rows_of keys devices) /\
          In (xlsxwriter.Write (Z.of_nat i + 1) (Z.of_nat (List.length keys))
                (JStr (Str.strip (lines_of (dict_keys ifs)))) xlsxwriter.wrap_format) cells /\
          In (xlsxwriter.Write (Z.of_nat i + 1) (Z.of_nat (List.length keys) + 1)
                (JStr (Str.strip (lines_of (map text_of (dict_values ifs)))))
                xlsxwriter.wrap_format) cells)) /\
  (forallb (has_cell_values keys) (dict_values devices) = false ->
   exists e, write_refusal e /\ export_to_excel devices keys = Raise e).
Proof.
  intros He. split.
  2: { intros Hv. unfold export_to_excel.
       destruct (excel_rows_refused keys devices 1 He Hv) as (e & Hre & ->). eauto. }
  intros Hv.
  unfold export_to_excel, export_to_html.
  rewrite (excel_rows_spec keys devices 1 He Hv), (html_rows_spec keys devices He Hv).
  cbn [obind].
  eexists. split; [reflexivity|]. split; [reflexivity|].
  intros i device r ifs Hnth Hifs.
  assert (Hrow : In (1 + Z.of_nat i, (device, JDict r)) (enumerate devices 1)).
  { apply in_enumerate. eauto. }
  assert (Hcells : forall w, In w (excel_cells_of keys (Z.of_nat i + 1) (JDict r)) ->
             In w (flat_map (fun nd => excel_cells_of keys (fst nd) (snd (snd nd)))
                            (enumerate devices 1))).
  { intros w Hw. apply in_flat_map. exists (1 + Z.of_nat i, (device, JDict r)).
    split; auto. cbn [fst snd]. now replace (1 + Z.of_nat i) with (Z.of_nat i + 1) by lia. }
  split; [|split].
  - intros c key Hc. apply in_or_app. right. apply Hcells.
    unfold excel_cells_of. apply in_or_app. left.
    unfold excel_key_cells_of. apply in_map_iff.
    exists (Z.of_nat c, key). split; auto.
    apply in_enumerate. exists c. split; auto.
  - intros -> w Hw Hr.
    apply in_app_or in Hw as [Hw|Hw].
    + exfalso. unfold xlsxwriter.write_row in Hw.
      apply in_app_or in Hw as [Hw|Hw]; apply in_map_iff in Hw as (cv & <- & _);
        cbn in Hr; lia.
    + apply in_flat_map in Hw as ([n [d data]] & Hn & Hw). cbn [fst snd] in Hw.
      apply in_enumerate in Hn as (j & Hj & ->).
      assert (Hrw : xlsxwriter.row w = 1 + Z.of_nat j).
      { unfold excel_cells_of in Hw. destruct data as [| | | | | |r']; try (now inversion Hw).
        apply in_app_or in Hw as [Hw|Hw].
        - unfold excel_key_cells_of in Hw. apply in_map_iff in Hw as (ck & <- & _).
          reflexivity.
        - destruct (interfaces_of (JDict r')) as [[|kv ifs']|]; try (now inversion Hw).
          destruct Hw as [<-|[<-|[]]]; reflexivity. }
      assert (j = i) by lia. subst j.
      rewrite Hnth in Hj. injection Hj as <- <-.
      unfold excel_cells_of, interfaces_of in Hw. rewrite Hifs in Hw.
      cbn [excel_interface_cells_of] in Hw. rewrite app_nil_r in Hw.
      unfold excel_key_cells_of in Hw. apply in_map_iff in Hw as ([c key] & <- & Hck).
      apply in_enumerate in Hck as (c' & Hc' & ->). cbn [xlsxwriter.col fst].
      assert (c' < List.length keys)%nat by (apply nth_error_Some; congruence). lia.
  - intros Hne.
    assert (Hic : forall w, In w (excel_interface_cells_of keys (Z.of_nat i + 1) ifs) ->
               In w (excel_cells_of keys (Z.of_nat i + 1) (JDict r))).
    { intros w Hw. unfold excel_cells_of, interfaces_of. rewrite Hifs.
      apply in_or_app. now right. }
    split; [|destruct ifs as [|kv ifs]; [congruence|];
             split; apply in_or_app; right; apply Hcells; apply Hic;
             [left; reflexivity|right; left; reflexivity]].
    unfold html_rows_of. apply in_map_iff. exists (device, JDict r). split; [reflexivity|].
    apply filter_In. split; [eapply nth_error_In; eauto|].
    cbn [snd]. unfold has_interface, interfaces_of. rewrite Hifs.
    destruct ifs; [congruence|reflexivity].
Qed.

(** C5 (as stated, refuted).  A device without interfaces whose
    ['host-name'] is a list: it is an enriched record, and
    [export_to_excel] raises [TypeError] at the cell of ['host-name'];
    [workbook.close()] is not reached and the device has no row in the
    spreadsheet. *)
Lemma C5_counterexample_list_field :
  forallb is_enriched (dict_values Scenario.listed) = true /\
  dict_get "interfaces"
    [("system-ip", JStr "1.1.1.1"); ("host-name", JList [JStr "r1"]); ("interfaces", JDict [])]
  = Some (JDict []) /\
  export_to_excel Scenario.listed ["system-ip"; "host-name"] = Raise TypeError.
Proof. repeat split. Qed.

(** Two devices, with no interface and with two: the first has a
    spreadsheet row without interface cells and no HTML row, the second
    has both. *)
Lemma C5_witness_two_devices :
  exists cells,
    export_to_excel Scenario.enriched ["system-ip"; "host-name"] = Return cells /\
    export_to_html Scenario.enriched ["system-ip"; "host-name"]
    = Return ([html_head; html_header ["system-ip"; "host-name"]]
              ++ html_rows_of ["system-ip"; "host-name"] Scenario.enriched ++ [html_tail]) /\
    forall i device r ifs,
      nth_error Scenario.enriched i = Some (device, JDict r) ->
      dict_get "interfaces" r = Some (JDict ifs) ->
      (forall c key, nth_error ["system-ip"; "host-name"] c = Some key ->
         In (xlsxwriter.Write (Z.of_nat i + 1) (Z.of_nat c) (field_or_na r key)
               xlsxwriter.base_format) cells) /\
      (ifs = [] ->
         forall w, In w cells -> xlsxwriter.row w = Z.of_nat i + 1 ->
                   xlsxwriter.col w < Z.of_nat (List.length ["system-ip"; "host-name"])) /\
      (ifs <> [] ->
         In (html_row_of ["system-ip"; "host-name"] (JDict r))
            (html_rows_of ["system-ip"; "host-name"] Scenario.enriched) /\
         In (xlsxwriter.Write (Z.of_nat i + 1)
               (Z.of_nat (List.length ["system-ip"; "host-name"]))
               (JStr (Str.strip (lines_of (dict_keys ifs)))) xlsxwriter.wrap_format) cells /\
         In (xlsxwriter.Write (Z.of_nat i + 1)
               (Z.of_nat (List.length ["system-ip"; "host-name"]) + 1)
               (JStr (Str.strip (lines_of (map text_of (dict_values ifs)))))
               xlsxwriter.wrap_format) cells).
Proof.
  apply (proj1 (C5_rows_of_the_two_reports Scenario.enriched ["system-ip"; "host-name"]
                  eq_refl)).
  reflexivity.
Defined.

(* ================================================================== *)
(** * The credential store *)
(* ================================================================== *)

Section Base64Facts.

Import base64.

Lemma in_byte_values (a : Z) : is_byte a -> In a byte_values.
Proof.
  intros [H1 H2]. unfold byte_values.
  rewrite <- (Z2Nat.id a) by assumption.
  apply in_map. apply in_seq. lia.
Qed.

Lemma in_sextet_values (v : Z) : 0 <= v < 64 -> In v sextet_values.
Proof.
  intros [H1 H2]. unfold sextet_values.
  rewrite <- (Z2Nat.id v) by assumption.
  apply in_map. apply in_seq. lia.
Qed.

Lemma all_sextets : forallb sextet_check sextet_values = true.
Proof. vm_compute. reflexivity. Qed.

Lemma all_bytes : forallb byte_check byte_values = true.
Proof. vm_compute. reflexivity. Qed.

Lemma all_pairs : forallb (fun a => forallb (pair_check a) byte_values) byte_values = true.
Proof. vm_compute. reflexivity. Qed.

Lemma sextet_facts (v : Z) :
  0 <= v < 64 ->
  Ascii.eqb (b64_there_and_back (b2a_char v)) "=" = false /\
  a2b_value (b64_there_and_back (b2a_char v)) = Some v.
Proof.
  intros Hv. pose proof all_sextets as H. rewrite forallb_forall in H.
  specialize (H v (in_sextet_values v Hv)). unfold sextet_check in H.
  apply andb_true_iff in H as [H1 H2]. split.
  - now apply negb_true_iff in H1.
  - destruct (a2b_value (b64_there_and_back (b2a_char v))); [|discriminate].
    apply Z.eqb_eq in H2. now subst.
Qed.

Lemma in_sextet_iff (v : Z) : in_sextet v = true <-> 0 <= v < 64.
Proof. unfold in_sextet. rewrite andb_true_iff, Z.leb_le, Z.ltb_lt. tauto. Qed.

Lemma byte_facts (a : Z) :
  is_byte a ->
  0 <= Z.shiftr a 2 < 64 /\ 0 <= Z.land a 63 < 64 /\
  0 <= Z.shiftl (Z.land a 3) 4 < 64 /\ 0 <= Z.shiftl (Z.land a 15) 2 < 64 /\
  Z.lor (Z.land (Z.shiftl (Z.shiftr a 6) 6) 255) (Z.land a 63) = a /\
  Z.lor (Z.land (Z.shiftl (Z.shiftr a 2) 2) 255) (Z.shiftr (Z.shiftl (Z.land a 3) 4) 4) = a /\
  Z.land (Z.shiftl (Z.land a 3) 4) 15 = 0 /\
  Z.lor (Z.land (Z.shiftl (Z.shiftr a 4) 4) 255) (Z.shiftr (Z.shiftl (Z.land a 15) 2) 2) = a.
Proof.
  intros Ha. pose proof all_bytes as H. rewrite forallb_forall in H.
  specialize (H a (in_byte_values a Ha)). unfold byte_check in H.
  rewrite !andb_true_iff, !in_sextet_iff, !Z.eqb_eq in H. tauto.
Qed.

Lemma pair_facts (a b : Z) :
  is_byte a -> is_byte b ->
  0 <= sextet2 a b < 64 /\ 0 <= sextet3 a b < 64 /\
  Z.lor (Z.land (Z.shiftl (Z.shiftr a 2) 2) 255) (Z.shiftr (sextet2 a b) 4) = a /\
  Z.land (sextet2 a b) 15 = Z.shiftr b 4 /\
  Z.lor (Z.land (Z.shiftl (Z.shiftr a 4) 4) 255) (Z.shiftr (sextet3 a b) 2) = a /\
  Z.land (sextet3 a b) 3 = Z.shiftr b 6.
Proof.
  intros Ha Hb. pose proof all_pairs as H. rewrite forallb_forall in H.
  specialize (H a (in_byte_values a Ha)). rewrite forallb_forall in H.
  specialize (H b (in_byte_values b Hb)). unfold pair_check in H.
  rewrite !andb_true_iff, !in_sextet_iff, !Z.eqb_eq in H. tauto.
Qed.

Section Steps.

Variables (v : Z) (rest : list ascii) (leftchar pads : Z) (bin_data : list Z).
Hypothesis Hv : 0 <= v < 64.

Lemma a2b_digit_0 :
  a2b_loop (b64_there_and_back (b2a_char v) :: rest) 0 leftchar pads bin_data
  = a2b_loop rest 1 v 0 bin_data.
Proof.
  destruct (sextet_facts v Hv) as [H1 H2]. cbn [a2b_loop]. now rewrite H1, H2.
Qed.

Lemma a2b_digit_1 :
  a2b_loop (b64_there_and_back (b2a_char v) :: rest) 1 leftchar pads bin_data
  = a2b_loop rest 2 (Z.land v 15) 0
      (Z.lor (Z.land (Z.shiftl leftchar 2) 255) (Z.shiftr v 4) :: bin_data).
Proof.
  destruct (sextet_facts v Hv) as [H1 H2]. cbn [a2b_loop]. now rewrite H1, H2.
Qed.

Lemma a2b_digit_2 :
  a2b_loop (b64_there_and_back (b2a_char v) :: rest) 2 leftchar pads bin_data
  = a2b_loop rest 3 (Z.land v 3) 0
      (Z.lor (Z.land (Z.shiftl leftchar 4) 255) (Z.shiftr v 2) :: bin_data).
Proof.
  destruct (sextet_facts v Hv) as [H1 H2]. cbn [a2b_loop]. now rewrite H1, H2.
Qed.

Lemma a2b_digit_3 :
  a2b_loop (b64_there_and_back (b2a_char v) :: rest) 3 leftchar pads bin_data
  = a2b_loop rest 0 0 0
      (Z.lor (Z.land (Z.shiftl leftchar 6) 255) v :: bin_data).
Proof.
  destruct (sextet_facts v Hv) as [H1 H2]. cbn [a2b_loop]. now rewrite H1, H2.
Qed.

End Steps.

(** Decoding what was encoded gives the bytes back, after those already
    decoded. *)
Lemma a2b_b2a (n : nat) :
  forall (data acc : list Z),
  (List.length data <= n)%nat ->
  Forall is_byte data ->
  a2b_loop (map b64_there_and_back (b2a_base64 data)) 0 0 0 acc = Return (rev acc ++ data).
Proof.
  induction n as [|n IH]; intros data acc Hlen Hbytes.
  - destruct data; [|simpl in Hlen; lia]. cbn. now rewrite app_nil_r.
  - destruct data as [|a [|b [|c data]]].
    + cbn. now rewrite app_nil_r.
    + inversion Hbytes as [|? ? Ha _]; subst.
      destruct (byte_facts a Ha) as (A1 & _ & A3 & _ & _ & A6 & _).
      cbn [b2a_base64 map].
      rewrite a2b_digit_0 by assumption.
      rewrite a2b_digit_1 by assumption.
      rewrite A6. reflexivity.
    + inversion Hbytes as [|? ? Ha Hb']; subst. inversion Hb' as [|? ? Hb _]; subst.
      destruct (byte_facts a Ha) as (A1 & _).
      destruct (byte_facts b Hb) as (_ & _ & _ & B4 & _ & _ & _ & B8).
      destruct (pair_facts a b Ha Hb) as (P1 & _ & P3 & P4 & _).
      cbn [b2a_base64 map]. fold (sextet2 a b).
      rewrite a2b_digit_0 by assumption.
      rewrite a2b_digit_1 by assumption.
      rewrite a2b_digit_2 by assumption.
      rewrite P3, P4, B8.
      cbn. now rewrite <- app_assoc.
    + inversion Hbytes as [|? ? Ha Hb']; subst. inversion Hb' as [|? ? Hb Hc']; subst.
      inversion Hc' as [|? ? Hc Hrest]; subst.
      destruct (byte_facts a Ha) as (A1 & _).
      destruct (byte_facts c Hc) as (_ & C2 & _ & _ & C5 & _).
      destruct (pair_facts a b Ha Hb) as (P1 & _ & P3 & P4 & _).
      destruct (pair_facts b c Hb Hc) as (_ & Q2 & _ & _ & Q5 & Q6).
      cbn [b2a_base64 map]. fold (sextet2 a b). fold (sextet3 b c).
      rewrite a2b_digit_0 by assumption.
      rewrite a2b_digit_1 by assumption.
      rewrite a2b_digit_2 by assumption.
      rewrite a2b_digit_3 by assumption.
      rewrite P3, P4, Q5, Q6, C5.
      rewrite IH; auto.
      * cbn [rev]. rewrite <- !app_assoc. reflexivity.
      * simpl in Hlen. lia.
Qed.

Lemma code_is_byte (c : ascii) : is_byte (Str.code c).
Proof.
  unfold is_byte, Str.code. pose proof (nat_ascii_bounded c). lia.
Qed.

Lemma of_codes_code (s : string) :
  Str.of_codes (map Str.code (list_ascii_of_string s)) = s.
Proof.
  unfold Str.of_codes. rewrite map_map.
  rewrite (map_ext _ (fun c => c)).
  - rewrite map_id. apply string_of_list_ascii_of_string.
  - intros c. unfold Str.code. rewrite Nat2Z.id. apply ascii_nat_embedding.
Qed.

(** [urlsafe_b64decode(urlsafe_b64encode(s)) == s] for every byte string. *)
Lemma urlsafe_b64_roundtrip (s : string) :
  urlsafe_b64decode (urlsafe_b64encode s) = Return s.
Proof.
  unfold urlsafe_b64decode, urlsafe_b64encode.
  rewrite list_ascii_of_string_of_list_ascii, map_map.
  change (fun x => urlsafe_decode_translation (urlsafe_encode_translation x))
    with b64_there_and_back.
  rewrite (a2b_b2a (List.length (map Str.code (list_ascii_of_string s)))); auto.
  - cbn [obind rev app]. now rewrite of_codes_code.
  - apply Forall_forall. intros x Hx. apply in_map_iff in Hx as (c & <- & _).
    apply code_is_byte.
Qed.

Lemma a2b_loop_raises (data : list ascii) :
  forall q l p acc, raises_only (eq binascii_Error) (a2b_loop data q l p acc).
Proof.
  induction data as [|c data IH]; intros q l p acc; cbn [a2b_loop].
  - break_if; simpl; auto.
  - repeat match goal with
           | |- raises_only _ (a2b_loop data _ _ _ _) => apply IH
           | |- raises_only _ (if ?x then _ else _) => destruct x
           | |- raises_only _ (match ?x with _ => _ end) => destruct x
           end; simpl; auto.
Qed.

End Base64Facts.



(** The obscured text of ["admin"] is the one CPython writes. *)
Example encode_pass_admin :
  encode_pass Scenario.zlib_compress "admin" = "eNpLTMnNzAMABgECCg=="%string.
Proof. vm_compute. reflexivity. Qed.

Section CredentialFacts.

Lemma decompress_raises (data : string) :
  raises_only (eq zlib_error) (zlib.decompress data).
Proof.
  unfold zlib.decompress. repeat break_match; simpl; auto.
Qed.

Lemma urlsafe_b64decode_raises (s : string) :
  raises_only (eq binascii_Error) (base64.urlsafe_b64decode s).
Proof.
  unfold base64.urlsafe_b64decode.
  apply raises_only_bind; [apply a2b_loop_raises|]. intros; exact I.
Qed.

(** Decoding a line raises no [IOError]. *)
Lemma decode_line_raises (line : string) :
  raises_only (fun e => is_IOError e = false) (decode_line line).
Proof.
  unfold decode_line, decode_pass, encode_ascii, Str.decode_utf8.
  break_if; simpl; auto.
  pose proof (urlsafe_b64decode_raises (Str.strip line)) as Hb.
  destruct (base64.urlsafe_b64decode (Str.strip line)) as [data|e|]; simpl in *;
    [|now subst|auto].
  pose proof (decompress_raises data) as Hz.
  destruct (zlib.decompress data) as [text|e|]; simpl in *; [|now subst|auto].
  break_if; simpl; auto.
Qed.

End CredentialFacts.

(** C3 (amended).  [get_creds] logs the error and returns the pair of
    empty strings when opening or reading the file raises an [IOError].
    Once the file is read it returns the decoded pair when its first two
    lines decode; a file with fewer than two lines, a line that is not
    valid base64, or data that does not decompress makes it raise
    ([IndexError], [binascii.Error], [zlib.error]): the exception of
    the first failure leaves [get_creds]. *)
Theorem C3_get_creds_outcomes (readlines : string -> outcome (list string))
  (file_name : string) (log : list logrec) :
  (forall e, readlines file_name = Raise e -> is_IOError e = true ->
     get_creds readlines file_name log
     = (Return (""%string, ""%string),
        log ++ [(ERROR, [Lit "Error reading from file: "; FmtExn e])])) /\
  (forall lines, readlines file_name = Return lines ->
     (forall l0 l1 u p,
        nth_error lines 0 = Some l0 -> nth_error lines 1 = Some l1 ->
        decode_line l0 = Return u -> decode_line l1 = Return p ->
        get_creds readlines file_name log = (Return (u, p), log)) /\
     (lines = [] -> get_creds readlines file_name log = (Raise IndexError, log)) /\
     (forall l0 u, lines = [l0] -> decode_line l0 = Return u ->
        get_creds readlines file_name log = (Raise IndexError, log)) /\
     (forall l0 e, nth_error lines 0 = Some l0 -> decode_line l0 = Raise e ->
        get_creds readlines file_name log = (Raise e, log)) /\
     (forall l0 l1 u e,
        nth_error lines 0 = Some l0 -> nth_error lines 1 = Some l1 ->
        decode_line l0 = Return u -> decode_line l1 = Raise e ->
        get_creds readlines file_name log = (Raise e, log))) /\
  (forall line,
     (base64.urlsafe_b64decode (Str.strip line) = Raise binascii_Error ->
      encode_ascii (Str.strip line) = Return (Str.strip line) ->
      decode_line line = Raise binascii_Error) /\
     (forall data,
        encode_ascii (Str.strip line) = Return (Str.strip line) ->
        base64.urlsafe_b64decode (Str.strip line) = Return data ->
        zlib.decompress data = Raise zlib_error ->
        decode_line line = Raise zlib_error)).
Proof.
  unfold get_creds, try_except, mbind, lift, logging_error, mret.
  split; [|split].
  - intros e -> He. rewrite He. reflexivity.
  - intros lines ->. repeat split.
    + intros l0 l1 u p H0 H1 Hu Hp. unfold list_getitem. rewrite H0, H1. cbn [obind].
      rewrite Hu, Hp. reflexivity.
    + intros ->. reflexivity.
    + intros l0 u -> Hu. cbn. rewrite Hu. reflexivity.
    + intros l0 e H0 He. unfold list_getitem. rewrite H0. cbn [obind]. rewrite He.
      pose proof (decode_line_raises l0) as Hr. rewrite He in Hr. simpl in Hr.
      now rewrite Hr.
    + intros l0 l1 u e H0 H1 Hu He. unfold list_getitem. rewrite H0, H1. cbn [obind].
      rewrite Hu, He.
      pose proof (decode_line_raises l1) as Hr. rewrite He in Hr. simpl in Hr.
      now rewrite Hr.
  - intros line. unfold decode_line, decode_pass. split.
    + intros Hb Ha. rewrite Ha. cbn [obind]. now rewrite Hb.
    + intros data Ha Hb Hz. rewrite Ha. cbn [obind]. rewrite Hb. cbn [obind]. now rewrite Hz.
Qed.

(** C3 (as stated, refuted).  The file is read and is malformed: it is
    empty, or its first line is the single base64 digit ["A"], or its
    first line ["AAAA"] decodes to bytes that are no zlib stream.
    [get_creds] raises each time; it does not return the empty pair. *)
Lemma C3_counterexample_malformed_files :
  get_creds (Scenario.holding []) "vManageCreds.txt" [] = (Raise IndexError, []) /\
  get_creds (Scenario.holding ["A"%string; "eNorTk0uSi0BAAjRAoc="%string])
    "vManageCreds.txt" [] = (Raise binascii_Error, []) /\
  get_creds (Scenario.holding ["AAAA"%string; "eNorTk0uSi0BAAjRAoc="%string])
    "vManageCreds.txt" [] = (Raise zlib_error, []).
Proof. vm_compute. repeat split. Qed.

(** A file that cannot be opened, the file written for admin / secret,
    and a file of one line. *)
Lemma C3_witness_three_files :
  get_creds Scenario.unreadable "vManageCreds.txt" []
  = (Return (""%string, ""%string),
     [(ERROR, [Lit "Error reading from file: "; FmtExn OSError])]) /\
  get_creds (Scenario.holding Scenario.creds_file) "vManageCreds.txt" []
  = (Return ("admin"%string, "secret"%string), []) /\
  get_creds (Scenario.holding [List.hd ""%string Scenario.creds_file]) "vManageCreds.txt" []
  = (Raise IndexError, []).
Proof.
  split; [|split].
  - apply (proj1 (C3_get_creds_outcomes Scenario.unreadable "vManageCreds.txt" []) OSError);
      reflexivity.
  - apply (proj1 (proj1 (proj2 (C3_get_creds_outcomes
                                  (Scenario.holding Scenario.creds_file)
                                  "vManageCreds.txt" []))
                    Scenario.creds_file eq_refl)
             ("eNpLTMnNzAMABgECCg==" ++ newline)%string
             ("eNorTk0uSi0BAAjRAoc=" ++ newline)%string);
      vm_compute; reflexivity.
  - apply (proj1 (proj2 (proj2 (proj1 (proj2 (C3_get_creds_outcomes
                                  (Scenario.holding [List.hd ""%string Scenario.creds_file])
                                  "vManageCreds.txt" []))
                    [List.hd ""%string Scenario.creds_file] eq_refl)))
             ("eNpLTMnNzAMABgECCg==" ++ newline)%string "admin"%string);
      vm_compute; reflexivity.
Defined.

(* ================================================================== *)
(** * Writing the credential file and reading it back *)
(* ================================================================== *)

Section StoreLoadFacts.

Import base64.

Lemma b64url_char_cases (c : ascii) (P : ascii -> Prop) :
  b64url_char c = true ->
  Forall P b64url_chars ->
  P c.
Proof.
  intros Hc HP. unfold b64url_char in Hc.
  apply existsb_exists in Hc as (x & Hin & Heq).
  apply Ascii.eqb_eq in Heq. subst x.
  rewrite Forall_forall in HP. auto.
Qed.

(** No white space starts with a character of the base64 text, read
    forwards or backwards. *)
Lemma b64url_not_space (c : ascii) (rest : string) :
  b64url_char c = true ->
  Str.first_some (fun w => Str.drop_prefix w (String c rest)) Str.whitespace = None /\
  Str.first_some (fun w => Str.drop_prefix w (String c rest))
                 (map Str.reverse Str.whitespace) = None.
Proof.
  intros Hc. revert rest.
  apply (b64url_char_cases c
           (fun c => forall rest,
              Str.first_some (fun w => Str.drop_prefix w (String c rest)) Str.whitespace
              = None /\
              Str.first_some (fun w => Str.drop_prefix w (String c rest))
                             (map Str.reverse Str.whitespace) = None) Hc).
  unfold b64url_chars. cbn [list_ascii_of_string].
  repeat (apply Forall_cons; [intros rest; split; reflexivity|]).
  apply Forall_nil.
Qed.

Lemma b64url_is_ascii (c : ascii) : b64url_char c = true -> (Str.code c <? 128) = true.
Proof.
  intros Hc. apply (b64url_char_cases c (fun c => (Str.code c <? 128) = true) Hc).
  apply Forall_forall. apply forallb_forall. vm_compute. reflexivity.
Qed.

Lemma strip_leading_stuck (ws : list string) (fuel : nat) (s : string) :
  Str.first_some (fun w => Str.drop_prefix w s) ws = None ->
  Str.strip_leading ws fuel s = s.
Proof. intros H. destruct fuel; simpl; auto. now rewrite H. Qed.

Lemma list_ascii_of_string_app (a b : string) :
  list_ascii_of_string (a ++ b) = list_ascii_of_string a ++ list_ascii_of_string b.
Proof. induction a as [|c a IH]; simpl; auto. now rewrite IH. Qed.

Lemma reverse_involutive (s : string) : Str.reverse (Str.reverse s) = s.
Proof.
  unfold Str.reverse. rewrite list_ascii_of_string_of_list_ascii, rev_involutive.
  apply string_of_list_ascii_of_string.
Qed.

Lemma reverse_line (t : string) :
  Str.reverse (t ++ newline) = String (ascii_of_nat 10) (Str.reverse t).
Proof.
  unfold Str.reverse. rewrite list_ascii_of_string_app, rev_app_distr. reflexivity.
Qed.

(** The text read backwards starts with a character of the text. *)
Lemma reverse_head (t : string) :
  forallb b64url_char (list_ascii_of_string t) = true ->
  Str.reverse t = ""%string \/
  exists c rest, Str.reverse t = String c rest /\ b64url_char c = true.
Proof.
  intros H. unfold Str.reverse.
  destruct (rev (list_ascii_of_string t)) as [|c l] eqn:E; [now left|right].
  exists c, (string_of_list_ascii l). split; auto.
  rewrite forallb_forall in H. apply H. apply in_rev. rewrite E. now left.
Qed.

(** [strip] takes the newline off a line of base64 text, and nothing
    else. *)
Lemma strip_line (t : string) :
  forallb b64url_char (list_ascii_of_string t) = true ->
  Str.strip (t ++ newline) = t.
Proof.
  intros Ht. destruct t as [|c0 t0]; [reflexivity|].
  remember (String c0 t0) as t eqn:Et. unfold Str.strip.
  assert (Hl : Str.lstrip (t ++ newline) = (t ++ newline)%string).
  { unfold Str.lstrip. subst t.
    cbn [list_ascii_of_string forallb] in Ht.
    apply andb_true_iff in Ht as [Hc _]. cbn [append].
    apply strip_leading_stuck.
    exact (proj1 (b64url_not_space c0 (t0 ++ newline) Hc)). }
  rewrite Hl. unfold Str.rstrip. rewrite reverse_line.
  assert (Hlen : String.length (t ++ newline) = S (String.length t)).
  { clear. induction t as [|c t IH]; simpl; auto. }
  rewrite Hlen. cbn [Str.strip_leading].
  change (Str.first_some
            (fun w => Str.drop_prefix w (String (ascii_of_nat 10) (Str.reverse t)))
            (map Str.reverse Str.whitespace))
    with (Some (Str.reverse t)).
  destruct (reverse_head t Ht) as [E|(c & rest & E & Hc)].
  - rewrite E. rewrite strip_leading_stuck by reflexivity.
    rewrite <- E. apply reverse_involutive.
  - rewrite E.
    rewrite (strip_leading_stuck _ _ _ (proj2 (b64url_not_space c rest Hc))).
    rewrite <- E. apply reverse_involutive.
Qed.

Lemma get_in_string (s : string) :
  forall n c, String.get n s = Some c -> In c (list_ascii_of_string s).
Proof.
  induction s as [|a s IH]; intros n c; simpl; [discriminate|].
  destruct n; [intros [= ->]; now left|]. intros H. right. eauto.
Qed.

(** Every digit that is written is a character of the text. *)
Lemma b2a_char_b64url (v : Z) :
  b64url_char (urlsafe_encode_translation (b2a_char v)) = true.
Proof.
  unfold b2a_char. destruct (String.get (Z.to_nat v) alphabet) as [c|] eqn:E;
    [|reflexivity].
  apply get_in_string in E. revert c E.
  apply (proj1 (forallb_forall
                  (fun c => b64url_char (urlsafe_encode_translation c)) _)).
  vm_compute. reflexivity.
Qed.

Lemma b2a_base64_b64url (n : nat) :
  forall data, (List.length data <= n)%nat ->
  forallb b64url_char (map urlsafe_encode_translation (b2a_base64 data)) = true.
Proof.
  induction n as [|n IH]; intros data Hlen.
  - destruct data; [reflexivity|simpl in Hlen; lia].
  - destruct data as [|a [|b [|c data]]]; cbn [b2a_base64 map forallb];
      rewrite ?b2a_char_b64url; auto.
    cbn [andb]. apply IH. simpl in Hlen. lia.
Qed.

(** What [urlsafe_b64encode] writes is base64 text. *)
Lemma urlsafe_b64encode_text (s : string) :
  forallb b64url_char (list_ascii_of_string (urlsafe_b64encode s)) = true.
Proof.
  unfold urlsafe_b64encode. rewrite list_ascii_of_string_of_list_ascii.
  eapply b2a_base64_b64url. reflexivity.
Qed.

Lemma b64url_text_ascii (t : string) :
  forallb b64url_char (list_ascii_of_string t) = true -> is_ascii_text t = true.
Proof.
  unfold is_ascii_text. rewrite !forallb_forall. intros H c Hc.
  apply b64url_is_ascii. auto.
Qed.

Lemma utf8_valid_ascii (l : list Z) (lo hi : Z) :
  forallb (fun b => b <? 128) l = true -> Str.utf8_valid l 0 lo hi = true.
Proof.
  revert lo hi. induction l as [|b l IH]; intros lo hi H; [reflexivity|].
  cbn [forallb] in H. apply andb_true_iff in H as [Hb Hl].
  cbn [Str.utf8_valid]. unfold Str.utf8_tail. rewrite Hb. now apply IH.
Qed.

Lemma decode_utf8_ascii (s : string) :
  is_ascii_text s = true -> Str.decode_utf8 s = Return s.
Proof.
  intros H. unfold Str.decode_utf8. rewrite utf8_valid_ascii; auto.
  unfold is_ascii_text in H. revert H.
  induction (list_ascii_of_string s) as [|c l IH]; simpl; auto.
  intros H. apply andb_true_iff in H as [Hc Hl]. rewrite Hc. auto.
Qed.

Variable zlib_compress : string -> Z -> string.

(** A line written by [store_creds] decodes to the text it was written
    for. *)
Lemma decode_line_encode_line (text line : string) :
  zlib.decompress (zlib_compress text 9) = Return text ->
  encode_line zlib_compress text = Return line ->
  decode_line line = Return text.
Proof.
  intros Hz. unfold encode_line, encode_ascii, decode_ascii.
  destruct (forallb (fun c => Str.code c <? 128) (list_ascii_of_string text)) eqn:Ha;
    [|discriminate].
  cbn [obind].
  pose proof (urlsafe_b64encode_text (zlib_compress text 9)) as Ht.
  pose proof (b64url_text_ascii _ Ht) as Hascii. unfold is_ascii_text in Hascii.
  unfold encode_pass. rewrite Hascii. cbn [obind]. intros [= <-].
  unfold decode_line. rewrite (strip_line _ Ht).
  unfold encode_ascii. rewrite Hascii. cbn [obind].
  unfold decode_pass. rewrite urlsafe_b64_roundtrip. cbn [obind]. rewrite Hz. cbn [obind].
  now apply decode_utf8_ascii.
Qed.

End StoreLoadFacts.

(* ================================================================== *)
(** * Further properties *)
(* ================================================================== *)

(** X9.  In the mapping [add_interface_info] returns, no device's
    ['interfaces'] holds a name of the ignore list, an address that
    [ipaddress.ip_network] refuses, or a private network. *)
Theorem interfaces_are_filtered
  (requests_get : string -> string * string -> requests.get_result)
  (auth : string * string) (base : string) (ignore : list string)
  (devices devices' : pydict) (log : list logrec)
  (d name : string) (r ifs : pydict) (address : json) :
  wf_dict devices ->
  fst (add_interface_info requests_get devices auth base ignore log) = Return devices' ->
  dict_get d devices' = Some (JDict r) ->
  dict_get "interfaces" r = Some (JDict ifs) ->
  In (name, address) ifs ->
  ~ In name ignore /\
  is_ipv4 address = Return true /\
  exists net, ipaddress.ip_network address false = Return net /\
              ipaddress.is_private net = false.
Proof. apply add_interface_info_invariant. Qed.

Lemma interfaces_are_filtered_in_the_scenario :
  ~ In "ge0/0"%string ["ge0/0.22"%string] /\
  is_ipv4 (JStr "8.8.8.8") = Return true /\
  exists net, ipaddress.ip_network (JStr "8.8.8.8") false = Return net /\
              ipaddress.is_private net = false.
Proof.
  apply (interfaces_are_filtered
           (Scenario.controller [("1.1.1.1", Scenario.spec_interfaces)])
           Scenario.auth Scenario.base ["ge0/0.22"]
           Scenario.r1 (Scenario.r1_with [("ge0/0", JStr "8.8.8.8")]) []
           "1.1.1.1" "ge0/0"
           [("system-ip", JStr "1.1.1.1"); ("host-name", JStr "r1");
            ("interfaces", JDict [("ge0/0", JStr "8.8.8.8")])]
           [("ge0/0", JStr "8.8.8.8")] (JStr "8.8.8.8")).
  - exact wf_scenario_r1.
  - vm_compute. reflexivity.
  - reflexivity.
  - reflexivity.
  - simpl. tauto.
Defined.

(** The scenario of the specification: of the three interfaces, the
    private one and the ignored one are dropped, and the device ends
    with [{"ge0/0": "8.8.8.8"}]. *)
Example scenario_of_the_specification :
  fst (add_interface_info
         (Scenario.controller [("1.1.1.1", Scenario.spec_interfaces)])
         Scenario.r1 Scenario.auth Scenario.base ["ge0/0.22"] [])
  = Return (Scenario.r1_with [("ge0/0", JStr "8.8.8.8")]).
Proof. vm_compute. reflexivity. Qed.

(** The addresses the specification names: three private ones, a public
    one, and two texts that are no address. *)
Example addresses_of_the_specification :
  option_map ipaddress.is_private
    (match ipaddress.ip_network (JStr "10.0.0.5") false with
     | Return n => Some n | _ => None end) = Some true /\
  option_map ipaddress.is_private
    (match ipaddress.ip_network (JStr "192.168.1.1") false with
     | Return n => Some n | _ => None end) = Some true /\
  option_map ipaddress.is_private
    (match ipaddress.ip_network (JStr "172.16.0.1") false with
     | Return n => Some n | _ => None end) = Some true /\
  option_map ipaddress.is_private
    (match ipaddress.ip_network (JStr "8.8.8.8") false with
     | Return n => Some n | _ => None end) = Some false /\
  is_ipv4 (JStr "not-an-ip") = Return false /\
  is_ipv4 (JStr "") = Return false.
Proof. vm_compute. repeat split. Qed.

(** X12.  The in-place enrichment is the explicit transform [enrich]: what
    [add_interface_info] returns or raises does not depend on the log,
    and is the fold of [enrich_device] over the devices. *)
Theorem add_interface_info_is_enrich
  (requests_get : string -> string * string -> requests.get_result)
  (auth : string * string) (base : string) (ignore : list string)
  (devices : pydict) (log : list logrec) :
  fst (add_interface_info requests_get devices auth base ignore log)
  = enrich requests_get devices auth base ignore.
Proof. apply add_interface_info_computes. Qed.

(** The loop of [format_device_data] keeps a mapping well formed. *)
Lemma format_loop_well_formed (keys : list string) (items : list json) :
  forall acc devices,
  wf_dict acc -> forallb is_dict (dict_values acc) = true ->
  format_loop items keys acc = Return devices ->
  wf_dict devices /\ forallb is_dict (dict_values devices) = true.
Proof.
  induction items as [|d items IH]; intros acc devices Hwf Hd; cbn [format_loop].
  - intros [= <-]. auto.
  - destruct (py_getitem d "system-ip") as [ip|e|]; cbn [obind]; try discriminate.
    destruct (device_data_of d keys []) as [rec|e|]; cbn [obind]; try discriminate.
    unfold dict_setitem, py_setitem.
    destruct ip; cbn [obind]; try discriminate.
    apply IH.
    + now apply wf_dict_set.
    + apply forallb_forall. intros v Hv.
      unfold dict_values in Hv. apply in_map_iff in Hv as ([k v'] & <- & Hin).
      apply in_dict_set in Hin as [[_ ->]|Hin]; [reflexivity|].
      rewrite forallb_forall in Hd. apply Hd. eapply dict_values_in; eauto.
Qed.

(** X8.  What [format_device_data] returns meets what the theorems on
    [add_interface_info] ask of the devices: no key twice, and every
    record an object. *)
Theorem formatted_devices_are_well_formed (raw : list json) (keys : list string)
  (devices : pydict) :
  format_device_data (JList raw) keys = Return devices ->
  wf_dict devices /\ forallb is_dict (dict_values devices) = true.
Proof.
  unfold format_device_data. cbn [py_iter obind].
  apply format_loop_well_formed; [constructor|reflexivity].
Qed.

Lemma formatted_scenario_is_well_formed :
  wf_dict Scenario.r1 /\ forallb is_dict (dict_values Scenario.r1) = true.
Proof.
  apply (formatted_devices_are_well_formed
           [JDict [("system-ip", JStr "1.1.1.1"); ("host-name", JStr "r1")]]
           ["system-ip"; "host-name"] Scenario.r1).
  reflexivity.
Defined.


(* ================================================================== *)
(** * Addresses: dotted quads and the blocks of RFC 1918 *)
(* ================================================================== *)

Section AddressFacts.

Import ipaddress.

Lemma all_octets : forallb octet_check byte_values = true.
Proof. vm_compute. reflexivity. Qed.

Lemma octet_facts (n : Z) :
  is_octet n = true ->
  parse_octet (octet_text n) = Return n /\
  Str.contains "." (octet_text n) = false /\
  Str.contains "/" (octet_text n) = false /\
  Str.isascii_isdigit (octet_text n) = true /\
  Str.int10 (octet_text n) = n.
Proof.
  intros H. unfold is_octet in H. apply andb_true_iff in H as [H0 H1].
  apply Z.leb_le in H0, H1.
  pose proof all_octets as Hall. rewrite forallb_forall in Hall.
  assert (Hin : In n byte_values) by (apply in_byte_values; unfold is_byte; lia).
  specialize (Hall n Hin). unfold octet_check in Hall.
  rewrite !andb_true_iff, !negb_true_iff, Z.eqb_eq in Hall.
  destruct Hall as ((((Hp & Hd) & Hs) & Hdig) & Hint).
  destruct (parse_octet (octet_text n)) as [m| |]; try discriminate.
  apply Z.eqb_eq in Hp. subst m. auto.
Qed.

(** The text of an octet is far below the limit of [int()]. *)
Lemma octet_text_short (n : Z) : (4300 <? String.length (octet_text n))%nat = false.
Proof.
  unfold octet_text. destruct (n <? 10); [reflexivity|].
  destruct (n <? 100); reflexivity.
Qed.

Lemma split_no_sep (sep : ascii) (s : string) :
  Str.contains sep s = false -> Str.split sep s = [s].
Proof.
  unfold Str.contains. induction s as [|c s IH]; simpl; auto.
  intros H. apply orb_false_iff in H as [Hc Hs].
  rewrite Ascii.eqb_sym, Hc. now rewrite (IH Hs).
Qed.

Lemma split_app (sep : ascii) (s1 s2 : string) :
  Str.contains sep s1 = false ->
  Str.split sep (s1 ++ String sep s2) = s1 :: Str.split sep s2.
Proof.
  unfold Str.contains. induction s1 as [|c s IH]; simpl.
  - intros _. now rewrite Ascii.eqb_refl.
  - intros H. apply orb_false_iff in H as [Hc Hs].
    rewrite Ascii.eqb_sym, Hc. now rewrite (IH Hs).
Qed.

Lemma contains_app (c : ascii) (s1 s2 : string) :
  Str.contains c (s1 ++ s2) = Str.contains c s1 || Str.contains c s2.
Proof.
  unfold Str.contains. now rewrite list_ascii_of_string_app, existsb_app.
Qed.

Lemma sep_app (sep : ascii) (s : string) :
  (String sep "" ++ s)%string = String sep s.
Proof. reflexivity. Qed.

Section Quad.

Variables a b c d : Z.
Hypothesis Ha : is_octet a = true.
Hypothesis Hb : is_octet b = true.
Hypothesis Hc : is_octet c = true.
Hypothesis Hd : is_octet d = true.

Lemma split_dotted_quad :
  Str.split "." (dotted_quad a b c d)
  = [octet_text a; octet_text b; octet_text c; octet_text d].
Proof.
  destruct (octet_facts a Ha) as (_ & Ha' & _).
  destruct (octet_facts b Hb) as (_ & Hb' & _).
  destruct (octet_facts c Hc) as (_ & Hc' & _).
  destruct (octet_facts d Hd) as (_ & Hd' & _).
  unfold dotted_quad.
  rewrite !sep_app, !split_app by assumption. now rewrite split_no_sep.
Qed.

Lemma dotted_quad_no_slash : Str.contains "/" (dotted_quad a b c d) = false.
Proof.
  destruct (octet_facts a Ha) as (_ & _ & Ha' & _).
  destruct (octet_facts b Hb) as (_ & _ & Hb' & _).
  destruct (octet_facts c Hc) as (_ & _ & Hc' & _).
  destruct (octet_facts d Hd) as (_ & _ & Hd' & _).
  unfold dotted_quad. rewrite !contains_app, Ha', Hb', Hc', Hd'. reflexivity.
Qed.

Lemma IPv4Address_dotted_quad :
  IPv4Address (dotted_quad a b c d) = Return (from_bytes_big [a; b; c; d]).
Proof.
  unfold IPv4Address, ip_int_from_string4.
  rewrite dotted_quad_no_slash, split_dotted_quad.
  destruct (String.eqb_spec (dotted_quad a b c d) "") as [E|_].
  - pose proof split_dotted_quad as Hs. rewrite E in Hs. discriminate.
  - cbn [List.length Nat.eqb negb omap].
    destruct (octet_facts a Ha) as (-> & _).
    destruct (octet_facts b Hb) as (-> & _).
    destruct (octet_facts c Hc) as (-> & _).
    destruct (octet_facts d Hd) as (-> & _).
    reflexivity.
Qed.

(** The address is a 32-bit number. *)
Lemma from_bytes_big_range : 0 <= from_bytes_big [a; b; c; d] < 2 ^ 32.
Proof.
  unfold is_octet in *.
  apply andb_true_iff in Ha as [Ha0 Ha1]. apply andb_true_iff in Hb as [Hb0 Hb1].
  apply andb_true_iff in Hc as [Hc0 Hc1]. apply andb_true_iff in Hd as [Hd0 Hd1].
  apply Z.leb_le in Ha0, Ha1, Hb0, Hb1, Hc0, Hc1, Hd0, Hd1.
  unfold from_bytes_big. cbn [fold_left].
  change (2 ^ 32) with 4294967296. lia.
Qed.

(** [ip_network] on the text of an address, with or without a prefix
    length. *)
Lemma ip_network_address_text (p : option Z) :
  0 <= prefixlen_of p <= 32 ->
  ip_network (JStr (address_text a b c d p)) false
  = Return (network_of a b c d (prefixlen_of p)).
Proof.
  intros Hp.
  assert (Hnet : IPNetwork V4 (AddrStr (address_text a b c d p)) false
                 = Return (network_of a b c d (prefixlen_of p))).
  { unfold IPNetwork, network_of.
    assert (Hsplit : split_addr_prefix V4 (AddrStr (address_text a b c d p))
                     = Return (AddrStr (dotted_quad a b c d),
                               match p with
                               | None => MaskInt 32
                               | Some n => MaskStr (octet_text n)
                               end)).
    { unfold split_addr_prefix, address_text. destruct p as [n|].
      - rewrite sep_app, split_app by apply dotted_quad_no_slash.
        assert (Hn : is_octet n = true).
        { unfold is_octet. simpl in Hp. apply andb_true_iff. split; apply Z.leb_le; lia. }
        destruct (octet_facts n Hn) as (_ & _ & Hs & _).
        now rewrite (split_no_sep _ _ Hs).
      - now rewrite (split_no_sep _ _ dotted_quad_no_slash). }
    rewrite Hsplit. cbn [obind]. rewrite IPv4Address_dotted_quad. cbn [obind].
    assert (Hmask : make_netmask V4 match p with
                                   | None => MaskInt 32
                                   | Some n => MaskStr (octet_text n)
                                   end = Return (prefixlen_of p)).
    { destruct p as [n|]; [|reflexivity]. simpl in Hp.
      assert (Hn : is_octet n = true).
      { unfold is_octet. apply andb_true_iff. split; apply Z.leb_le; lia. }
      destruct (octet_facts n Hn) as (_ & _ & _ & Hdig & Hint).
      unfold make_netmask, prefix_from_prefix_string.
      rewrite Hdig, (octet_text_short n), Hint.
      cbn [negb max_prefixlen prefixlen_of].
      destruct Hp as [H0 H1]. apply Z.leb_le in H0, H1. rewrite H0, H1. reflexivity. }
    rewrite Hmask. cbn [obind].
    destruct (Z.eqb_spec
                (Z.land (from_bytes_big [a; b; c; d]) (ip_int_from_prefix V4 (prefixlen_of p)))
                (from_bytes_big [a; b; c; d])) as [E|_]; cbn [negb]; [|reflexivity].
    now rewrite E. }
  unfold ip_network, ip_network_arg, IPv4Network. now rewrite Hnet.
Qed.

End Quad.

(** Above its top bit a number has no bit. *)
Lemma testbit_above (x n k : Z) :
  0 <= x < 2 ^ k -> k <= n -> Z.testbit x n = false.
Proof.
  intros Hx Hn. destruct (Z.eq_dec x 0) as [->|Hx0]; [apply Z.bits_0|].
  apply Z.bits_above_log2; [lia|].
  assert (Z.log2 x < k); [|lia].
  apply Z.log2_lt_pow2; lia.
Qed.

(** Masking a 32-bit number with a netmask of [q] bits clears its low
    [32 - q] bits. *)
Lemma land_netmask (x q : Z) :
  0 <= x < 2 ^ 32 -> 0 <= q <= 32 ->
  Z.land x (Z.shiftl (Z.ones q) (32 - q)) = 2 ^ (32 - q) * (x / 2 ^ (32 - q)).
Proof.
  intros Hx Hq.
  rewrite Z.mul_comm, <- Z.shiftr_div_pow2, <- Z.shiftl_mul_pow2 by lia.
  apply Z.bits_inj'. intros n Hn. rewrite Z.land_spec.
  destruct (Z.ltb_spec n (32 - q)) as [Hlow|Hhigh].
  - rewrite !Z.shiftl_spec_low by lia. apply andb_false_r.
  - rewrite !Z.shiftl_spec, Z.shiftr_spec by lia.
    replace (n - (32 - q) + (32 - q)) with n by lia.
    destruct (Z.ltb_spec n 32) as [H32|H32].
    + rewrite Z.ones_spec_low by lia. apply andb_true_r.
    + rewrite (testbit_above x n 32) by lia. reflexivity.
Qed.

Lemma mask_checks :
  forallb (fun p => forallb (fun q => if (q <=? p) && (p <=? 32) then mask_check q p else true)
                            [8; 12; 16])
          byte_values = true.
Proof. vm_compute. reflexivity. Qed.

Lemma mask_facts (q p : Z) :
  q = 8 \/ q = 12 \/ q = 16 -> q <= p <= 32 ->
  Z.land (ip_int_from_prefix V4 p) (ip_int_from_prefix V4 q) = ip_int_from_prefix V4 q /\
  Z.land (Z.lxor (ip_int_from_prefix V4 p) (ALL_ONES V4)) (ip_int_from_prefix V4 q) = 0 /\
  ip_int_from_prefix V4 q = Z.shiftl (Z.ones q) (32 - q).
Proof.
  intros Hq Hp. pose proof mask_checks as H. rewrite forallb_forall in H.
  assert (Hin : In p byte_values) by (apply in_byte_values; unfold is_byte; lia).
  specialize (H p Hin). rewrite forallb_forall in H.
  assert (Hq' : In q [8; 12; 16]) by (destruct Hq as [ Hq | [ Hq | Hq ] ]; subst q; simpl; auto).
  specialize (H q Hq').
  assert (Hle : (q <=? p) && (p <=? 32) = true).
  { apply andb_true_iff. split; apply Z.leb_le; lia. }
  rewrite Hle in H. unfold mask_check in H. cbv zeta in H.
  rewrite !andb_true_iff, !Z.eqb_eq in H. tauto.
Qed.

Lemma private_networks_exceptions_V4 :
  private_networks_exceptions V4
  = [Network V4 3221225481 4294967295 32; Network V4 3221225482 4294967295 32].
Proof. vm_compute. reflexivity. Qed.

(** A network whose two ends lie in a block of the private list, a
    block that holds neither exception, is private. *)
Lemma in_block_is_private (x M p blk Mq q : Z) :
  In (Network V4 blk Mq q) (private_networks V4) ->
  Z.land M Mq = Mq ->
  Z.land (Z.lxor M (ALL_ONES V4)) Mq = 0 ->
  Z.land x Mq = blk ->
  Z.land 4294967295 Mq = Mq ->
  Z.land 3221225481 Mq <> blk ->
  Z.land 3221225482 Mq <> blk ->
  is_private (Network V4 (Z.land x M) M p) = true.
Proof.
  intros Hin HM Hhost Hx Hones He1 He2.
  assert (Hnet : Z.land (Z.land x M) Mq = blk).
  { now rewrite <- Z.land_assoc, HM. }
  assert (Hbc : Z.land (Z.lor (Z.land x M) (Z.lxor M (ALL_ONES V4))) Mq = blk).
  { now rewrite Z.land_lor_distr_l, Hnet, Hhost, Z.lor_0_r. }
  assert (Hexc : forall y E, Z.land y Mq = blk -> Z.land E Mq <> blk ->
                             (Z.land y 4294967295 =? E) = false).
  { intros y E Hy HE. apply Z.eqb_neq. intros Heq. apply HE.
    rewrite <- Heq, <- Z.land_assoc, Hones. exact Hy. }
  unfold is_private. cbn [net_version network_address].
  apply andb_true_iff. split.
  - apply existsb_exists. exists (Network V4 blk Mq q). split; auto.
    unfold contains, broadcast_address, hostmask.
    cbn [net_version network_address netmask].
    rewrite Hnet, Hbc, Z.eqb_refl. reflexivity.
  - rewrite private_networks_exceptions_V4.
    unfold contains, broadcast_address, hostmask.
    cbn [forallb net_version network_address netmask].
    rewrite !Hexc by assumption. reflexivity.
Qed.

Lemma rfc1918_blocks_listed :
  In (Network V4 167772160 (ip_int_from_prefix V4 8) 8) (private_networks V4) /\
  In (Network V4 2886729728 (ip_int_from_prefix V4 12) 12) (private_networks V4) /\
  In (Network V4 3232235520 (ip_int_from_prefix V4 16) 16) (private_networks V4).
Proof.
  vm_compute. repeat split; repeat (first [left; reflexivity | right]).
Qed.

(** The networks of the addresses of RFC 1918 are private, whatever
    prefix length at least that of the block they are written with. *)
Lemma rfc1918_network_is_private (a b c d p q : Z) :
  is_octet a = true -> is_octet b = true -> is_octet c = true -> is_octet d = true ->
  rfc1918_block a b = Some q ->
  q <= p <= 32 ->
  is_private (network_of a b c d p) = true.
Proof.
  intros Ha Hb Hc Hd Hblock Hp.
  pose proof (from_bytes_big_range a b c d Ha Hb Hc Hd) as Hx.
  assert (Hq : q = 8 \/ q = 12 \/ q = 16).
  { unfold rfc1918_block in Hblock.
    destruct (a =? 10); [injection Hblock; auto|].
    destruct ((a =? 172) && (16 <=? b) && (b <=? 31)); [injection Hblock; auto|].
    destruct ((a =? 192) && (b =? 168)); [injection Hblock; auto|discriminate]. }
  destruct (mask_facts q p Hq Hp) as (HM & Hhost & Hshape).
  destruct rfc1918_blocks_listed as (L8 & L12 & L16).
  assert (Hland : Z.land (from_bytes_big [a; b; c; d]) (ip_int_from_prefix V4 q)
                  = 2 ^ (32 - q) * (from_bytes_big [a; b; c; d] / 2 ^ (32 - q))).
  { rewrite Hshape. apply land_netmask; lia. }
  unfold is_octet in Ha, Hb, Hc, Hd.
  apply andb_true_iff in Ha as [Ha0 Ha1]. apply andb_true_iff in Hb as [Hb0 Hb1].
  apply andb_true_iff in Hc as [Hc0 Hc1]. apply andb_true_iff in Hd as [Hd0 Hd1].
  apply Z.leb_le in Ha0, Ha1, Hb0, Hb1, Hc0, Hc1, Hd0, Hd1.
  unfold from_bytes_big in Hland. cbn [fold_left] in Hland.
  unfold network_of, rfc1918_block in *.
  destruct (Z.eqb_spec a 10) as [->|_].
  - injection Hblock as <-.
    apply (in_block_is_private _ _ _ 167772160 _ 8 L8 HM Hhost);
      [|vm_compute; reflexivity|vm_compute; discriminate|vm_compute; discriminate].
    unfold from_bytes_big. cbn [fold_left]. rewrite Hland.
    change (2 ^ (32 - 8)) with 16777216.
    replace ((256 * (256 * (256 * (256 * 0 + 10) + b) + c) + d) / 16777216) with 10;
      [reflexivity|].
    apply Z.div_unique with (256 * (256 * b + c) + d); lia.
  - destruct ((a =? 172) && (16 <=? b) && (b <=? 31)) eqn:E172.
    + injection Hblock as <-.
      apply andb_true_iff in E172 as [E172 Hb31].
      apply andb_true_iff in E172 as [Ea Hb16].
      apply Z.eqb_eq in Ea. apply Z.leb_le in Hb16, Hb31. subst a.
      apply (in_block_is_private _ _ _ 2886729728 _ 12 L12 HM Hhost);
        [|vm_compute; reflexivity|vm_compute; discriminate|vm_compute; discriminate].
      unfold from_bytes_big. cbn [fold_left]. rewrite Hland.
      change (2 ^ (32 - 12)) with 1048576.
      replace ((256 * (256 * (256 * (256 * 0 + 172) + b) + c) + d) / 1048576) with 2753;
        [reflexivity|].
      apply Z.div_unique with (256 * (256 * (b - 16) + c) + d); lia.
    + destruct ((a =? 192) && (b =? 168)) eqn:E192; [|discriminate].
      injection Hblock as <-.
      apply andb_true_iff in E192 as [Ea Eb].
      apply Z.eqb_eq in Ea, Eb. subst a b.
      apply (in_block_is_private _ _ _ 3232235520 _ 16 L16 HM Hhost);
        [|vm_compute; reflexivity|vm_compute; discriminate|vm_compute; discriminate].
      unfold from_bytes_big. cbn [fold_left]. rewrite Hland.
      change (2 ^ (32 - 16)) with 65536.
      replace ((256 * (256 * (256 * (256 * 0 + 192) + 168) + c) + d) / 65536) with 49320;
        [reflexivity|].
      apply Z.div_unique with (256 * c + d); lia.
Qed.

End AddressFacts.

(** X3.  [is_ipv4] answers [True] for the text of every address [a.b.c.d],
    alone or followed by a prefix length from 0 to 32, and
    [ipaddress.ip_network] reads it as the IPv4 network of that prefix
    length with the host bits masked off. *)
Theorem is_ipv4_accepts_dotted_quads (a b c d : Z) (p : option Z) :
  is_octet a = true -> is_octet b = true -> is_octet c = true -> is_octet d = true ->
  0 <= prefixlen_of p <= 32 ->
  is_ipv4 (JStr (address_text a b c d p)) = Return true /\
  ipaddress.ip_network (JStr (address_text a b c d p)) false
  = Return (network_of a b c d (prefixlen_of p)).
Proof.
  intros Ha Hb Hc Hd Hp.
  pose proof (ip_network_address_text a b c d Ha Hb Hc Hd p Hp) as H.
  split; auto. unfold is_ipv4. now rewrite H.
Qed.

Lemma is_ipv4_accepts_dotted_quads_192_0_2_1 :
  is_ipv4 (JStr "192.0.2.1/24") = Return true /\
  ipaddress.ip_network (JStr "192.0.2.1/24") false
  = Return (ipaddress.Network ipaddress.V4 3221225984 4294967040 24).
Proof.
  apply (is_ipv4_accepts_dotted_quads 192 0 2 1 (Some 24)); try reflexivity.
  simpl. lia.
Defined.

(** X4.  [is_ipv4] on a value that is no text: [True] for every integer
    from 0 to 2^128 - 1 (an IPv4 address up to 2^32 - 1, an IPv6 address
    above) and for both booleans, [False] for any other integer, for
    [None], and for a float, a list or a dict. *)
Theorem is_ipv4_of_a_value_that_is_no_text (v : json) :
  is_str v = false ->
  is_ipv4 v = Return match v with
                     | JInt n => (0 <=? n) && (n <? 2 ^ 128)
                     | JBool _ => true
                     | _ => false
                     end.
Proof.
  assert (Hint : forall n, is_ipv4 (JInt n) = Return ((0 <=? n) && (n <? 2 ^ 128))).
  { intros n. unfold is_ipv4, ipaddress.ip_network, ipaddress.ip_network_arg,
      ipaddress.IPv4Network, ipaddress.IPv6Network, ipaddress.IPNetwork,
      ipaddress.split_addr_prefix, ipaddress.check_int_address, ipaddress.make_netmask.
    cbn [obind].
    change (ipaddress.ALL_ONES ipaddress.V4) with 4294967295.
    change (ipaddress.ALL_ONES ipaddress.V6) with (2 ^ 128 - 1).
    change (ipaddress.max_prefixlen ipaddress.V4) with 32.
    change (ipaddress.max_prefixlen ipaddress.V6) with 128.
    destruct (Z.ltb_spec n 0) as [Hneg|Hpos]; cbn [obind].
    - destruct (Z.leb_spec 0 n); [lia|reflexivity].
    - destruct (Z.leb_spec 0 n) as [_|]; [|lia]. cbn [andb].
      destruct (Z.ltb_spec 4294967295 n) as [Hbig|Hsmall]; cbn [obind].
      + destruct (Z.ltb_spec (2 ^ 128 - 1) n) as [Hbig6|Hsmall6]; cbn [obind].
        * destruct (Z.ltb_spec n (2 ^ 128)); [lia|reflexivity].
        * destruct (Z.ltb_spec n (2 ^ 128)); [|lia].
          change ((0 <=? 128) && (128 <=? 128)) with true. cbn [negb obind].
          break_if; reflexivity.
      + destruct (Z.ltb_spec n (2 ^ 128)); [|change (2 ^ 128) with
          340282366920938463463374607431768211456 in *; lia].
        change ((0 <=? 32) && (32 <=? 32)) with true. cbn [negb obind].
        break_if; reflexivity. }
  destruct v as [|b|n|bits|s|l|m]; intros Hs; try discriminate; try reflexivity.
  - destruct b; [apply (Hint 1)|apply (Hint 0)].
  - apply Hint.
Qed.

Lemma is_ipv4_of_the_number_5 : is_ipv4 (JInt 5) = Return true.
Proof. apply (is_ipv4_of_a_value_that_is_no_text (JInt 5)). reflexivity. Defined.

(* ================================================================== *)
(** * The interface enricher: private addresses, and a second run *)
(* ================================================================== *)

(** X10.  No address of RFC 1918 is ever reported: in the mapping
    [add_interface_info] returns, no device's ['interfaces'] holds the
    text of an address of 10.0.0.0/8, 172.16.0.0/12 or 192.168.0.0/16,
    written alone or with a prefix length at least that of its block. *)
Theorem private_addresses_are_never_recorded
  (requests_get : string -> string * string -> requests.get_result)
  (auth : string * string) (base : string) (ignore : list string)
  (devices devices' : pydict) (log : list logrec)
  (device name : string) (r ifs : pydict) (a b c d q : Z) (p : option Z) :
  wf_dict devices ->
  fst (add_interface_info requests_get devices auth base ignore log) = Return devices' ->
  dict_get device devices' = Some (JDict r) ->
  dict_get "interfaces" r = Some (JDict ifs) ->
  is_octet a = true -> is_octet b = true -> is_octet c = true -> is_octet d = true ->
  rfc1918_block a b = Some q ->
  q <= prefixlen_of p <= 32 ->
  ~ In (name, JStr (address_text a b c d p)) ifs.
Proof.
  intros Hwf Hrun Hdev Hifs Ha Hb Hc Hd Hblock Hp Hin.
  destruct (add_interface_info_invariant requests_get auth base ignore devices devices' log
              device name r ifs _ Hwf Hrun Hdev Hifs Hin) as (_ & _ & net & Hnet & Hpub).
  assert (Hq : 0 <= q).
  { unfold rfc1918_block in Hblock.
    destruct (a =? 10); [injection Hblock; lia|].
    destruct ((a =? 172) && (16 <=? b) && (b <=? 31)); [injection Hblock; lia|].
    destruct ((a =? 192) && (b =? 168)); [injection Hblock; lia|discriminate]. }
  rewrite (ip_network_address_text a b c d Ha Hb Hc Hd p) in Hnet by lia.
  injection Hnet as <-.
  rewrite (rfc1918_network_is_private a b c d _ q Ha Hb Hc Hd Hblock Hp) in Hpub.
  discriminate.
Qed.

Lemma private_addresses_are_never_recorded_in_the_scenario :
  ~ In ("ge0/1"%string, JStr "10.0.0.1") [("ge0/0"%string, JStr "8.8.8.8")].
Proof.
  apply (private_addresses_are_never_recorded
           (Scenario.controller [("1.1.1.1", Scenario.spec_interfaces)])
           Scenario.auth Scenario.base ["ge0/0.22"]
           Scenario.r1 (Scenario.r1_with [("ge0/0", JStr "8.8.8.8")]) []
           "1.1.1.1" "ge0/1"
           [("system-ip", JStr "1.1.1.1"); ("host-name", JStr "r1");
            ("interfaces", JDict [("ge0/0", JStr "8.8.8.8")])]
           [("ge0/0", JStr "8.8.8.8")] 10 0 0 1 8 None).
  - exact wf_scenario_r1.
  - vm_compute. reflexivity.
  - reflexivity.
  - reflexivity.
  - reflexivity.
  - reflexivity.
  - reflexivity.
  - reflexivity.
  - reflexivity.
  - simpl. lia.
Defined.

Section SecondRun.

Variable requests_get : string -> string * string -> requests.get_result.
Variable auth : string * string.
Variable base : string.
Variable ignore : list string.

(** Devices that already hold what the controller gives are left as
    they are by the loop. *)
Lemma ofold_enrich_fixed (ks : list string) (devices : pydict) :
  (forall d, In d ks ->
     exists r pairs,
       dict_get d devices
       = Some (JDict (dict_set "interfaces" (JDict (record_all pairs [])) r)) /\
       retained requests_get auth base ignore d = Return pairs) ->
  ofold (enrich_device requests_get auth base ignore) ks devices = Return devices.
Proof.
  induction ks as [|d ks IH]; intros H; [reflexivity|].
  cbn [ofold]. destruct (H d (or_introl eq_refl)) as (r & pairs & Hd & Hk).
  rewrite (enrich_device_eq requests_get auth base ignore d devices _ Hd), Hk.
  cbn [obind].
  assert (E : with_interfaces d (dict_set "interfaces" (JDict (record_all pairs [])) r)
                pairs devices = devices).
  { unfold with_interfaces. rewrite dict_set_set_same. now apply dict_set_get_same. }
  rewrite E. apply IH. intros d' Hd'. apply H. now right.
Qed.

End SecondRun.

(** X11.  A second run changes nothing: [add_interface_info] on the mapping it
    returned, against the same controller, returns that mapping again.
    The interfaces of a device are rebuilt from [{}] at each run, never
    added to the ones of the run before. *)
Theorem add_interface_info_twice
  (requests_get : string -> string * string -> requests.get_result)
  (auth : string * string) (base : string) (ignore : list string)
  (devices devices' : pydict) (log log' : list logrec) :
  wf_dict devices ->
  fst (add_interface_info requests_get devices auth base ignore log) = Return devices' ->
  fst (add_interface_info requests_get devices' auth base ignore log') = Return devices'.
Proof.
  intros Hwf H.
  destruct (add_interface_info_returns requests_get auth base ignore devices devices' log
              Hwf H) as (Hkeys & Hall).
  rewrite add_interface_info_computes. unfold enrich.
  apply ofold_enrich_fixed. intros d Hd.
  destruct (Hall d Hd) as (r & pairs & _ & Hp & Hd'). eauto.
Qed.

Lemma add_interface_info_twice_in_the_scenario :
  fst (add_interface_info
         (Scenario.controller [("1.1.1.1", Scenario.spec_interfaces)])
         (Scenario.r1_with [("ge0/0", JStr "8.8.8.8")])
         Scenario.auth Scenario.base ["ge0/0.22"] [])
  = Return (Scenario.r1_with [("ge0/0", JStr "8.8.8.8")]).
Proof.
  apply (add_interface_info_twice
           (Scenario.controller [("1.1.1.1", Scenario.spec_interfaces)])
           Scenario.auth Scenario.base ["ge0/0.22"] Scenario.r1 _ [] []).
  - exact wf_scenario_r1.
  - vm_compute. reflexivity.
Defined.

(* ================================================================== *)
(** * The fetcher and the formatter: what they let through *)
(* ================================================================== *)

(** X5.  [fetch_raw_json] does raise.  An exception leaves it in three
    cases only, and nothing is logged then: [requests.get] raises an
    exception that is no [RequestException], which is passed on; or the
    status is neither 4xx nor 5xx and [Response.json()] raises an
    exception that is no [RequestException] (the [ValueError] of an
    integer of more than 4300 digits, a [RecursionError]), which is
    passed on; or the status is neither 4xx nor 5xx and the body
    decodes to a value that is no object (a list, a text, a number,
    [null]), and [.get] raises [AttributeError]. *)
Theorem fetch_raw_json_raises
  (requests_get : string -> string * string -> requests.get_result)
  (url : string) (auth : string * string) (log log' : list logrec) (e : exn) :
  fetch_raw_json requests_get url auth log = (Raise e, log') <->
  log' = log /\
  ((requests_get url auth = requests.Raises e /\ is_RequestException e = false) \/
   (exists r,
      requests_get url auth = requests.Responds r /\
      (400 <=? requests.status_code r) && (requests.status_code r <? 600) = false /\
      ((requests.body r = requests.Fails e /\ is_RequestException e = false) \/
       (e = AttributeError /\
        exists v, requests.body r = requests.Json v /\ is_dict v = false)))).
Proof.
  unfold fetch_raw_json, try_except, mbind, lift, logging_error, mret,
    requests.raise_for_status, requests.json_of.
  destruct (requests_get url auth) as [e0|r]; cbn [obind].
  - destruct (is_RequestException e0) eqn:He0.
    + split; [discriminate|].
      intros (_ & [(Heq & Hne) | (r & Heq & _)]); [|discriminate].
      injection Heq as ->. congruence.
    + split.
      * intros [= -> ->]. split; auto.
      * intros (-> & [(Heq & _) | (r & Heq & _)]); [|discriminate].
        now injection Heq as ->.
  - destruct ((400 <=? requests.status_code r) && (requests.status_code r <? 600)) eqn:Hs.
    + cbn [is_RequestException]. split; [discriminate|].
      intros (_ & [(Heq & _) | (r' & Heq & Hs' & _)]); [discriminate|].
      injection Heq as <-. congruence.
    + destruct (requests.body r) as [v|e0] eqn:Hb.
      * assert (Hno : forall e1, is_dict v = true ->
                  ~ (log' = log /\
                     ((requests.Responds r = requests.Raises e1 /\
                       is_RequestException e1 = false) \/
                      (exists r', requests.Responds r = requests.Responds r' /\
                         (400 <=? requests.status_code r') &&
                         (requests.status_code r' <? 600) = false /\
                         ((requests.body r' = requests.Fails e1 /\
                           is_RequestException e1 = false) \/
                          (e1 = AttributeError /\
                           exists v', requests.body r' = requests.Json v' /\
                                      is_dict v' = false)))))).
        { intros e1 Hd (_ & [(Heq & _) | (r' & Heq & _ & [(Hb' & _) | (_ & v' & Hb' & Hd')])]);
            try discriminate; injection Heq as <-; rewrite Hb in Hb';
            [discriminate|]. injection Hb' as <-. congruence. }
        destruct v as [|b|n|bits|s|l|m]; cbn [py_get obind is_RequestException];
          try (split;
               [intros [= <- <-]; split; [reflexivity|]; right; exists r;
                split; [reflexivity|]; split; [exact Hs|]; right;
                split; [reflexivity|]; eexists; split; [exact Hb|reflexivity]
               |intros (-> & [(Heq & _) | (r' & Heq & _ & [(Hb' & _) | (-> & _)])]);
                [discriminate
                |injection Heq as <-; rewrite Hb in Hb'; discriminate
                |reflexivity]]).
        destruct (dict_get "data" m); (split; [discriminate|]);
          intros H; exfalso; exact (Hno e eq_refl H).
      * cbn [obind]. destruct (is_RequestException e0) eqn:He0.
        -- split; [discriminate|].
           intros (_ & [(Heq & _) | (r' & Heq & _ & [(Hb' & He') | (_ & v' & Hb' & _)])]);
             try discriminate; injection Heq as <-; rewrite Hb in Hb'; [|discriminate].
           injection Hb' as <-. congruence.
        -- split.
           ++ intros [= <- <-]. split; auto. right. exists r. repeat split; auto.
           ++ intros (-> & [(Heq & _) | (r' & Heq & _ & [(Hb' & _) | (_ & v' & Hb' & _)])]);
                try discriminate; injection Heq as <-; rewrite Hb in Hb'; [|discriminate].
              now injection Hb' as <-.
Qed.

Section FormatterOrder.

Variable keys : list string.

Lemma existsb_eqb_in (x : string) (l : list string) :
  existsb (String.eqb x) l = true <-> In x l.
Proof.
  rewrite existsb_exists. split.
  - intros (y & Hy & Heq). apply String.eqb_eq in Heq. now subst.
  - intros H. exists x. split; auto. apply String.eqb_refl.
Qed.

Lemma format_loop_order (items : list json) :
  forall acc devices,
  forallb is_raw_device items = true ->
  format_loop items keys acc = Return devices ->
  dict_keys devices
  = dict_keys acc ++ first_occurrences (map system_ip_of items) (dict_keys acc).
Proof.
  induction items as [|item items IH]; intros acc devices Hraw Hrun.
  - injection Hrun as <-. simpl. now rewrite app_nil_r.
  - cbn [forallb] in Hraw. apply andb_true_iff in Hraw as [Hitem Hrest].
    destruct item as [| | | | |l|m]; try discriminate.
    unfold is_raw_device in Hitem.
    destruct (dict_get "system-ip" m) as [[| | | |ip| |]|] eqn:Hip; try discriminate.
    destruct (format_step keys m ip items acc Hip) as (rec & Hstep & _).
    rewrite Hstep in Hrun. apply (IH _ _ Hrest) in Hrun. rewrite Hrun.
    assert (Hs : system_ip_of (JDict m) = ip) by (unfold system_ip_of; now rewrite Hip).
    cbn [map first_occurrences]. rewrite Hs.
    destruct (existsb (String.eqb ip) (dict_keys acc)) eqn:Hseen.
    + apply existsb_eqb_in in Hseen. now rewrite dict_keys_set_present.
    + assert (~ In ip (dict_keys acc)).
      { intros Hin. apply existsb_eqb_in in Hin. congruence. }
      rewrite dict_keys_set_absent by assumption.
      now rewrite <- app_assoc.
Qed.

End FormatterOrder.

(** X6.  The devices of the report come in the order in which their
    ['system-ip'] first appears in the list of the controller: a raw
    device that repeats a ['system-ip'] replaces the record and leaves
    it at its place. *)
Theorem format_device_data_order (raw : list json) (keys : list string) (devices : pydict) :
  forallb is_raw_device raw = true ->
  format_device_data (JList raw) keys = Return devices ->
  dict_keys devices = first_occurrences (map system_ip_of raw) [].
Proof.
  intros Hraw Hrun. unfold format_device_data in Hrun. cbn [py_iter obind] in Hrun.
  apply (format_loop_order keys raw [] devices Hraw Hrun).
Qed.

Lemma format_device_data_order_of_three :
  dict_keys [("1.1.1.1", JDict [("system-ip", JStr "1.1.1.1"); ("host-name", JStr "N/A")]);
             ("2.2.2.2", JDict [("system-ip", JStr "2.2.2.2"); ("host-name", JStr "r2")])]
  = ["1.1.1.1"; "2.2.2.2"]%string.
Proof.
  apply (format_device_data_order Scenario.raw_devices ["system-ip"; "host-name"]);
    reflexivity.
Defined.

(** After devices that carry a ['system-ip'] text, one that has no
    such key. *)
Lemma format_device_data_no_system_ip (keys : list string) (pre post : list json)
  (m : pydict) :
  forallb is_raw_device pre = true ->
  dict_get "system-ip" m = None ->
  format_device_data (JList (pre ++ JDict m :: post)) keys = Raise (KeyError "system-ip").
Proof.
  intros Hpre Hnone. unfold format_device_data. cbn [py_iter obind].
  rewrite format_loop_app.
  destruct (format_loop_total keys pre [] Hpre) as (d1 & -> & _). cbn [obind format_loop].
  cbn [py_getitem]. now rewrite Hnone.
Qed.

(** X7.  [format_device_data] stops at the first raw device it cannot key:
    after devices that carry a ['system-ip'] text, a value that is no
    object raises [TypeError], an object without ['system-ip'] raises
    [KeyError('system-ip')], and an object whose ['system-ip'] is a list
    or an object raises [TypeError].  What comes after is not looked at. *)
Theorem format_device_data_stops_at_a_bad_device
  (keys : list string) (pre post : list json) (bad : json) :
  forallb is_raw_device pre = true ->
  (is_dict bad = false ->
   format_device_data (JList (pre ++ bad :: post)) keys = Raise TypeError) /\
  (forall m, bad = JDict m -> dict_get "system-ip" m = None ->
   format_device_data (JList (pre ++ bad :: post)) keys = Raise (KeyError "system-ip")) /\
  (forall m v, bad = JDict m -> dict_get "system-ip" m = Some v ->
   (exists l, v = JList l) \/ (exists d, v = JDict d) ->
   format_device_data (JList (pre ++ bad :: post)) keys = Raise TypeError).
Proof.
  intros Hpre. split; [|split].
  - intros Hbad. unfold format_device_data. cbn [py_iter obind].
    rewrite format_loop_app.
    destruct (format_loop_total keys pre [] Hpre) as (d1 & -> & _).
    cbn [obind format_loop]. destruct bad; try discriminate; reflexivity.
  - intros m -> Hnone. now apply format_device_data_no_system_ip.
  - intros m v -> Hsome Hv. unfold format_device_data. cbn [py_iter obind].
    rewrite format_loop_app.
    destruct (format_loop_total keys pre [] Hpre) as (d1 & -> & _).
    cbn [obind format_loop py_getitem]. rewrite Hsome. cbn [obind].
    destruct (device_data_of_spec m keys []) as (rec & -> & _). cbn [obind].
    destruct Hv as [[l ->]|[d ->]]; reflexivity.
Qed.

Lemma format_device_data_stops_at_a_device_without_system_ip :
  format_device_data
    (JList [JDict [("system-ip", JStr "1.1.1.1")]; JDict [("host-name", JStr "r2")];
            JDict [("system-ip", JStr "3.3.3.3")]])
    ["system-ip"; "host-name"]
  = Raise (KeyError "system-ip").
Proof.
  apply (proj1 (proj2 (format_device_data_stops_at_a_bad_device
                         ["system-ip"; "host-name"]
                         [JDict [("system-ip", JStr "1.1.1.1")]]
                         [JDict [("system-ip", JStr "3.3.3.3")]]
                         (JDict [("host-name", JStr "r2")]) eq_refl))
           [("host-name", JStr "r2")]); reflexivity.
Defined.

(* ================================================================== *)
(** * The sheet: where the cells go *)
(* ================================================================== *)

Section SheetFacts.

Variable keys : list string.

Lemma enumerate_firsts_range {A} (l : list A) :
  forall (s n : Z), In n (map fst (enumerate l s)) -> s <= n < s + Z.of_nat (List.length l).
Proof.
  induction l as [|x l IH]; intros s n Hin; [inversion Hin|].
  cbn [enumerate map fst List.length] in *. destruct Hin as [<-|Hin]; [lia|].
  apply IH in Hin. lia.
Qed.

Lemma enumerate_firsts_nodup {A} (l : list A) :
  forall s : Z, NoDup (map fst (enumerate l s)).
Proof.
  induction l as [|x l IH]; intros s; cbn [enumerate map fst]; constructor; auto.
  intros Hin. apply enumerate_firsts_range in Hin. lia.
Qed.

Lemma nodup_in_row (n : Z) (cols : list Z) :
  NoDup cols -> NoDup (map (pair n) cols).
Proof.
  induction 1 as [|c cols Hc _ IH]; cbn [map]; constructor; auto.
  intros Hin. apply in_map_iff in Hin as (c' & [= ->] & Hin). auto.
Qed.

Lemma position_write_row (row col : Z) (data : list string) (f : xlsxwriter.format) :
  map position (xlsxwriter.write_row row col data f)
  = map (pair row) (map fst (enumerate data col)).
Proof. unfold xlsxwriter.write_row. now rewrite !map_map. Qed.

(** The cells of one device: all in its row, no column twice, none
    beyond the two interface columns. *)
Lemma position_excel_cells (row : Z) (data : json) :
  is_enriched data = true ->
  exists cols,
    map position (excel_cells_of keys row data) = map (pair row) cols /\
    NoDup cols /\
    forall c, In c cols -> 0 <= c < Z.of_nat (List.length keys) + 2.
Proof.
  intros He. destruct (is_enriched_inv data He) as (r & ifs & -> & Hifs & _).
  unfold excel_cells_of, interfaces_of. rewrite Hifs.
  exists (map fst (enumerate keys 0) ++
          match ifs with
          | [] => []
          | _ => [Z.of_nat (List.length keys); Z.of_nat (List.length keys) + 1]
          end).
  split; [|split].
  - rewrite !map_app. f_equal.
    + unfold excel_key_cells_of. now rewrite !map_map.
    + destruct ifs; reflexivity.
  - apply NoDup_app.
    + apply enumerate_firsts_nodup.
    + destruct ifs; repeat constructor; simpl; lia.
    + intros c Hc Hc'. apply enumerate_firsts_range in Hc.
      destruct ifs; simpl in Hc'; lia.
  - intros c Hc. apply in_app_or in Hc as [Hc|Hc].
    + apply enumerate_firsts_range in Hc. lia.
    + destruct ifs; simpl in Hc; lia.
Qed.

(** The rows of the devices, from the row [start] on. *)
Lemma position_excel_rows (devices : pydict) :
  forall start,
  forallb is_enriched (dict_values devices) = true ->
  let cells := flat_map (fun nd => excel_cells_of keys (fst nd) (snd (snd nd)))
                        (enumerate devices start) in
  NoDup (map position cells) /\
  forall w, In w cells ->
    start <= xlsxwriter.row w < start + Z.of_nat (List.length devices) /\
    0 <= xlsxwriter.col w < Z.of_nat (List.length keys) + 2.
Proof.
  induction devices as [|[device data] devices IH]; intros start He cells.
  - split; [constructor|intros w []].
  - cbn [dict_values map forallb snd] in He. apply andb_true_iff in He as [Hd Hrest].
    destruct (IH (start + 1) Hrest) as (Hnodup & Hbounds).
    destruct (position_excel_cells start data Hd) as (cols & Hpos & Hcols & Hrange).
    assert (Hhere : forall w, In w (excel_cells_of keys start data) ->
                      xlsxwriter.row w = start /\
                      0 <= xlsxwriter.col w < Z.of_nat (List.length keys) + 2).
    { intros w Hw. apply (in_map position) in Hw. rewrite Hpos in Hw.
      apply in_map_iff in Hw as (c & Hc & Hin). unfold position in Hc.
      injection Hc as <- <-. auto. }
    subst cells. cbn [enumerate flat_map fst snd]. split.
    + rewrite map_app. apply NoDup_app; auto.
      * rewrite Hpos. now apply nodup_in_row.
      * intros pos Hin1 Hin2.
        apply in_map_iff in Hin1 as (w1 & <- & Hw1).
        apply in_map_iff in Hin2 as (w2 & Heq & Hw2).
        apply Hhere in Hw1. apply Hbounds in Hw2. unfold position in Heq.
        injection Heq as Hrow _. lia.
    + intros w Hw. cbn [List.length]. apply in_app_or in Hw as [Hw|Hw].
      * apply Hhere in Hw. lia.
      * apply Hbounds in Hw. lia.
Qed.

End SheetFacts.

(** X13.  The layout of the sheet, when [export_to_excel] returns: every
    [worksheet.write] took its value.  No cell is written twice; the
    cells lie in the rows 0 to the number of devices and in the columns
    of the keys and the two after them; row 0 holds the headers, each
    key above its column, then ['interface-name'] and ['interface-IP']. *)
Theorem export_to_excel_layout (devices : pydict) (keys : list string)
  (cells : list xlsxwriter.write) :
  forallb is_enriched (dict_values devices) = true ->
  export_to_excel devices keys = Return cells ->
  NoDup (map position cells) /\
  (forall w, In w cells ->
     0 <= xlsxwriter.row w <= Z.of_nat (List.length devices) /\
     0 <= xlsxwriter.col w < Z.of_nat (List.length keys) + 2) /\
  (forall c key, nth_error keys c = Some key ->
     In (xlsxwriter.Write 0 (Z.of_nat c) (JStr key) xlsxwriter.header_format) cells) /\
  In (xlsxwriter.Write 0 (Z.of_nat (List.length keys)) (JStr "interface-name")
        xlsxwriter.header_format) cells /\
  In (xlsxwriter.Write 0 (Z.of_nat (List.length keys) + 1) (JStr "interface-IP")
        xlsxwriter.header_format) cells /\
  (forall w, In w cells ->
     (xlsxwriter.row w = 0 <-> xlsxwriter.cell_format w = xlsxwriter.header_format)).
Proof.
  intros He. unfold export_to_excel.
  destruct (forallb (has_cell_values keys) (dict_values devices)) eqn:Hv.
  2: { destruct (excel_rows_refused keys devices 1 He Hv) as (e & _ & ->). discriminate. }
  rewrite (excel_rows_spec keys devices 1 He Hv). cbn [obind]. intros [= <-].
  destruct (position_excel_rows keys devices 1 He) as (Hnodup & Hbounds).
  set (rows := flat_map (fun nd => excel_cells_of keys (fst nd) (snd (snd nd)))
                        (enumerate devices 1)) in *.
  set (header := xlsxwriter.write_row 0 0 keys xlsxwriter.header_format ++
                 xlsxwriter.write_row 0 (Z.of_nat (List.length keys))
                   ["interface-name"; "interface-IP"] xlsxwriter.header_format).
  assert (Hheader : forall w, In w header ->
            xlsxwriter.row w = 0 /\
            0 <= xlsxwriter.col w < Z.of_nat (List.length keys) + 2 /\
            xlsxwriter.cell_format w = xlsxwriter.header_format).
  { intros w Hw. subst header. apply in_app_or in Hw as [Hw|Hw].
    - unfold xlsxwriter.write_row in Hw. apply in_map_iff in Hw as ([c v] & <- & Hin).
      apply (in_map fst) in Hin. apply enumerate_firsts_range in Hin.
      cbn [fst snd xlsxwriter.row xlsxwriter.col xlsxwriter.cell_format] in *.
      repeat split; auto; lia.
    - simpl in Hw. destruct Hw as [<-|[<-|[]]]; simpl; repeat split; auto; lia. }
  assert (Hbase : forall w, In w rows -> xlsxwriter.cell_format w <> xlsxwriter.header_format).
  { intros w Hw. subst rows. apply in_flat_map in Hw as ([n [device data]] & Hnd & Hw).
    cbn [fst snd] in Hw.
    assert (Hdata : is_enriched data = true).
    { rewrite forallb_forall in He. apply He. apply in_enumerate in Hnd as (i & Hi & _).
      apply nth_error_In in Hi. now apply (in_map snd) in Hi. }
    destruct (is_enriched_inv data Hdata) as (r & ifs & -> & Hifs & _).
    unfold excel_cells_of, interfaces_of in Hw. rewrite Hifs in Hw.
    apply in_app_or in Hw as [Hw|Hw].
    - unfold excel_key_cells_of in Hw. apply in_map_iff in Hw as (ck & <- & _). discriminate.
    - destruct ifs; simpl in Hw; [tauto|]. destruct Hw as [<-|[<-|[]]]; discriminate. }
  split; [|split; [|split; [|split; [|split]]]].
  - rewrite map_app. apply NoDup_app; auto.
    + subst header. rewrite map_app, !position_write_row, <- map_app.
      apply nodup_in_row. apply NoDup_app.
      * apply enumerate_firsts_nodup.
      * repeat constructor; simpl; lia.
      * intros c Hc Hc'. apply enumerate_firsts_range in Hc.
        simpl in Hc'. lia.
    + intros pos Hin1 Hin2.
      apply in_map_iff in Hin1 as (w1 & <- & Hw1).
      apply in_map_iff in Hin2 as (w2 & Heq & Hw2).
      apply Hheader in Hw1. apply Hbounds in Hw2. unfold position in Heq.
      injection Heq as Hrow _. lia.
  - intros w Hw. apply in_app_or in Hw as [Hw|Hw].
    + apply Hheader in Hw. lia.
    + apply Hbounds in Hw. lia.
  - intros c key Hkey. apply in_or_app. left. subst header. apply in_or_app. left.
    unfold xlsxwriter.write_row. apply in_map_iff. exists (Z.of_nat c, key).
    split; auto. apply in_enumerate. exists c. split; [|lia]. exact Hkey.
  - apply in_or_app. left. subst header. apply in_or_app. right. simpl. auto.
  - apply in_or_app. left. subst header. apply in_or_app. right. simpl. auto.
  - intros w Hw. apply in_app_or in Hw as [Hw|Hw].
    + apply Hheader in Hw. tauto.
    + pose proof (Hbase w Hw). apply Hbounds in Hw. split; [lia|tauto].
Qed.

Lemma export_to_excel_layout_of_two_devices :
  exists cells,
    export_to_excel Scenario.enriched ["system-ip"; "host-name"] = Return cells /\
    NoDup (map position cells) /\
    In (xlsxwriter.Write 0 2 (JStr "interface-name") xlsxwriter.header_format) cells.
Proof.
  eexists. split; [reflexivity|].
  destruct (export_to_excel_layout Scenario.enriched ["system-ip"; "host-name"] _
              eq_refl eq_refl) as (Hnodup & _ & _ & Hname & _).
  split; [exact Hnodup|exact Hname].
Defined.

(* ================================================================== *)
(** * Files: what is written is what is read *)
(* ================================================================== *)

Section FileFacts.

Lemma lookup_update_same (path : string) (c : fs.content) (d : fs.files) :
  fs.lookup path (fs.update path c d) = Some c.
Proof.
  induction d as [|[p c'] d IH]; simpl.
  - now rewrite String.eqb_refl.
  - destruct (String.eqb path p) eqn:E; simpl; now rewrite E.
Qed.

Lemma lookup_update_other (path path' : string) (c : fs.content) (d : fs.files) :
  path <> path' -> fs.lookup path' (fs.update path c d) = fs.lookup path' d.
Proof.
  intros Hne. induction d as [|[p c'] d IH]; simpl.
  - destruct (String.eqb_spec path' path); congruence.
  - destruct (String.eqb_spec path p) as [->|Hp]; simpl.
    + destruct (String.eqb_spec path' p); congruence.
    + now rewrite IH.
Qed.

Lemma update_update (path : string) (c c' : fs.content) (d : fs.files) :
  fs.update path c' (fs.update path c d) = fs.update path c' d.
Proof.
  induction d as [|[p c0] d IH]; simpl.
  - now rewrite String.eqb_refl.
  - destruct (String.eqb path p) eqn:E; simpl; rewrite E; [reflexivity|now rewrite IH].
Qed.

Lemma set_log_same (w : world) : set_log (log w) w = w.
Proof. now destruct w. Qed.

Lemma universal_newlines_plain (l : list ascii) :
  forallb (fun c => negb (Ascii.eqb c (ascii_of_nat 13))) l = true ->
  fs.universal_newlines l = l.
Proof.
  induction l as [|c l IH]; intros H; [reflexivity|].
  cbn [forallb] in H. apply andb_true_iff in H as [Hc Hl].
  apply negb_true_iff in Hc. cbn [fs.universal_newlines]. rewrite Hc. now rewrite IH.
Qed.

Lemma split_lines_line (t : list ascii) :
  forall (line rest : list ascii),
  forallb (fun c => negb (Ascii.eqb c (ascii_of_nat 10))) t = true ->
  fs.split_lines (t ++ ascii_of_nat 10 :: rest) line
  = string_of_list_ascii (rev line ++ t ++ [ascii_of_nat 10]) :: fs.split_lines rest [].
Proof.
  induction t as [|c t IH]; intros line rest H.
  - cbn [app fs.split_lines]. rewrite Ascii.eqb_refl. reflexivity.
  - cbn [forallb] in H. apply andb_true_iff in H as [Hc Ht].
    apply negb_true_iff in Hc. cbn [app fs.split_lines]. rewrite Hc.
    rewrite (IH _ _ Ht). cbn [rev]. now rewrite <- app_assoc.
Qed.

Lemma string_of_list_ascii_app (l1 l2 : list ascii) :
  string_of_list_ascii (l1 ++ l2)
  = (string_of_list_ascii l1 ++ string_of_list_ascii l2)%string.
Proof. induction l1 as [|c l1 IH]; simpl; auto. now rewrite IH. Qed.

Lemma b64url_no_line_end (c : ascii) : b64url_char c = true -> no_line_end c = true.
Proof.
  intros Hc. apply (b64url_char_cases c (fun c => no_line_end c = true) Hc).
  apply Forall_forall. apply forallb_forall. vm_compute. reflexivity.
Qed.

(** The lines of a file made of lines of base64 text. *)
Lemma split_lines_texts (ts : list string) :
  Forall (fun t => forallb b64url_char (list_ascii_of_string t) = true) ts ->
  fs.split_lines
    (list_ascii_of_string (String.concat "" (map (fun t => t ++ newline)%string ts))) []
  = map (fun t => t ++ newline)%string ts.
Proof.
  induction 1 as [|t ts Ht _ IH]; [reflexivity|].
  cbn [map]. 
  assert (E : String.concat "" ((t ++ newline)%string :: map (fun t => (t ++ newline)%string) ts)
              = ((t ++ newline) ++
                 String.concat "" (map (fun t => (t ++ newline)%string) ts))%string).
  { destruct ts; cbn [map String.concat]; [now rewrite append_empty_r|reflexivity]. }
  rewrite E, !list_ascii_of_string_app. cbn [newline list_ascii_of_string].
  rewrite <- app_assoc. cbn [app].
  rewrite split_lines_line.
  - rewrite IH. cbn [rev app]. f_equal.
    rewrite string_of_list_ascii_app, string_of_list_ascii_of_string. reflexivity.
  - rewrite forallb_forall in *. intros c Hc. specialize (Ht c Hc).
    apply b64url_no_line_end in Ht. unfold no_line_end in Ht.
    apply andb_true_iff in Ht. tauto.
Qed.

Lemma is_ascii_text_app (a b : string) :
  is_ascii_text (a ++ b) = is_ascii_text a && is_ascii_text b.
Proof. unfold is_ascii_text. now rewrite list_ascii_of_string_app, forallb_app. Qed.

Lemma lines_are_plain (ts : list string) :
  Forall (fun t => forallb b64url_char (list_ascii_of_string t) = true) ts ->
  is_ascii_text (String.concat "" (map (fun t => t ++ newline)%string ts)) = true /\
  forallb (fun c => negb (Ascii.eqb c (ascii_of_nat 13)))
          (list_ascii_of_string
             (String.concat "" (map (fun t => t ++ newline)%string ts))) = true.
Proof.
  induction 1 as [|t ts Ht _ [IH1 IH2]]; [split; reflexivity|].
  cbn [map].
  assert (E : String.concat "" ((t ++ newline)%string :: map (fun t => (t ++ newline)%string) ts)
              = ((t ++ newline) ++
                 String.concat "" (map (fun t => (t ++ newline)%string) ts))%string).
  { destruct ts; cbn [map String.concat]; [now rewrite append_empty_r|reflexivity]. }
  rewrite E. split.
  - rewrite !is_ascii_text_app, IH1, (b64url_text_ascii t Ht). reflexivity.
  - rewrite !list_ascii_of_string_app, !forallb_app, IH2, andb_true_r.
    apply andb_true_iff. split; [|reflexivity].
    rewrite forallb_forall in *. intros c Hc. specialize (Ht c Hc).
    apply b64url_no_line_end in Ht. unfold no_line_end in Ht.
    apply andb_true_iff in Ht. tauto.
Qed.

(** [readlines] gives back the lines written, when they are lines of
    base64 text. *)
Lemma readlines_texts (ts : list string) :
  Forall (fun t => forallb b64url_char (list_ascii_of_string t) = true) ts ->
  fs.readlines (String.concat "" (map (fun t => t ++ newline)%string ts))
  = Return (map (fun t => t ++ newline)%string ts).
Proof.
  intros H. destruct (lines_are_plain ts H) as [Ha Hp].
  unfold fs.readlines. rewrite (decode_utf8_ascii _ Ha). cbn [obind].
  rewrite (universal_newlines_plain _ Hp). now rewrite split_lines_texts.
Qed.

End FileFacts.

(* ================================================================== *)
(** * The credentials of a run *)
(* ================================================================== *)

Section CredentialRuns.

Variable zlib_compress : string -> Z -> string.

Lemma wbind_return {A B} (m : W A) (k : A -> W B) (w w' : world) (a : A) :
  m w = (Return a, w') -> wbind m k w = k a w'.
Proof. intros H. unfold wbind. now rewrite H. Qed.

Lemma wbind_raise {A B} (m : W A) (k : A -> W B) (w w' : world) (e : exn) :
  m w = (Raise e, w') -> wbind m k w = (Raise e, w').
Proof. intros H. unfold wbind. now rewrite H. Qed.

(** A line is written for an ASCII text, and for no other. *)
Lemma encode_line_ascii (text : string) :
  is_ascii_text text = true ->
  encode_line zlib_compress text = Return (encode_pass zlib_compress text ++ newline)%string.
Proof.
  intros Ht. unfold encode_line, encode_ascii, decode_ascii.
  unfold is_ascii_text in Ht. rewrite Ht. cbn [obind].
  pose proof (b64url_text_ascii _ (urlsafe_b64encode_text (zlib_compress text 9))) as Ha.
  unfold is_ascii_text in Ha. unfold encode_pass. now rewrite Ha.
Qed.

Lemma encode_line_not_ascii (text : string) :
  is_ascii_text text = false ->
  encode_line zlib_compress text = Raise UnicodeEncodeError.
Proof.
  intros Ht. unfold encode_line, encode_ascii. unfold is_ascii_text in Ht. now rewrite Ht.
Qed.

Lemma encode_pass_text (text : string) :
  forallb b64url_char (list_ascii_of_string (encode_pass zlib_compress text)) = true.
Proof. apply urlsafe_b64encode_text. Qed.

Lemma decode_encoded_line (text : string) :
  zlib.decompress (zlib_compress text 9) = Return text ->
  is_ascii_text text = true ->
  decode_line (encode_pass zlib_compress text ++ newline) = Return text.
Proof.
  intros Hz Ht. apply (decode_line_encode_line zlib_compress text); auto.
  now apply encode_line_ascii.
Qed.

Lemma decode_line_errors (line : string) : raises_only decode_error (decode_line line).
Proof.
  unfold decode_line, decode_pass, encode_ascii, Str.decode_utf8, decode_error.
  break_if; simpl; auto.
  pose proof (urlsafe_b64decode_raises (Str.strip line)) as Hb.
  destruct (base64.urlsafe_b64decode (Str.strip line)) as [data|e|]; simpl in *;
    [|subst; auto|auto].
  pose proof (decompress_raises data) as Hz.
  destruct (zlib.decompress data) as [text|e|]; simpl in *; [|subst; auto|auto].
  break_if; simpl; auto.
Qed.

Lemma decode_error_no_IOError (e : exn) : decode_error e -> is_IOError e = false.
Proof. unfold decode_error. intros [ -> | [ -> | [ -> | -> ] ] ]; reflexivity. Qed.

(** [store_creds] on a path that can be written: the file it leaves. *)
Lemma store_creds_writes (u p file_name : string) (w : world) :
  can_write file_name w = true ->
  is_ascii_text u = true ->
  store_creds zlib_compress (u, p) file_name w
  = if is_ascii_text p
    then (Return tt,
          set_disk (fs.update file_name
                      (fs.Text ((encode_pass zlib_compress u ++ newline)
                                ++ (encode_pass zlib_compress p ++ newline)))
                      (disk w)) w)
    else (Raise UnicodeEncodeError,
          set_disk (fs.update file_name
                      (fs.Text (encode_pass zlib_compress u ++ newline)) (disk w)) w).
Proof.
  intros Hw Hu. unfold can_write in Hw. apply andb_true_iff in Hw as [Hd Hj].
  apply negb_true_iff in Hd.
  unfold store_creds, wtry, wbind, open_w, wlift, write_text. rewrite Hd.
  assert (Hopen :
    match fs.lookup file_name (disk w) with
    | Some fs.Journal => (@OutOfModel unit, w)
    | _ => (Return tt, set_disk (fs.update file_name (fs.Text "") (disk w)) w)
    end = (Return tt, set_disk (fs.update file_name (fs.Text "") (disk w)) w)).
  { destruct (fs.lookup file_name (disk w)) as [[]|]; auto; discriminate. }
  rewrite Hopen. rewrite (encode_line_ascii u Hu).
  cbn [disk set_disk]. rewrite lookup_update_same, update_update.
  cbn [disk set_disk log denied logger_level handlers].
  destruct (is_ascii_text p) eqn:Hp.
  - rewrite (encode_line_ascii p Hp). rewrite lookup_update_same, update_update.
    reflexivity.
  - rewrite (encode_line_not_ascii p Hp). reflexivity.
Qed.

Lemma store_creds_bad_user_name (u p file_name : string) (w : world) :
  can_write file_name w = true ->
  is_ascii_text u = false ->
  store_creds zlib_compress (u, p) file_name w
  = (Raise UnicodeEncodeError, set_disk (fs.update file_name (fs.Text "") (disk w)) w).
Proof.
  intros Hw Hu. unfold can_write in Hw. apply andb_true_iff in Hw as [Hd Hj].
  apply negb_true_iff in Hd.
  unfold store_creds, wtry, wbind, open_w, wlift, write_text. rewrite Hd.
  rewrite (encode_line_not_ascii u Hu).
  destruct (fs.lookup file_name (disk w)) as [[]|]; auto; discriminate.
Qed.

Lemma store_creds_denied (typed : string * string) (file_name : string) (w : world) :
  is_denied file_name w = true ->
  store_creds zlib_compress typed file_name w
  = (Return tt, set_log (log w ++ [write_error OSError]) w).
Proof.
  intros Hd. destruct typed as [u p].
  unfold store_creds, wtry, wbind, open_w. rewrite Hd. reflexivity.
Qed.

(** [get_creds] on a file of lines. *)
Lemma get_creds_in_lines (file_name data : string) (lines : list string) (w : world) :
  is_denied file_name w = false ->
  fs.lookup file_name (disk w) = Some (fs.Text data) ->
  fs.readlines data = Return lines ->
  get_creds_in file_name w
  = (match
       (username <- (line <- list_getitem lines 0 ;; decode_line line) ;;
        password <- (line <- list_getitem lines 1 ;; decode_line line) ;;
        Return (username, password))
     with
     | Raise e => if is_IOError e then Return (""%string, ""%string) else Raise e
     | other => other
     end,
     match
       (username <- (line <- list_getitem lines 0 ;; decode_line line) ;;
        password <- (line <- list_getitem lines 1 ;; decode_line line) ;;
        Return (username, password))
     with
     | Raise e => if is_IOError e then set_log (log w ++ [read_error e]) w else w
     | _ => w
     end).
Proof.
  intros Hd Hl Hr. unfold get_creds_in, get_creds, try_except, mbind, lift, mret,
    logging_error, read_lines_in.
  rewrite Hd, Hl, Hr.
  destruct (line <- list_getitem lines 0 ;; decode_line line) as [u|e|]; cbn [obind].
  - destruct (line <- list_getitem lines 1 ;; decode_line line) as [p|e|]; cbn [obind].
    + now rewrite set_log_same.
    + destruct (is_IOError e); [reflexivity|now rewrite set_log_same].
    + now rewrite set_log_same.
  - destruct (is_IOError e); [reflexivity|now rewrite set_log_same].
  - now rewrite set_log_same.
Qed.

Lemma get_creds_in_denied (file_name : string) (w : world) :
  is_denied file_name w = true ->
  get_creds_in file_name w
  = (Return (""%string, ""%string), set_log (log w ++ [read_error OSError]) w).
Proof.
  intros Hd. unfold get_creds_in, get_creds, try_except, mbind, lift, mret,
    logging_error, read_lines_in.
  rewrite Hd. reflexivity.
Qed.

(** The file [store_creds] wrote is read back as what was typed. *)
Lemma get_creds_in_stored (u p file_name : string) (w : world) :
  is_denied file_name w = false ->
  fs.lookup file_name (disk w)
  = Some (fs.Text ((encode_pass zlib_compress u ++ newline)
                   ++ (encode_pass zlib_compress p ++ newline))) ->
  is_ascii_text u = true -> is_ascii_text p = true ->
  zlib.decompress (zlib_compress u 9) = Return u ->
  zlib.decompress (zlib_compress p 9) = Return p ->
  get_creds_in file_name w = (Return (u, p), w).
Proof.
  intros Hd Hl Hu Hp Hzu Hzp.
  assert (Hr : fs.readlines ((encode_pass zlib_compress u ++ newline)
                             ++ (encode_pass zlib_compress p ++ newline))
               = Return [(encode_pass zlib_compress u ++ newline)%string;
                         (encode_pass zlib_compress p ++ newline)%string]).
  { apply (readlines_texts [encode_pass zlib_compress u; encode_pass zlib_compress p]).
    repeat constructor; apply encode_pass_text. }
  rewrite (get_creds_in_lines _ _ _ _ Hd Hl Hr).
  cbn [list_getitem nth_error obind].
  rewrite (decode_encoded_line u Hzu Hu), (decode_encoded_line p Hzp Hp). reflexivity.
Qed.

(** A file with fewer than two lines of base64 text: [IndexError], if
    its one line decodes. *)
Lemma get_creds_in_short (lines : list string) (data file_name : string) (w : world) :
  is_denied file_name w = false ->
  fs.lookup file_name (disk w) = Some (fs.Text data) ->
  fs.readlines data = Return lines ->
  lines = [] \/ (exists l u, lines = [l] /\ decode_line l = Return u) ->
  get_creds_in file_name w = (Raise IndexError, w).
Proof.
  intros Hd Hl Hr Hshort. rewrite (get_creds_in_lines _ _ _ _ Hd Hl Hr).
  destruct Hshort as [->|(l & u & -> & Hu)]; cbn [list_getitem nth_error obind].
  - reflexivity.
  - rewrite Hu. reflexivity.
Qed.

End CredentialRuns.

(** X14.  What [get_creds] lets out.  An exception leaves it with nothing
    logged, and is no [IOError]: it is the exception of the read when
    that is none, [IndexError] for a file of fewer than two lines, or
    what a line that does not decode raises ([UnicodeEncodeError],
    [binascii.Error], [zlib.error], [UnicodeDecodeError]). *)
Theorem get_creds_raises (readlines : string -> outcome (list string))
  (file_name : string) (log log' : list logrec) (e : exn) :
  get_creds readlines file_name log = (Raise e, log') ->
  log' = log /\
  is_IOError e = false /\
  (readlines file_name = Raise e \/ e = IndexError \/ decode_error e).
Proof.
  assert (Hline : forall (lines : list string) i,
            raises_only (fun e => e = IndexError \/ decode_error e)
                        (line <- list_getitem lines i ;; decode_line line)).
  { intros lines i. unfold list_getitem. destruct (nth_error lines i); cbn [obind].
    - apply (raises_only_weaken decode_error); auto. apply decode_line_errors.
    - simpl. auto. }
  assert (Hno : forall e, e = IndexError \/ decode_error e -> is_IOError e = false).
  { intros e0 [->|He0]; [reflexivity|now apply decode_error_no_IOError]. }
  unfold get_creds, try_except, mbind, lift, mret, logging_error.
  destruct (readlines file_name) as [lines|e0|].
  - pose proof (Hline lines 0%nat) as H0. pose proof (Hline lines 1%nat) as H1.
    destruct (line <- list_getitem lines 0 ;; decode_line line) as [u|e0|]; cbn [obind].
    + destruct (line <- list_getitem lines 1 ;; decode_line line) as [p|e1|]; cbn [obind].
      * discriminate.
      * simpl in H1. rewrite (Hno e1 H1). intros [= <- <-]. rewrite (Hno e1 H1). tauto.
      * discriminate.
    + simpl in H0. rewrite (Hno e0 H0). intros [= <- <-]. rewrite (Hno e0 H0). tauto.
    + discriminate.
  - destruct (is_IOError e0) eqn:He0; [discriminate|]. intros [= <- <-]. auto.
  - discriminate.
Qed.

Lemma get_creds_raises_on_an_empty_file :
  @nil logrec = [] /\
  is_IOError IndexError = false /\
  (Scenario.holding [] "vManageCreds.txt" = Raise IndexError
   \/ IndexError = IndexError \/ decode_error IndexError).
Proof.
  apply (get_creds_raises (Scenario.holding []) "vManageCreds.txt" [] [] IndexError).
  reflexivity.
Defined.

(** X15.  What [store_creds] writes, [get_creds] reads back.  For an ASCII
    user name and password that [zlib] gives back, and a file that can
    be written, [store_creds] leaves a file of two lines and logs
    nothing, and [get_creds] on that file returns the pair that was
    typed. *)
Theorem get_creds_after_store_creds
  (zlib_compress : string -> Z -> string) (u p file_name : string) (w : world) :
  can_write file_name w = true ->
  is_ascii_text u = true ->
  is_ascii_text p = true ->
  zlib.decompress (zlib_compress u 9) = Return u ->
  zlib.decompress (zlib_compress p 9) = Return p ->
  (store_creds zlib_compress (u, p) file_name ~~; get_creds_in file_name) w
  = (Return (u, p),
     set_disk (fs.update file_name
                 (fs.Text ((encode_pass zlib_compress u ++ newline)
                           ++ (encode_pass zlib_compress p ++ newline)))
                 (disk w)) w).
Proof.
  intros Hw Hu Hp Hzu Hzp. unfold wbind.
  rewrite (store_creds_writes zlib_compress u p file_name w Hw Hu), Hp.
  apply (get_creds_in_stored zlib_compress u p); auto.
  - unfold can_write in Hw. apply andb_true_iff in Hw as [Hd _].
    now apply negb_true_iff in Hd.
  - cbn [disk set_disk]. apply lookup_update_same.
Qed.

Lemma get_creds_after_store_creds_of_admin :
  (store_creds Scenario.zlib_compress ("admin", "secret") "vManageCreds.txt"
     ~~; get_creds_in "vManageCreds.txt") Run.fresh
  = (Return ("admin", "secret"),
     set_disk (fs.update "vManageCreds.txt"
                 (fs.Text ((encode_pass Scenario.zlib_compress "admin" ++ newline)
                           ++ (encode_pass Scenario.zlib_compress "secret" ++ newline)))
                 (disk Run.fresh)) Run.fresh).
Proof.
  apply (get_creds_after_store_creds Scenario.zlib_compress "admin" "secret"
           "vManageCreds.txt" Run.fresh); vm_compute; reflexivity.
Defined.

(* ================================================================== *)
(** * [main]: the credentials it runs with *)
(* ================================================================== *)

Section MainCredentials.

Variable requests_get : string -> string * string -> requests.get_result.
Variable zlib_compress : string -> Z -> string.

Lemma setup_logging_opens (log_file : string) (w : world) :
  is_denied log_file w = false ->
  setup_logging log_file w = (Return tt, logging_to log_file w).
Proof.
  intros Hd. unfold setup_logging, logging_to, is_denied in *. cbn [denied]. now rewrite Hd.
Qed.

Lemma main_after_setup (args : Namespace) (typed : string * string) (w : world) :
  is_denied (log_file args) w = false ->
  main_body requests_get zlib_compress args typed w
  = wbind (get_credentials zlib_compress args typed)
          (make_report requests_get args main_keys) (logging_to (log_file args) w).
Proof.
  intros Hd. unfold main_body. now rewrite (wbind_return _ _ _ _ _ (setup_logging_opens _ _ Hd)).
Qed.

Lemma lookup_logging_to (log_file path : string) (w : world) :
  path <> log_file ->
  fs.lookup path (disk (logging_to log_file w)) = fs.lookup path (disk w).
Proof.
  intros Hne. unfold logging_to. cbn [disk]. apply lookup_update_other. congruence.
Qed.

Lemma is_denied_logging_to (log_file path : string) (w : world) :
  is_denied path (logging_to log_file w) = is_denied path w.
Proof. reflexivity. Qed.

End MainCredentials.

(** The body of [main] on a first run, when the password file is not
    there and can be written. *)
Lemma body_first_run
  (requests_get : string -> string * string -> requests.get_result)
  (zlib_compress : string -> Z -> string)
  (args : Namespace) (u p : string) (w : world) :
  is_denied (log_file args) w = false ->
  password_file args <> log_file args ->
  fs.lookup (password_file args) (disk w) = None ->
  is_denied (password_file args) w = false ->
  is_ascii_text u = true ->
  is_ascii_text p = true ->
  zlib.decompress (zlib_compress u 9) = Return u ->
  zlib.decompress (zlib_compress p 9) = Return p ->
  main_body requests_get zlib_compress args (u, p) w
  = make_report requests_get args main_keys (u, p)
      (set_disk (fs.update (password_file args)
                   (fs.Text ((encode_pass zlib_compress u ++ newline)
                             ++ (encode_pass zlib_compress p ++ newline)))
                   (disk (logging_to (log_file args) w)))
                (logging_to (log_file args) w)).
Proof.
  intros Hlog Hne Habsent Hd Hu Hp Hzu Hzp.
  rewrite (main_after_setup _ _ _ _ _ Hlog).
  set (w1 := logging_to (log_file args) w).
  assert (Habsent1 : fs.lookup (password_file args) (disk w1) = None).
  { subst w1. now rewrite lookup_logging_to. }
  assert (Hwrite : can_write (password_file args) w1 = true).
  { unfold can_write. rewrite Habsent1. subst w1. rewrite is_denied_logging_to, Hd.
    reflexivity. }
  unfold get_credentials, os_path_exists, wbind at 1 2. rewrite Habsent1.
  unfold wbind at 1.
  rewrite (store_creds_writes zlib_compress u p _ w1 Hwrite Hu), Hp.
  rewrite (get_creds_in_stored zlib_compress u p); auto.
  cbn [disk set_disk]. apply lookup_update_same.
Qed.

(** The body of [main] when the password file cannot be opened. *)
Lemma body_goes_on_without_credentials
  (requests_get : string -> string * string -> requests.get_result)
  (zlib_compress : string -> Z -> string)
  (args : Namespace) (typed : string * string) (w : world) :
  is_denied (log_file args) w = false ->
  is_denied (password_file args) w = true ->
  main_body requests_get zlib_compress args typed w
  = make_report requests_get args main_keys (""%string, ""%string)
      (set_log
         (log w ++
          match fs.lookup (password_file args) (disk w) with
          | Some _ => [read_error OSError]
          | None => [write_error OSError; read_error OSError]
          end)
         (logging_to (log_file args) w)).
Proof.
  intros Hlog Hd.
  assert (Hne : password_file args <> log_file args) by congruence.
  rewrite (main_after_setup _ _ _ _ _ Hlog).
  set (w1 := logging_to (log_file args) w).
  assert (Hd1 : is_denied (password_file args) w1 = true) by exact Hd.
  unfold get_credentials, os_path_exists, wbind at 1 2.
  assert (Hl : fs.lookup (password_file args) (disk w1)
               = fs.lookup (password_file args) (disk w)).
  { subst w1. now rewrite lookup_logging_to. }
  rewrite Hl. destruct (fs.lookup (password_file args) (disk w)) as [c|].
  - rewrite (get_creds_in_denied _ _ Hd1). reflexivity.
  - unfold wbind at 1. rewrite (store_creds_denied zlib_compress typed _ _ Hd1).
    rewrite get_creds_in_denied by exact Hd1.
    cbn [log set_log]. unfold set_log. cbn [log disk denied logger_level handlers].
    now rewrite <- app_assoc.
Qed.

(** The body of [main] for a user name or a password that is not ASCII. *)
Lemma body_breaks_on_a_password_that_is_not_ascii
  (requests_get : string -> string * string -> requests.get_result)
  (zlib_compress : string -> Z -> string)
  (args : Namespace) (u p : string) (w : world) :
  is_denied (log_file args) w = false ->
  password_file args <> log_file args ->
  fs.lookup (password_file args) (disk w) = None ->
  is_denied (password_file args) w = false ->
  is_ascii_text u = false \/
  (is_ascii_text u = true /\ zlib.decompress (zlib_compress u 9) = Return u /\
   is_ascii_text p = false) ->
  exists w',
    main_body requests_get zlib_compress args (u, p) w = (Raise UnicodeEncodeError, w') /\
    log w' = log w /\
    forall typed w2,
      disk w2 = disk w' ->
      is_denied (log_file args) w2 = false ->
      is_denied (password_file args) w2 = false ->
      main_body requests_get zlib_compress args typed w2
      = (Raise IndexError, logging_to (log_file args) w2).
Proof.
  intros Hlog Hne Habsent Hd Hbad.
  rewrite (main_after_setup _ _ _ _ _ Hlog).
  set (w1 := logging_to (log_file args) w).
  assert (Habsent1 : fs.lookup (password_file args) (disk w1) = None).
  { subst w1. now rewrite lookup_logging_to. }
  assert (Hwrite : can_write (password_file args) w1 = true).
  { unfold can_write. rewrite Habsent1. subst w1. rewrite is_denied_logging_to, Hd.
    reflexivity. }
  assert (Hlater : forall data lines,
            fs.readlines data = Return lines ->
            (lines = [] \/ exists l u', lines = [l] /\ decode_line l = Return u') ->
            forall typed w2,
              disk w2 = fs.update (password_file args) (fs.Text data) (disk w1) ->
              is_denied (log_file args) w2 = false ->
              is_denied (password_file args) w2 = false ->
              main_body requests_get zlib_compress args typed w2
              = (Raise IndexError, logging_to (log_file args) w2)).
  { intros data lines Hr Hshort typed w2 Hdisk Hlog2 Hd2.
    rewrite (main_after_setup _ _ _ _ _ Hlog2).
    assert (Hfile : fs.lookup (password_file args) (disk (logging_to (log_file args) w2))
                    = Some (fs.Text data)).
    { rewrite lookup_logging_to by assumption. rewrite Hdisk. apply lookup_update_same. }
    unfold get_credentials, os_path_exists, wbind at 1 2. rewrite Hfile.
    unfold wbind.
    rewrite (get_creds_in_short lines data (password_file args)
               (logging_to (log_file args) w2) Hd2 Hfile Hr Hshort).
    reflexivity. }
  unfold get_credentials, os_path_exists, wbind at 1 2. rewrite Habsent1.
  unfold wbind.
  destruct Hbad as [Hu|(Hu & Hzu & Hp)].
  - rewrite (store_creds_bad_user_name zlib_compress u p _ w1 Hwrite Hu).
    eexists. split; [reflexivity|]. split; [reflexivity|].
    cbn [disk set_disk]. apply (Hlater ""%string []); auto.
  - rewrite (store_creds_writes zlib_compress u p _ w1 Hwrite Hu), Hp.
    eexists. split; [reflexivity|]. split; [reflexivity|].
    cbn [disk set_disk].
    apply (Hlater _ [(encode_pass zlib_compress u ++ newline)%string]).
    + apply (readlines_texts [encode_pass zlib_compress u]).
      repeat constructor. apply encode_pass_text.
    + right. eexists. exists u. split; [reflexivity|].
      now apply decode_encoded_line.
Qed.

(** The body of [main] when the log file cannot be opened. *)
Lemma body_needs_its_log_file
  (requests_get : string -> string * string -> requests.get_result)
  (zlib_compress : string -> Z -> string)
  (args : Namespace) (typed : string * string) (w : world) :
  is_denied (log_file args) w = true ->
  exists w',
    main_body requests_get zlib_compress args typed w = (Raise OSError, w') /\
    log w' = log w /\ disk w' = disk w /\ handlers w' = handlers w.
Proof.
  intros Hd. unfold main_body, wbind, setup_logging, is_denied in *. cbn [denied].
  rewrite Hd. eexists. split; [reflexivity|]. now cbn.
Qed.

(** The body of [main] when the password file holds two lines that
    decode. *)
Lemma body_reads_the_password_file
  (requests_get : string -> string * string -> requests.get_result)
  (zlib_compress : string -> Z -> string)
  (args : Namespace) (typed : string * string) (w : world)
  (data : string) (lines : list string) (l0 l1 u p : string) :
  is_denied (log_file args) w = false ->
  password_file args <> log_file args ->
  is_denied (password_file args) w = false ->
  fs.lookup (password_file args) (disk w) = Some (fs.Text data) ->
  fs.readlines data = Return lines ->
  nth_error lines 0 = Some l0 ->
  nth_error lines 1 = Some l1 ->
  decode_line l0 = Return u ->
  decode_line l1 = Return p ->
  main_body requests_get zlib_compress args typed w
  = make_report requests_get args main_keys (u, p) (logging_to (log_file args) w).
Proof.
  intros Hlog Hne Hd Hfile Hr H0 H1 Hu Hp.
  rewrite (main_after_setup _ _ _ _ _ Hlog).
  assert (Hfile1 : fs.lookup (password_file args) (disk (logging_to (log_file args) w))
                   = Some (fs.Text data)).
  { now rewrite lookup_logging_to. }
  unfold get_credentials, os_path_exists, wbind at 1 2. rewrite Hfile1.
  unfold wbind.
  rewrite (get_creds_in_lines (password_file args) data lines
             (logging_to (log_file args) w) Hd Hfile1 Hr).
  unfold list_getitem. rewrite H0, H1. cbn [obind]. rewrite Hu, Hp. reflexivity.
Qed.


(** Once the arguments are parsed, [main] ends as its body does. *)
Lemma main_parsed
  (requests_get : string -> string * string -> requests.get_result)
  (zlib_compress : string -> Z -> string)
  (argv : list string) (args : Namespace) (typed : string * string) (w : world) :
  parse_arguments argv = argparse.Parsed args ->
  main requests_get zlib_compress argv typed w
  = ended (main_body requests_get zlib_compress args typed w).
Proof.
  intros H. unfold main, ended. rewrite H.
  now destruct (main_body requests_get zlib_compress args typed w).
Qed.

(** [main] with a password file that holds the credentials: the report
    is made with them. *)
Lemma main_with_password_file
  (requests_get : string -> string * string -> requests.get_result)
  (zlib_compress : string -> Z -> string)
  (argv : list string) (args : Namespace) (typed auth : string * string) (w : world) :
  parse_arguments argv = argparse.Parsed args ->
  is_denied (log_file args) w = false ->
  password_file args <> log_file args ->
  password_file_holds (password_file args) auth w ->
  main requests_get zlib_compress argv typed w
  = ended (make_report requests_get args main_keys auth (logging_to (log_file args) w)).
Proof.
  intros Hargs Hlog Hne (Hd & data & lines & l0 & l1 & Hfile & Hr & H0 & H1 & Hu & Hp).
  rewrite (main_parsed _ _ _ _ _ _ Hargs). f_equal. destruct auth as [u p].
  now apply (body_reads_the_password_file requests_get zlib_compress args typed w
               data lines l0 l1).
Qed.


(** X18.  A first run.  The password file is not there: [store_creds] writes
    the two lines for the user name and the password typed, [get_creds]
    reads them back, and the requests of the run are made with what was
    typed.  It takes ASCII texts that [zlib] gives back, a password file
    that can be written, and a log file that can be opened. *)
Theorem main_first_run
  (requests_get : string -> string * string -> requests.get_result)
  (zlib_compress : string -> Z -> string)
  (argv : list string) (args : Namespace) (u p : string) (w : world) :
  parse_arguments argv = argparse.Parsed args ->
  is_denied (log_file args) w = false ->
  password_file args <> log_file args ->
  fs.lookup (password_file args) (disk w) = None ->
  is_denied (password_file args) w = false ->
  is_ascii_text u = true ->
  is_ascii_text p = true ->
  zlib.decompress (zlib_compress u 9) = Return u ->
  zlib.decompress (zlib_compress p 9) = Return p ->
  main requests_get zlib_compress argv (u, p) w
  = ended
      (make_report requests_get args main_keys (u, p)
         (set_disk (fs.update (password_file args)
                      (fs.Text ((encode_pass zlib_compress u ++ newline)
                                ++ (encode_pass zlib_compress p ++ newline)))
                      (disk (logging_to (log_file args) w)))
                   (logging_to (log_file args) w))).
Proof.
  intros Hargs Hlog Hne Habsent Hd Hu Hp Hzu Hzp.
  rewrite (main_parsed _ _ _ _ _ _ Hargs). f_equal.
  now apply body_first_run.
Qed.

Lemma main_first_run_as_admin :
  main Run.controller Scenario.zlib_compress ["-a"; "vmanage"] ("admin", "secret") Run.fresh
  = ended
      (make_report Run.controller Run.args main_keys ("admin", "secret")
         (set_disk (fs.update (password_file Run.args)
                      (fs.Text ((encode_pass Scenario.zlib_compress "admin" ++ newline)
                                ++ (encode_pass Scenario.zlib_compress "secret" ++ newline)))
                      (disk (logging_to (log_file Run.args) Run.fresh)))
                   (logging_to (log_file Run.args) Run.fresh))).
Proof.
  apply (main_first_run Run.controller Scenario.zlib_compress ["-a"; "vmanage"]%string
           Run.args "admin" "secret" Run.fresh);
    try (vm_compute; reflexivity).
  discriminate.
Defined.



(** X20.  A run that cannot open the password file goes on without
    credentials: [store_creds], when the file is not there, and
    [get_creds] each log the error, and the requests are made with the
    empty user name and the empty password. *)
Theorem main_goes_on_without_credentials
  (requests_get : string -> string * string -> requests.get_result)
  (zlib_compress : string -> Z -> string)
  (argv : list string) (args : Namespace) (typed : string * string) (w : world) :
  parse_arguments argv = argparse.Parsed args ->
  is_denied (log_file args) w = false ->
  is_denied (password_file args) w = true ->
  main requests_get zlib_compress argv typed w
  = ended
      (make_report requests_get args main_keys (""%string, ""%string)
         (set_log
            (log w ++
             match fs.lookup (password_file args) (disk w) with
             | Some _ => [read_error OSError]
             | None => [write_error OSError; read_error OSError]
             end)
            (logging_to (log_file args) w))).
Proof.
  intros Hargs Hlog Hd.
  rewrite (main_parsed _ _ _ _ _ _ Hargs). f_equal.
  now apply body_goes_on_without_credentials.
Qed.

Lemma main_goes_on_without_credentials_when_locked :
  main Run.controller Scenario.zlib_compress ["-a"; "vmanage"] ("admin", "secret") Run.locked
  = ended
      (make_report Run.controller Run.args main_keys (""%string, ""%string)
         (set_log
            (log Run.locked ++
             match fs.lookup (password_file Run.args) (disk Run.locked) with
             | Some _ => [read_error OSError]
             | None => [write_error OSError; read_error OSError]
             end)
            (logging_to (log_file Run.args) Run.locked))).
Proof.
  apply (main_goes_on_without_credentials Run.controller Scenario.zlib_compress
           ["-a"; "vmanage"]%string Run.args ("admin", "secret") Run.locked);
    vm_compute; reflexivity.
Defined.

(** X21.  A user name or a password that is not ASCII breaks the password
    file.  The first run stops with [UnicodeEncodeError] in
    [store_creds], after the file was opened: it is left empty, or with
    the line of the user name alone.  Every later run finds the file,
    reads fewer than two lines, and stops with [IndexError], whatever
    is typed. *)
Theorem main_breaks_on_a_password_that_is_not_ascii
  (requests_get : string -> string * string -> requests.get_result)
  (zlib_compress : string -> Z -> string)
  (argv : list string) (args : Namespace) (u p : string) (w : world) :
  parse_arguments argv = argparse.Parsed args ->
  is_denied (log_file args) w = false ->
  password_file args <> log_file args ->
  fs.lookup (password_file args) (disk w) = None ->
  is_denied (password_file args) w = false ->
  is_ascii_text u = false \/
  (is_ascii_text u = true /\ zlib.decompress (zlib_compress u 9) = Return u /\
   is_ascii_text p = false) ->
  exists w',
    main requests_get zlib_compress argv (u, p) w
    = (Finished (Raise UnicodeEncodeError), w') /\
    log w' = log w /\
    forall typed w2,
      disk w2 = disk w' ->
      is_denied (log_file args) w2 = false ->
      is_denied (password_file args) w2 = false ->
      main requests_get zlib_compress argv typed w2
      = (Finished (Raise IndexError), logging_to (log_file args) w2).
Proof.
  intros Hargs Hlog Hne Habsent Hd Hbad.
  destruct (body_breaks_on_a_password_that_is_not_ascii requests_get zlib_compress
              args u p w Hlog Hne Habsent Hd Hbad) as (w' & Hfirst & Hsame & Hlater).
  exists w'. split; [|split; [exact Hsame|]].
  - rewrite (main_parsed _ _ _ _ _ _ Hargs), Hfirst. reflexivity.
  - intros typed w2 Hdisk Hlog2 Hd2.
    rewrite (main_parsed _ _ _ _ _ _ Hargs), (Hlater typed w2 Hdisk Hlog2 Hd2).
    reflexivity.
Qed.

Lemma main_breaks_on_a_password_with_an_accent :
  exists w',
    main Run.controller Scenario.zlib_compress ["-a"; "vmanage"]
      ("admin", Str.of_codes [115; 195; 169; 115; 97; 109; 101]) Run.fresh
    = (Finished (Raise UnicodeEncodeError), w') /\
    log w' = log Run.fresh /\
    forall typed w2,
      disk w2 = disk w' ->
      is_denied (log_file Run.args) w2 = false ->
      is_denied (password_file Run.args) w2 = false ->
      main Run.controller Scenario.zlib_compress ["-a"; "vmanage"] typed w2
      = (Finished (Raise IndexError), logging_to (log_file Run.args) w2).
Proof.
  apply (main_breaks_on_a_password_that_is_not_ascii Run.controller Scenario.zlib_compress
           ["-a"; "vmanage"]%string Run.args
           "admin" (Str.of_codes [115; 195; 169; 115; 97; 109; 101]) Run.fresh);
    try (vm_compute; reflexivity).
  - discriminate.
  - right. repeat split; vm_compute; reflexivity.
Defined.

(** X17.  [main] stops at once with [OSError], before anything is read,
    asked or written, when the log file cannot be opened. *)
Theorem main_needs_its_log_file
  (requests_get : string -> string * string -> requests.get_result)
  (zlib_compress : string -> Z -> string)
  (argv : list string) (args : Namespace) (typed : string * string) (w : world) :
  parse_arguments argv = argparse.Parsed args ->
  is_denied (log_file args) w = true ->
  exists w',
    main requests_get zlib_compress argv typed w = (Finished (Raise OSError), w') /\
    log w' = log w /\ disk w' = disk w /\ handlers w' = handlers w.
Proof.
  intros Hargs Hd.
  destruct (body_needs_its_log_file requests_get zlib_compress args typed w Hd)
    as (w' & Hrun & Hsame).
  exists w'. split; [|exact Hsame].
  rewrite (main_parsed _ _ _ _ _ _ Hargs), Hrun. reflexivity.
Qed.

Lemma main_needs_its_log_file_when_denied :
  exists w',
    main Run.controller Scenario.zlib_compress ["-a"; "vmanage"] ("admin", "secret") Run.no_log
    = (Finished (Raise OSError), w') /\
    log w' = log Run.no_log /\ disk w' = disk Run.no_log /\
    handlers w' = handlers Run.no_log.
Proof.
  apply (main_needs_its_log_file Run.controller Scenario.zlib_compress
           ["-a"; "vmanage"]%string Run.args ("admin", "secret") Run.no_log);
    vm_compute; reflexivity.
Defined.

(** X19.  A run with its password file.  When the file is there and its first
    two lines decode, nothing is asked and nothing is written to it:
    the requests of the run are made with the pair it holds, whatever
    would be typed. *)
Theorem main_reads_the_password_file
  (requests_get : string -> string * string -> requests.get_result)
  (zlib_compress : string -> Z -> string)
  (argv : list string) (args : Namespace) (typed auth : string * string) (w : world) :
  parse_arguments argv = argparse.Parsed args ->
  is_denied (log_file args) w = false ->
  password_file args <> log_file args ->
  password_file_holds (password_file args) auth w ->
  main requests_get zlib_compress argv typed w
  = ended (make_report requests_get args main_keys auth (logging_to (log_file args) w)).
Proof. apply main_with_password_file. Qed.

Lemma main_reads_the_password_file_of_admin :
  main Run.controller Scenario.zlib_compress ["-a"; "vmanage"] ("root", "other") Run.later
  = ended
      (make_report Run.controller Run.args main_keys ("admin", "secret")
         (logging_to (log_file Run.args) Run.later)).
Proof.
  apply (main_reads_the_password_file Run.controller Scenario.zlib_compress
           ["-a"; "vmanage"]%string Run.args ("root", "other") ("admin", "secret") Run.later).
  - vm_compute. reflexivity.
  - reflexivity.
  - discriminate.
  - split; [reflexivity|].
    exists (("eNpLTMnNzAMABgECCg==" ++ newline) ++ ("eNorTk0uSi0BAAjRAoc=" ++ newline))%string,
      [("eNpLTMnNzAMABgECCg==" ++ newline)%string; ("eNorTk0uSi0BAAjRAoc=" ++ newline)%string],
      ("eNpLTMnNzAMABgECCg==" ++ newline)%string, ("eNorTk0uSi0BAAjRAoc=" ++ newline)%string.
    repeat split; vm_compute; reflexivity.
Defined.

(* ================================================================== *)
(** * [main]: the report it writes *)
(* ================================================================== *)

Section ReportFacts.

Lemma run_eq {A} (m : M A) (w : world) :
  run m w = (fst (m (log w)), set_log (snd (m (log w))) w).
Proof. unfold run. now destruct (m (log w)). Qed.

Lemma in_wf_dict_get (k : string) (v : json) (d : pydict) :
  wf_dict d -> In (k, v) d -> dict_get k d = Some v.
Proof.
  unfold wf_dict. induction d as [|[k' v'] d IH]; intros Hwf Hin; [inversion Hin|].
  cbn [dict_keys map fst] in Hwf. inversion Hwf as [|? ? Hnotin Hwf']; subst.
  cbn [dict_get]. destruct Hin as [[= -> ->]|Hin].
  - now rewrite String.eqb_refl.
  - destruct (String.eqb_spec k k') as [->|_]; [|now apply IH].
    exfalso. apply Hnotin. apply (in_map fst) in Hin. exact Hin.
Qed.

Lemma text_record_is_record (interface : json) :
  is_text_record interface = true -> is_interface_record interface = true.
Proof.
  unfold is_text_record, is_interface_record. destruct interface; auto.
  destruct (dict_get "ifname" m) as [[]|]; auto.
  destruct (dict_get "ip-address" m) as [[]|]; auto.
Qed.

Lemma record_all_texts (pairs : list (string * json)) :
  forallb is_str (map snd pairs) = true ->
  forallb is_str (dict_values (record_all pairs [])) = true.
Proof.
  intros H. rewrite forallb_forall in *. intros v Hv.
  unfold dict_values in Hv. apply in_map_iff in Hv as ([n a] & <- & Hin).
  apply in_record_all in Hin as [Hin|[]]. apply H. now apply (in_map snd) in Hin.
Qed.

(** The records [format_device_data] makes hold, under each key, the
    field of the raw device: values [worksheet.write] takes when those
    of the raw devices are. *)
Lemma format_loop_cell_values (keys : list string) (items : list json) :
  forall acc devices,
  forallb (has_cell_values keys) items = true ->
  forallb (has_cell_values keys) (dict_values acc) = true ->
  format_loop items keys acc = Return devices ->
  forallb (has_cell_values keys) (dict_values devices) = true.
Proof.
  induction items as [|d items IH]; intros acc devices Hitems Hacc; cbn [format_loop].
  - now intros [= <-].
  - cbn [forallb] in Hitems. apply andb_true_iff in Hitems as [Hd Hrest].
    destruct d as [| | | | | |m]; try discriminate.
    destruct (py_getitem (JDict m) "system-ip") as [ip|e|]; cbn [obind]; try discriminate.
    destruct (device_data_of_spec m keys []) as (rec & -> & Hrec). cbn [obind].
    unfold dict_setitem, py_setitem.
    destruct ip; cbn [obind]; try discriminate.
    apply IH; auto.
    apply forallb_forall. intros v Hv.
    unfold dict_values in Hv. apply in_map_iff in Hv as ([k v'] & <- & Hin). cbn [snd].
    apply in_dict_set in Hin as [[_ ->]|Hin].
    + cbn [has_cell_values] in *. apply forallb_forall. intros key Hkey.
      rewrite forallb_forall in Hd. specialize (Hd key Hkey).
      unfold field_or_na at 1. rewrite Hrec.
      destruct (in_dec string_dec key keys); [exact Hd|contradiction].
    + rewrite forallb_forall in Hacc. apply Hacc. eapply dict_values_in; eauto.
Qed.

Variable requests_get : string -> string * string -> requests.get_result.
Variable auth : string * string.
Variable base : string.
Variable ignore : list string.

(** Replies made of text records give text addresses. *)
Lemma retained_texts (d : string) (pairs : list (string * json)) :
  replies_with requests_get auth base is_text_record d = true ->
  retained requests_get auth base ignore d = Return pairs ->
  forallb is_str (map snd pairs) = true.
Proof.
  unfold replies_with, retained. intros Hr.
  destruct (fetched requests_get (base ++ d) auth) as [[| | | | |items|]| |];
    try discriminate.
  cbn [py_iter obind].
  destruct (omap (classify ignore) items) as [ds|e|] eqn:E; cbn [obind]; try discriminate.
  intros [= <-]. apply forallb_forall. intros a Ha.
  apply in_map_iff in Ha as ([n a'] & <- & Hin). cbn [snd].
  apply in_somes in Hin. apply omap_return_forall2 in E.
  destruct (forall2_return_in _ _ _ _ E Hin) as (interface & Hi & Hc).
  apply classify_some_iff in Hc as (_ & _ & Haddr & _).
  rewrite forallb_forall in Hr. specialize (Hr interface Hi).
  unfold is_text_record in Hr. destruct interface as [| | | | | |m]; try discriminate.
  cbn [py_getitem] in Haddr.
  destruct (dict_get "ifname" m) as [[]|]; try discriminate.
  destruct (dict_get "ip-address" m) as [[]|]; try discriminate.
  now injection Haddr as <-.
Qed.

(** After the enricher, over text records, every device is as the
    report writers expect it. *)
Lemma enriched_after (devices devices' : pydict) (log : list logrec) :
  wf_dict devices ->
  forallb (replies_with requests_get auth base is_text_record) (dict_keys devices) = true ->
  fst (add_interface_info requests_get devices auth base ignore log) = Return devices' ->
  forallb is_enriched (dict_values devices') = true.
Proof.
  intros Hwf Hr Hrun.
  destruct (add_interface_info_returns requests_get auth base ignore devices devices' log
              Hwf Hrun) as (Hkeys & Hall).
  assert (Hwf' : wf_dict devices') by (unfold wf_dict; now rewrite Hkeys).
  apply forallb_forall. intros v Hv.
  unfold dict_values in Hv. apply in_map_iff in Hv as ([k v'] & <- & Hin). cbn [snd].
  assert (Hk : In k (dict_keys devices')) by (apply (in_map fst) in Hin; exact Hin).
  destruct (Hall k Hk) as (r & pairs & _ & Hp & Hget).
  rewrite (in_wf_dict_get _ _ _ Hwf' Hin) in Hget. injection Hget as ->.
  unfold is_enriched, interfaces_of. rewrite dict_get_set_same.
  apply record_all_texts. apply (retained_texts k); auto.
  rewrite forallb_forall in Hr. apply Hr. now rewrite <- Hkeys.
Qed.

(** The enricher sets ['interfaces'] and nothing else: the fields under
    the other keys are the ones of before. *)
Lemma cell_values_after (keys : list string) (devices devices' : pydict) (log : list logrec) :
  wf_dict devices ->
  ~ In "interfaces"%string keys ->
  forallb (has_cell_values keys) (dict_values devices) = true ->
  fst (add_interface_info requests_get devices auth base ignore log) = Return devices' ->
  forallb (has_cell_values keys) (dict_values devices') = true.
Proof.
  intros Hwf Hno Hv Hrun.
  destruct (add_interface_info_returns requests_get auth base ignore devices devices' log
              Hwf Hrun) as (Hkeys & Hall).
  assert (Hwf' : wf_dict devices') by (unfold wf_dict; now rewrite Hkeys).
  apply forallb_forall. intros v Hin.
  unfold dict_values in Hin. apply in_map_iff in Hin as ([k v'] & <- & Hin). cbn [snd].
  assert (Hk : In k (dict_keys devices')) by (apply (in_map fst) in Hin; exact Hin).
  destruct (Hall k Hk) as (r & pairs & Hr & _ & Hget).
  rewrite (in_wf_dict_get _ _ _ Hwf' Hin) in Hget. injection Hget as ->.
  rewrite forallb_forall in Hv.
  assert (Hold : has_cell_values keys (JDict r) = true).
  { apply Hv. eapply dict_values_in. apply dict_get_some_in. exact Hr. }
  cbn [has_cell_values] in *. apply forallb_forall. intros key Hkey.
  rewrite forallb_forall in Hold. specialize (Hold key Hkey).
  unfold field_or_na in *. rewrite dict_get_set_other; [exact Hold|].
  intros <-. contradiction.
Qed.

End ReportFacts.

Section WriterFacts.

Lemma can_write_open (path : string) (empty : fs.content) (w : world) :
  can_write path w = true ->
  open_w path empty w = (Return tt, set_disk (fs.update path empty (disk w)) w).
Proof.
  unfold can_write, open_w. intros H. apply andb_true_iff in H as [Hd Hj].
  apply negb_true_iff in Hd. rewrite Hd.
  destruct (fs.lookup path (disk w)) as [[]|]; auto; discriminate.
Qed.

Lemma update_same (path : string) (c : fs.content) (d : fs.files) :
  fs.lookup path d = Some c -> fs.update path c d = d.
Proof.
  induction d as [|[p c'] d IH]; [discriminate|].
  cbn [fs.lookup fs.update]. destruct (String.eqb path p).
  - now intros [= ->].
  - intros H. now rewrite IH.
Qed.

Lemma write_chunk_page (path : string) (text : list frag) (chunks : list (list frag))
  (d : fs.files) (w : world) :
  fs.lookup path d = Some (fs.Page chunks) ->
  write_chunk path text (set_disk d w)
  = (Return tt, set_disk (fs.update path (fs.Page (chunks ++ [text])) d) w).
Proof. intros H. unfold write_chunk. cbn [disk set_disk]. now rewrite H. Qed.

(** The loop of [export_to_html] on the file: the rows are appended. *)
Lemma html_rows_in_writes (path : string) (keys : list string) (devices : pydict) :
  forall (rows chunks : list (list frag)) (d : fs.files) (w : world),
  html_rows keys devices = Return rows ->
  fs.lookup path d = Some (fs.Page chunks) ->
  html_rows_in path keys devices (set_disk d w)
  = (Return tt, set_disk (fs.update path (fs.Page (chunks ++ rows)) d) w).
Proof.
  induction devices as [|[device data] devices IH]; intros rows chunks d w Hrows Hpage.
  - injection Hrows as <-. cbn [html_rows_in]. unfold wret.
    now rewrite app_nil_r, (update_same _ _ _ Hpage).
  - cbn [html_rows html_rows_in] in *. unfold wbind at 1, wlift at 1.
    destruct (py_get data "interfaces" JNull) as [interfaces|e|]; cbn [obind] in Hrows;
      try discriminate.
    destruct (py_truthy interfaces).
    + destruct (html_row keys data) as [row|e|]; cbn [obind] in Hrows; try discriminate.
      destruct (html_rows keys devices) as [more|e|] eqn:Hmore; cbn [obind] in Hrows;
        try discriminate.
      injection Hrows as <-.
      unfold wbind at 1 2, wlift at 1. rewrite (write_chunk_page _ _ _ _ _ Hpage).
      rewrite (IH more (chunks ++ [row]) _ w eq_refl (lookup_update_same _ _ _)).
      now rewrite update_update, <- app_assoc.
    + unfold wbind at 1, wret at 1. now apply IH.
Qed.

(** [export_to_html] on the file: what the page holds in the end is the
    list of the texts [export_to_html] writes. *)
Lemma export_to_html_in_writes (devices : pydict) (output_file : string)
  (keys : list string) (chunks : list (list frag)) (w : world) :
  can_write (output_file ++ ".html") w = true ->
  export_to_html devices keys = Return chunks ->
  export_to_html_in devices output_file keys w
  = (Return tt,
     set_disk (fs.update (output_file ++ ".html") (fs.Page chunks) (disk w)) w).
Proof.
  intros Hw Hc. unfold export_to_html in Hc.
  destruct (html_rows keys devices) as [rows|e|] eqn:Hrows; cbn [obind] in Hc;
    try discriminate.
  injection Hc as <-. unfold export_to_html_in.
  set (path := (output_file ++ ".html")%string) in *.
  set (header := [Lit tab; Lit tab; Lit "<tr>"] ++ html_header_columns keys ++ [Lit cr]).
  rewrite (wbind_return _ _ _ _ _ (can_write_open path (fs.Page []) w Hw)).
  rewrite (wbind_return _ _ _ _ _
             (write_chunk_page path html_head [] _ w (lookup_update_same _ _ _))).
  rewrite update_update.
  rewrite (wbind_return _ _ _ _ _
             (write_chunk_page path header _ _ w (lookup_update_same _ _ _))).
  rewrite update_update.
  rewrite (wbind_return _ _ _ _ _
             (html_rows_in_writes path keys devices rows _ _ w Hrows
                (lookup_update_same _ _ _))).
  rewrite update_update.
  rewrite (write_chunk_page path html_tail _ _ w (lookup_update_same _ _ _)).
  rewrite update_update. subst header. cbn [app]. rewrite <- ?app_assoc. reflexivity.
Qed.

Lemma export_to_excel_in_writes (devices : pydict) (output_file : string)
  (keys : list string) (cells : list xlsxwriter.write) (w : world) :
  can_write (output_file ++ ".xlsx") w = true ->
  export_to_excel devices keys = Return cells ->
  export_to_excel_in devices output_file keys w
  = (Return tt,
     set_disk (fs.update (output_file ++ ".xlsx") (fs.Book cells) (disk w)) w).
Proof.
  intros Hw Hc. unfold export_to_excel_in, wbind, wlift, save_book. rewrite Hc.
  unfold can_write in Hw. apply andb_true_iff in Hw as [Hd Hj].
  apply negb_true_iff in Hd. rewrite Hd.
  destruct (fs.lookup (output_file ++ ".xlsx") (disk w)) as [[]|]; auto; discriminate.
Qed.

Lemma output_paths_differ (output_file : string) :
  (output_file ++ ".xlsx")%string <> (output_file ++ ".html")%string.
Proof.
  induction output_file as [|c s IH]; simpl; [discriminate|].
  intros [= H]. auto.
Qed.

End WriterFacts.

Section ReportRuns.

Variable requests_get : string -> string * string -> requests.get_result.

(** What [fetch_raw_json] adds to the log: nothing, or one error, and
    then it returns the empty list. *)
Lemma fetch_raw_json_log (url : string) (auth : string * string) (l : list logrec) :
  snd (fetch_raw_json requests_get url auth l) = l \/
  (exists e, snd (fetch_raw_json requests_get url auth l)
             = l ++ [(ERROR, [Lit "HTTP request failed: "; FmtExn e])]) /\
  fst (fetch_raw_json requests_get url auth l) = Return (JList []).
Proof.
  unfold fetch_raw_json, try_except, mbind, lift, logging_error, mret,
    requests.raise_for_status, requests.json_of.
  destruct (requests_get url auth) as [e|r]; cbn [obind].
  - destruct (is_RequestException e);
      [right; split; [eexists; reflexivity|reflexivity]|now left].
  - destruct ((400 <=? requests.status_code r) && (requests.status_code r <? 600)).
    + right. cbn [is_RequestException]. split; [eexists; reflexivity|reflexivity].
    + destruct (requests.body r) as [v|e].
      * left. destruct v as [| | | | | |m]; cbn [py_get is_RequestException fst snd];
          try reflexivity.
        destruct (dict_get "data" m); reflexivity.
      * cbn [obind]. destruct (is_RequestException e);
          [right; split; [eexists; reflexivity|reflexivity]|now left].
Qed.

Lemma replies_with_weaken (auth : string * string) (base : string)
  (check check' : json -> bool) (d : string) :
  (forall v, check v = true -> check' v = true) ->
  replies_with requests_get auth base check d = true ->
  replies_with requests_get auth base check' d = true.
Proof.
  intros Himp. unfold replies_with.
  destruct (fetched requests_get (base ++ d) auth) as [[| | | | |items|]| |]; auto.
  rewrite !forallb_forall. auto.
Qed.

End ReportRuns.

Section ReportSteps.

Variable requests_get : string -> string * string -> requests.get_result.
Variable args : Namespace.
Variable keys : list string.
Variable auth : string * string.

(** The first steps of the report: the devices are fetched and
    counted. *)
Lemma make_report_fetched (items : list json) (w : world) :
  fetched requests_get (device_query_url args) auth = Return (JList items) ->
  exists errors,
    (errors = [] \/
     (exists e, errors = [(ERROR, [Lit "HTTP request failed: "; FmtExn e])]) /\ items = []) /\
    make_report requests_get args keys auth w
    = (let w1 := set_log (log w ++ errors
                            ++ [fetched_record (Z.of_nat (List.length items))]) w in
       match items with
       | [] => (Return tt, w1)
       | _ =>
           wbind (wlift (format_device_data (JList items) keys))
                 (fun devices =>
                    devices <~~ run (add_interface_info requests_get devices auth
                                       (interface_query_base_url args) (ignore_list args)) ;;
                    export_to_excel_in devices (output_file args) keys ~~;
                    export_to_html_in devices (output_file args) keys) w1
       end).
Proof.
  intros Hf.
  pose proof (fetch_raw_json_computes requests_get auth (device_query_url args) (log w))
    as Hfst.
  rewrite Hf in Hfst.
  destruct (fetch_raw_json_log requests_get (device_query_url args) auth (log w))
    as [Hlog|((e & Hlog) & Hnone)].
  - exists []. split; [now left|].
    unfold make_report. fold (device_query_url args). fold (interface_query_base_url args).
    unfold wbind at 1. rewrite run_eq, Hfst, Hlog.
    unfold wbind at 1, wlift at 1. cbn [py_len].
    unfold wbind at 1. rewrite run_eq. unfold logging_info. cbn [fst snd log set_log].
    cbn [app]. unfold fetched_record.
    destruct items; reflexivity.
  - rewrite Hfst in Hnone. injection Hnone as ->.
    exists [(ERROR, [Lit "HTTP request failed: "; FmtExn e])]. split; [right; eauto|].
    unfold make_report. fold (device_query_url args). fold (interface_query_base_url args).
    unfold wbind at 1. rewrite run_eq, Hfst, Hlog.
    unfold wbind at 1, wlift at 1. cbn [py_len].
    unfold wbind at 1. rewrite run_eq. unfold logging_info. cbn [fst snd log set_log].
    unfold fetched_record. cbn [py_truthy List.length]. unfold wret, set_log.
    cbn [log disk denied logger_level handlers]. now rewrite <- app_assoc.
Qed.

End ReportSteps.

(** The report when no device is fetched. *)
Lemma make_report_no_devices
  (requests_get : string -> string * string -> requests.get_result)
  (args : Namespace) (keys : list string) (auth : string * string) (w : world) :
  fetched requests_get (device_query_url args) auth = Return (JList []) ->
  exists errors,
    (errors = [] \/ exists e, errors = [(ERROR, [Lit "HTTP request failed: "; FmtExn e])]) /\
    make_report requests_get args keys auth w
    = (Return tt, set_log (log w ++ errors ++ [fetched_record 0]) w).
Proof.
  intros Hf.
  destruct (make_report_fetched requests_get args keys auth [] w Hf) as (errors & He & Hrun).
  exists errors. split; [|exact Hrun].
  destruct He as [->|(He & _)]; auto.
Qed.

(** The report when a raw device has no ['system-ip']. *)
Lemma make_report_bad_device
  (requests_get : string -> string * string -> requests.get_result)
  (args : Namespace) (keys : list string) (auth : string * string) (w : world)
  (pre post : list json) (m : pydict) :
  fetched requests_get (device_query_url args) auth
    = Return (JList (pre ++ JDict m :: post)) ->
  forallb is_raw_device pre = true ->
  dict_get "system-ip" m = None ->
  make_report requests_get args keys auth w
  = (Raise (KeyError "system-ip"),
     set_log (log w ++ [fetched_record (Z.of_nat (List.length (pre ++ JDict m :: post)))]) w).
Proof.
  intros Hf Hpre Hnone.
  destruct (make_report_fetched requests_get args keys auth _ w Hf) as (errors & He & Hrun).
  assert (errors = []) as ->.
  { destruct He as [->|(_ & Hnil)]; auto. destruct pre; discriminate. }
  rewrite Hrun. cbn zeta.
  pose proof (format_device_data_no_system_ip keys pre post m Hpre Hnone) as Hkey.
  destruct pre as [|item pre]; cbn [app] in *; unfold wbind, wlift; now rewrite Hkey.
Qed.

(** The report when every step goes well. *)
Lemma make_report_written
  (requests_get : string -> string * string -> requests.get_result)
  (args : Namespace) (keys : list string) (auth : string * string) (w : world)
  (items : list json) :
  fetched requests_get (device_query_url args) auth = Return (JList items) ->
  items <> [] ->
  forallb is_raw_device items = true ->
  (forall item, In item items ->
     replies_with requests_get auth (interface_query_base_url args) is_text_record
       (system_ip_of item) = true) ->
  ~ In "interfaces"%string keys ->
  forallb (has_cell_values keys) items = true ->
  can_write (output_file args ++ ".xlsx") w = true ->
  can_write (output_file args ++ ".html") w = true ->
  exists devices devices' cells chunks l,
    format_device_data (JList items) keys = Return devices /\
    add_interface_info requests_get devices auth (interface_query_base_url args)
      (ignore_list args) (log w ++ [fetched_record (Z.of_nat (List.length items))])
    = (Return devices', l) /\
    export_to_excel devices' keys = Return cells /\
    export_to_html devices' keys = Return chunks /\
    make_report requests_get args keys auth w
    = (Return tt,
       set_log l
         (set_disk (fs.update (output_file args ++ ".html") (fs.Page chunks)
                      (fs.update (output_file args ++ ".xlsx") (fs.Book cells) (disk w)))
                   w)).
Proof.
  intros Hf Hsome Hraw Hreplies Hno Hvalues Hxlsx Hhtml.
  destruct (make_report_fetched requests_get args keys auth items w Hf)
    as (errors & He & Hrun).
  assert (errors = []) as ->.
  { destruct He as [->|(_ & Hnil)]; auto. contradiction. }
  cbn [app] in Hrun.
  set (l0 := log w ++ [fetched_record (Z.of_nat (List.length items))]) in *.
  (* the devices, formatted *)
  destruct (format_loop_total keys items [] Hraw) as (devices & Hformat & _ & Hkeys & _).
  assert (Hformat' : format_device_data (JList items) keys = Return devices) by exact Hformat.
  destruct (format_loop_well_formed keys items [] devices) as (Hwf & Hdicts);
    [constructor|reflexivity|exact Hformat|].
  assert (Htexts : forallb (replies_with requests_get auth (interface_query_base_url args)
                              is_text_record) (dict_keys devices) = true).
  { apply forallb_forall. intros ip Hip. apply Hkeys in Hip as [[]|Hip].
    apply existsb_exists in Hip as (item & Hitem & Hhas).
    rewrite <- (Hreplies item Hitem). f_equal.
    destruct item as [| | | | | |m]; try discriminate.
    apply has_system_ip_eq in Hhas. unfold system_ip_of. now rewrite Hhas. }
  (* the interfaces, added *)
  destruct (add_interface_info_total requests_get auth (interface_query_base_url args)
              (ignore_list args) devices l0 Hdicts) as (devices' & l & Hadd).
  { apply forallb_forall. intros d Hd. rewrite forallb_forall in Htexts.
    apply (replies_with_weaken _ _ _ is_text_record); auto.
    apply text_record_is_record. }
  assert (Henriched : forallb is_enriched (dict_values devices') = true).
  { apply (enriched_after requests_get auth (interface_query_base_url args)
             (ignore_list args) devices devices' l0 Hwf Htexts).
    now rewrite Hadd. }
  assert (Hvalues' : forallb (has_cell_values keys) (dict_values devices') = true).
  { apply (cell_values_after requests_get auth (interface_query_base_url args)
             (ignore_list args) keys devices devices' l0 Hwf Hno).
    - apply (format_loop_cell_values keys items [] devices Hvalues eq_refl Hformat).
    - now rewrite Hadd. }
  (* the two files *)
  pose proof (html_rows_spec keys devices' Henriched Hvalues') as Hrows.
  assert (Hcells : export_to_excel devices' keys
                   = Return (xlsxwriter.write_row 0 0 keys xlsxwriter.header_format
                             ++ xlsxwriter.write_row 0 (Z.of_nat (List.length keys))
                                  ["interface-name"; "interface-IP"]
                                  xlsxwriter.header_format
                             ++ flat_map (fun nd => excel_cells_of keys (fst nd) (snd (snd nd)))
                                         (enumerate devices' 1))).
  { unfold export_to_excel. rewrite (excel_rows_spec keys devices' 1 Henriched Hvalues').
    cbn [obind]. now rewrite <- app_assoc. }
  assert (Hchunks : export_to_html devices' keys
                    = Return ([html_head;
                               [Lit tab; Lit tab; Lit "<tr>"] ++ html_header_columns keys
                                 ++ [Lit cr]] ++ html_rows_of keys devices' ++ [html_tail])).
  { unfold export_to_html. now rewrite Hrows. }
  eexists devices, devices', _, _, l.
  split; [exact Hformat'|]. split; [exact Hadd|].
  split; [exact Hcells|]. split; [exact Hchunks|].
  rewrite Hrun. cbn zeta.
  destruct items as [|item items]; [contradiction|].
  unfold wbind at 1, wlift at 1. rewrite Hformat'.
  unfold wbind at 1. rewrite run_eq. cbn [log set_log]. fold l0. rewrite Hadd. cbn [fst snd].
  unfold wbind at 1.
  assert (Hhtml' : forall cells,
            can_write (output_file args ++ ".html")
              (set_disk (fs.update (output_file args ++ ".xlsx") (fs.Book cells)
                           (disk (set_log l (set_log l0 w))))
                        (set_log l (set_log l0 w))) = true).
  { intros cells. unfold can_write in *. cbn [disk set_disk set_log denied].
    rewrite lookup_update_other by apply output_paths_differ. exact Hhtml. }
  rewrite (export_to_excel_in_writes devices' (output_file args) keys _
             (set_log l (set_log l0 w)) Hxlsx Hcells).
  rewrite (export_to_html_in_writes devices' (output_file args) keys _ _
             (Hhtml' _) Hchunks).
  reflexivity.
Qed.

(** X22.  Without devices there is no report.  [main], run with a password
    file that holds the credentials, logs that it fetched 0 devices and
    returns when the query for the devices fails or gives an empty
    list: after the error [fetch_raw_json] logged, if any, nothing but
    that record is logged, no interface is asked for, and no file other
    than the log is written. *)
Theorem no_devices_no_report
  (requests_get : string -> string * string -> requests.get_result)
  (zlib_compress : string -> Z -> string)
  (argv : list string) (args : Namespace) (typed auth : string * string) (w : world) :
  parse_arguments argv = argparse.Parsed args ->
  is_denied (log_file args) w = false ->
  password_file args <> log_file args ->
  password_file_holds (password_file args) auth w ->
  fetched requests_get (device_query_url args) auth = Return (JList []) ->
  exists errors,
    (errors = [] \/ exists e, errors = [(ERROR, [Lit "HTTP request failed: "; FmtExn e])]) /\
    main requests_get zlib_compress argv typed w
    = (Finished (Return tt),
       set_log (log w ++ errors ++ [fetched_record 0]) (logging_to (log_file args) w)).
Proof.
  intros Hargs Hlog Hne Hholds Hf.
  rewrite (main_with_password_file requests_get zlib_compress argv args typed auth w
             Hargs Hlog Hne Hholds).
  destruct (make_report_no_devices requests_get args main_keys auth
              (logging_to (log_file args) w) Hf) as (errors & He & Hrun).
  exists errors. split; [exact He|]. rewrite Hrun. reflexivity.
Qed.

Lemma no_devices_no_report_when_the_controller_is_down :
  exists errors,
    (errors = [] \/ exists e, errors = [(ERROR, [Lit "HTTP request failed: "; FmtExn e])]) /\
    main Run.down Scenario.zlib_compress ["-a"; "vmanage"] ("root", "other") Run.later
    = (Finished (Return tt),
       set_log (log Run.later ++ errors ++ [fetched_record 0])
         (logging_to (log_file Run.args) Run.later)).
Proof.
  apply (no_devices_no_report Run.down Scenario.zlib_compress ["-a"; "vmanage"]%string
           Run.args ("root", "other") Scenario.auth Run.later).
  - vm_compute. reflexivity.
  - reflexivity.
  - discriminate.
  - split; [reflexivity|].
    exists (("eNpLTMnNzAMABgECCg==" ++ newline) ++ ("eNorTk0uSi0BAAjRAoc=" ++ newline))%string,
      [("eNpLTMnNzAMABgECCg==" ++ newline)%string; ("eNorTk0uSi0BAAjRAoc=" ++ newline)%string],
      ("eNpLTMnNzAMABgECCg==" ++ newline)%string, ("eNorTk0uSi0BAAjRAoc=" ++ newline)%string.
    repeat split; vm_compute; reflexivity.
  - vm_compute. reflexivity.
Defined.

(** X23.  The report stops at a raw device without ['system-ip'].  [main],
    run with a password file that holds the credentials, raises
    [KeyError('system-ip')] from [format_device_data] when such a device
    follows devices that carry one: it has logged the number of devices
    fetched, and no interface is asked for and no output file written,
    not even for the devices before. *)
Theorem a_bad_device_stops_the_report
  (requests_get : string -> string * string -> requests.get_result)
  (zlib_compress : string -> Z -> string)
  (argv : list string) (args : Namespace) (typed auth : string * string) (w : world)
  (pre post : list json) (m : pydict) :
  parse_arguments argv = argparse.Parsed args ->
  is_denied (log_file args) w = false ->
  password_file args <> log_file args ->
  password_file_holds (password_file args) auth w ->
  fetched requests_get (device_query_url args) auth
    = Return (JList (pre ++ JDict m :: post)) ->
  forallb is_raw_device pre = true ->
  dict_get "system-ip" m = None ->
  main requests_get zlib_compress argv typed w
  = (Finished (Raise (KeyError "system-ip")),
     set_log (log w ++ [fetched_record (Z.of_nat (List.length (pre ++ JDict m :: post)))])
       (logging_to (log_file args) w)).
Proof.
  intros Hargs Hlog Hne Hholds Hf Hpre Hnone.
  rewrite (main_with_password_file requests_get zlib_compress argv args typed auth w
             Hargs Hlog Hne Hholds).
  rewrite (make_report_bad_device requests_get args main_keys auth
             (logging_to (log_file args) w) pre post m Hf Hpre Hnone).
  reflexivity.
Qed.

Lemma a_bad_device_stops_the_report_of_the_careless_controller :
  main Run.careless Scenario.zlib_compress ["-a"; "vmanage"] ("root", "other") Run.later
  = (Finished (Raise (KeyError "system-ip")),
     set_log (log Run.later
              ++ [fetched_record
                    (Z.of_nat (List.length ([Run.raw_device]
                                            ++ JDict [("host-name", JStr "r2")] :: [])))])
       (logging_to (log_file Run.args) Run.later)).
Proof.
  apply (a_bad_device_stops_the_report Run.careless Scenario.zlib_compress
           ["-a"; "vmanage"]%string Run.args ("root", "other") Scenario.auth Run.later
           [Run.raw_device] [] [("host-name", JStr "r2")]).
  - vm_compute. reflexivity.
  - reflexivity.
  - discriminate.
  - split; [reflexivity|].
    exists (("eNpLTMnNzAMABgECCg==" ++ newline) ++ ("eNorTk0uSi0BAAjRAoc=" ++ newline))%string,
      [("eNpLTMnNzAMABgECCg==" ++ newline)%string; ("eNorTk0uSi0BAAjRAoc=" ++ newline)%string],
      ("eNpLTMnNzAMABgECCg==" ++ newline)%string, ("eNorTk0uSi0BAAjRAoc=" ++ newline)%string.
    repeat split; vm_compute; reflexivity.
  - vm_compute. reflexivity.
  - reflexivity.
  - reflexivity.
Defined.

(** X24.  A run that goes well, from the command line to the two files.  The
    arguments parse, the log file opens, the password file holds the
    credentials; the controller lists devices that each carry a
    ['system-ip'] text, and answers the interface query of each with
    records whose name and address are texts; the fields of the devices
    under the keys of [main] are values [worksheet.write] takes ([None],
    a [bool], a text, a finite number); the two output files can be
    written.  Then [main] returns, and leaves the workbook and the
    page that [export_to_excel] and [export_to_html] produce for the
    devices [format_device_data] made and [add_interface_info] filled;
    the log holds the count of the devices, then what
    [add_interface_info] logged. *)
Theorem the_report_is_written
  (requests_get : string -> string * string -> requests.get_result)
  (zlib_compress : string -> Z -> string)
  (argv : list string) (args : Namespace) (typed auth : string * string) (w : world)
  (items : list json) :
  parse_arguments argv = argparse.Parsed args ->
  is_denied (log_file args) w = false ->
  password_file args <> log_file args ->
  password_file_holds (password_file args) auth w ->
  fetched requests_get (device_query_url args) auth = Return (JList items) ->
  items <> [] ->
  forallb is_raw_device items = true ->
  (forall item, In item items ->
     replies_with requests_get auth (interface_query_base_url args) is_text_record
       (system_ip_of item) = true) ->
  forallb (has_cell_values main_keys) items = true ->
  can_write (output_file args ++ ".xlsx") (logging_to (log_file args) w) = true ->
  can_write (output_file args ++ ".html") (logging_to (log_file args) w) = true ->
  exists devices devices' cells chunks l,
    format_device_data (JList items) main_keys = Return devices /\
    add_interface_info requests_get devices auth (interface_query_base_url args)
      (ignore_list args) (log w ++ [fetched_record (Z.of_nat (List.length items))])
    = (Return devices', l) /\
    export_to_excel devices' main_keys = Return cells /\
    export_to_html devices' main_keys = Return chunks /\
    main requests_get zlib_compress argv typed w
    = (Finished (Return tt),
       set_log l
         (set_disk (fs.update (output_file args ++ ".html") (fs.Page chunks)
                      (fs.update (output_file args ++ ".xlsx") (fs.Book cells)
                         (disk (logging_to (log_file args) w))))
                   (logging_to (log_file args) w))).
Proof.
  intros Hargs Hlog Hne Hholds Hf Hitems Hraw Hreplies Hvalues Hxlsx Hhtml.
  rewrite (main_with_password_file requests_get zlib_compress argv args typed auth w
             Hargs Hlog Hne Hholds).
  assert (Hno : ~ In "interfaces"%string main_keys).
  { unfold main_keys. simpl. intros [H|[H|[H|[H|[H|[]]]]]]; discriminate. }
  destruct (make_report_written requests_get args main_keys auth
              (logging_to (log_file args) w) items Hf Hitems Hraw Hreplies Hno Hvalues
              Hxlsx Hhtml)
    as (devices & devices' & cells & chunks & l & Hformat & Henrich & Hcells & Hchunks & Hrun).
  exists devices, devices', cells, chunks, l.
  repeat split; try assumption. rewrite Hrun. reflexivity.
Qed.

Lemma the_report_is_written_for_one_device :
  exists devices devices' cells chunks l,
    format_device_data (JList [Run.raw_device]) main_keys = Return devices /\
    add_interface_info Run.controller devices Scenario.auth
      (interface_query_base_url Run.args) (ignore_list Run.args)
      (log Run.later ++ [fetched_record (Z.of_nat (List.length [Run.raw_device]))])
    = (Return devices', l) /\
    export_to_excel devices' main_keys = Return cells /\
    export_to_html devices' main_keys = Return chunks /\
    main Run.controller Scenario.zlib_compress ["-a"; "vmanage"] ("root", "other") Run.later
    = (Finished (Return tt),
       set_log l
         (set_disk (fs.update (output_file Run.args ++ ".html") (fs.Page chunks)
                      (fs.update (output_file Run.args ++ ".xlsx") (fs.Book cells)
                         (disk (logging_to (log_file Run.args) Run.later))))
                   (logging_to (log_file Run.args) Run.later))).
Proof.
  apply (the_report_is_written Run.controller Scenario.zlib_compress
           ["-a"; "vmanage"]%string Run.args ("root", "other") Scenario.auth Run.later
           [Run.raw_device]).
  - vm_compute. reflexivity.
  - reflexivity.
  - discriminate.
  - split; [reflexivity|].
    exists (("eNpLTMnNzAMABgECCg==" ++ newline) ++ ("eNorTk0uSi0BAAjRAoc=" ++ newline))%string,
      [("eNpLTMnNzAMABgECCg==" ++ newline)%string; ("eNorTk0uSi0BAAjRAoc=" ++ newline)%string],
      ("eNpLTMnNzAMABgECCg==" ++ newline)%string, ("eNorTk0uSi0BAAjRAoc=" ++ newline)%string.
    repeat split; vm_compute; reflexivity.
  - vm_compute. reflexivity.
  - discriminate.
  - reflexivity.
  - intros item [<-|[]]. vm_compute. reflexivity.
  - reflexivity.
  - reflexivity.
  - reflexivity.
Defined.

(* ================================================================== *)
(** * [parse_arguments]: command lines made of options and values *)
(* ================================================================== *)

Section ArgumentFacts.

Import argparse.

Lemma find_action_listed (s : string) (a : action) :
  find_action s option_string_actions = Some a ->
  In s (map fst option_string_actions).
Proof.
  unfold option_string_actions. cbn [find_action map fst].
  repeat match goal with
         | |- context [String.eqb s ?t] =>
             destruct (String.eqb_spec s t) as [->|_]; [intros _; simpl; tauto|]
         end.
  discriminate.
Qed.

(** An option of the parser, as [_parse_optional] reads it. *)
Lemma parse_optional_option (s : string) (a : action) :
  find_action s option_string_actions = Some a ->
  String.eqb s "--" = false /\
  parse_optional s = Optional (Tuple (Some a) s None).
Proof.
  intros Hfind. pose proof (find_action_listed s a Hfind) as Hin.
  cbn [map fst option_string_actions] in Hin.
  repeat (destruct Hin as [<-|Hin];
          [split; [reflexivity|]; unfold parse_optional; now rewrite Hfind|]).
  destruct Hin.
Qed.

(** A value, as [_parse_optional] reads it. *)
Lemma parse_optional_value (s : string) :
  is_value s = true ->
  String.eqb s "--" = false /\ parse_optional s = NotOptional.
Proof.
  unfold is_value. destruct s as [|c s]; [split; reflexivity|].
  cbn [String.prefix]. destruct (ascii_dec "-" c) as [<-|Hne].
  - destruct s; discriminate.
  - intros _. split.
    + apply String.eqb_neq. intros [= -> _]. congruence.
    + unfold parse_optional.
      destruct (Ascii.eqb_spec c "-"%char); [congruence|reflexivity].
Qed.

Lemma pattern_values (values : list string) (rest : list string)
  (ks : list (kind * string)) :
  forallb is_value values = true ->
  pattern rest = Pattern ks ->
  pattern (values ++ rest) = Pattern (map (fun v => (Arg, v)) values ++ ks).
Proof.
  intros Hv Hrest. induction values as [|v values IH]; [exact Hrest|].
  cbn [forallb] in Hv. apply andb_true_iff in Hv as [Hv Hvs].
  destruct (parse_optional_value v Hv) as [Hdash Hparse].
  cbn [app pattern map]. rewrite Hdash, Hparse, (IH Hvs). reflexivity.
Qed.

(** The pattern of a command line made of settings. *)
Lemma pattern_command_line (settings : list setting) :
  forallb well_formed_setting settings = true ->
  pattern (command_line settings) = Pattern (flat_map setting_pattern settings).
Proof.
  induction settings as [|[os values] settings IH]; intros Hwf; [reflexivity|].
  cbn [forallb] in Hwf. apply andb_true_iff in Hwf as [Hst Hrest].
  unfold well_formed_setting in Hst. cbn [fst snd] in Hst.
  apply andb_true_iff in Hst as [Hvalues Hopt].
  destruct (find_action os option_string_actions) as [a|] eqn:Hfind; [|discriminate].
  destruct (parse_optional_option os a Hfind) as [Hdash Hparse].
  cbn [command_line flat_map fst snd app pattern].
  rewrite Hdash, Hparse.
  fold (command_line settings).
  rewrite (pattern_values values _ _ Hvalues (IH Hrest)).
  unfold setting_pattern. cbn [fst snd app]. now rewrite Hfind.
Qed.

Lemma leading_arguments_values (values : list string) (ks : list (kind * string)) :
  match ks with (Arg, _) :: _ => False | _ => True end ->
  leading_arguments (map (fun v => (Arg, v)) values ++ ks) = (values, ks).
Proof.
  intros Hks. induction values as [|v values IH]; cbn [map app leading_arguments].
  - destruct ks as [|[[t| |] s] ks]; try reflexivity. contradiction.
  - now rewrite IH.
Qed.

Lemma flat_map_setting_pattern_head (settings : list setting) :
  match flat_map setting_pattern settings with (Arg, _) :: _ => False | _ => True end.
Proof. destruct settings as [|st settings]; exact I. Qed.

(** The second pass over the pattern of settings. *)
Lemma consume_settings (settings : list setting) :
  forall (fuel : nat) (ns : namespace),
  forallb well_formed_setting settings = true ->
  (List.length (flat_map setting_pattern settings) < fuel)%nat ->
  consume fuel (flat_map setting_pattern settings) ns false
  = finish (fold_left apply_setting settings ns).
Proof.
  induction settings as [|[os values] settings IH]; intros fuel ns Hwf Hfuel.
  - destruct fuel as [|fuel]; [inversion Hfuel|]. reflexivity.
  - cbn [forallb] in Hwf. apply andb_true_iff in Hwf as [Hst Hrest].
    unfold well_formed_setting in Hst. cbn [fst snd] in Hst.
    apply andb_true_iff in Hst as [Hvalues Hopt].
    destruct fuel as [|fuel]; [inversion Hfuel|].
    cbn [flat_map fold_left]. unfold setting_pattern at 1, apply_setting at 2.
    cbn [fst snd app consume tuple_action explicit_arg].
    cbn [flat_map] in Hfuel. rewrite length_app in Hfuel.
    unfold setting_pattern at 1 in Hfuel. cbn [fst snd List.length] in Hfuel.
    rewrite length_map in Hfuel.
    pose proof (flat_map_setting_pattern_head settings) as Hhead.
    destruct (find_action os option_string_actions) as [a|]; [|discriminate].
    destruct a; try discriminate; cbn [nargs_of].
    + destruct values as [|v [|v' values]]; try discriminate.
      cbn [map app hd]. apply IH; auto. cbn [List.length] in Hfuel. lia.
    + destruct values as [|v [|v' values]]; try discriminate.
      cbn [map app hd]. apply IH; auto. cbn [List.length] in Hfuel. lia.
    + destruct values as [|v [|v' values]]; try discriminate.
      cbn [map app hd]. apply IH; auto. cbn [List.length] in Hfuel. lia.
    + destruct values as [|v [|v' values]]; try discriminate.
      cbn [map app hd]. apply IH; auto. cbn [List.length] in Hfuel. lia.
    + destruct values as [|v values]; [discriminate|].
      rewrite (leading_arguments_values (v :: values) _ Hhead).
      apply IH; auto. lia.
Qed.

(** [parse_args] on a command line of settings. *)
Lemma parse_args_settings (settings : list setting) :
  forallb well_formed_setting settings = true ->
  parse_args (command_line settings) = finish (fold_left apply_setting settings defaults).
Proof.
  intros Hwf. unfold parse_args.
  rewrite (pattern_command_line settings Hwf).
  apply consume_settings; auto.
Qed.

(** [parse_args] on a command line of values. *)
Lemma parse_args_values (argv : list string) :
  forallb is_value argv = true ->
  parse_args argv = Exit 2.
Proof.
  intros Hv. unfold parse_args.
  pose proof (pattern_values argv [] [] Hv eq_refl) as Hp.
  rewrite !app_nil_r in Hp. rewrite Hp.
  assert (G : forall (vs : list string) fuel extras,
            (List.length vs < fuel)%nat ->
            consume fuel (map (fun v => (Arg, v)) vs) defaults extras = Exit 2).
  { clear. induction vs as [|v vs IH]; intros fuel extras Hfuel;
      (destruct fuel as [|fuel]; [inversion Hfuel|]).
    - reflexivity.
    - cbn [map consume]. apply IH. cbn [List.length] in Hfuel. lia. }
  apply G. rewrite length_map. lia.
Qed.

(** The address stays as it is under the settings of the other options. *)
Lemma fold_apply_setting_address (settings : list setting) :
  forall ns,
  forallb (fun st => negb (gives_the_address st)) settings = true ->
  ns_vmanage_address (fold_left apply_setting settings ns) = ns_vmanage_address ns.
Proof.
  induction settings as [|st settings IH]; intros ns Hno; [reflexivity|].
  cbn [forallb] in Hno. apply andb_true_iff in Hno as [Hst Hno].
  cbn [fold_left]. rewrite (IH _ Hno).
  unfold gives_the_address in Hst. unfold apply_setting.
  destruct (find_action (fst st) option_string_actions) as [[]|];
    try reflexivity; discriminate.
Qed.

End ArgumentFacts.

(** X1.  A command line made of options of the parser written in full, each
    followed by its values (arguments that start with no dash; one
    value, or one and more for the ignore list), is read from left to
    right.  Each option stores its values over the default or over what
    an earlier one stored; the names after [-i] replace the default
    ignore list, they do not add to it.  If none of the options gave
    the address, the parser exits with the status 2. *)
Theorem parse_arguments_of_settings (settings : list setting) :
  forallb well_formed_setting settings = true ->
  parse_arguments (command_line settings)
  = finish (fold_left apply_setting settings argparse.defaults).
Proof. apply parse_args_settings. Qed.

Lemma parse_arguments_of_three_settings :
  parse_arguments ["-i"; "ge0/1"; "ge0/2"; "--vmanage_address"; "10.1.1.1"; "-i"; "ge0/3"]
  = argparse.Parsed {| vmanage_address := "10.1.1.1";
                       password_file := "vManageCreds.txt";
                       log_file := "RetrieveCiscoPublicIP.log";
                       output_file := "CiscoPublicIPs";
                       ignore_list := ["ge0/3"%string] |}.
Proof.
  apply (parse_arguments_of_settings
           [("-i", ["ge0/1"; "ge0/2"]); ("--vmanage_address", ["10.1.1.1"]);
            ("-i", ["ge0/3"])]%string).
  reflexivity.
Defined.

(** X2.  Without an option nothing is read: a command line of values only,
    the empty one among them, makes the parser exit with the status 2,
    for the address that is required, whatever the values. *)
Theorem parse_arguments_needs_an_option (argv : list string) :
  forallb is_value argv = true ->
  parse_arguments argv = argparse.Exit 2.
Proof. apply parse_args_values. Qed.

Lemma parse_arguments_needs_an_option_not_a_bare_address :
  parse_arguments ["10.1.1.1"%string] = argparse.Exit 2.
Proof. apply (parse_arguments_needs_an_option ["10.1.1.1"%string]). reflexivity. Defined.

(** X16.  Without the address [main] does nothing.  On a command line of
    options written in full with their values, none of them ['-a'] or
    ['--vmanage_address'] (the empty command line is one), and on a
    command line of values only, [parse_arguments] leaves with the
    status 2: no file is opened or written, nothing is logged, nothing
    is asked and no request is made. *)
Theorem main_needs_the_address
  (requests_get : string -> string * string -> requests.get_result)
  (zlib_compress : string -> Z -> string)
  (argv : list string) (typed : string * string) (w : world) :
  (exists settings,
     argv = command_line settings /\
     forallb well_formed_setting settings = true /\
     forallb (fun st => negb (gives_the_address st)) settings = true) \/
  forallb is_value argv = true ->
  main requests_get zlib_compress argv typed w = (SystemExit 2, w).
Proof.
  intros H.
  assert (Hexit : parse_arguments argv = argparse.Exit 2).
  { destruct H as [(settings & -> & Hwf & Hno)|Hv].
    - unfold parse_arguments. rewrite (parse_args_settings settings Hwf).
      unfold finish. now rewrite (fold_apply_setting_address settings _ Hno).
    - now apply parse_args_values. }
  unfold main. now rewrite Hexit.
Qed.

Lemma main_needs_the_address_not_only_an_ignore_list :
  main Run.controller Scenario.zlib_compress ["-i"; "ge0/1"; "ge0/2"; "-o"; "report"]
    ("admin", "secret") Run.fresh
  = (SystemExit 2, Run.fresh).
Proof.
  apply (main_needs_the_address Run.controller Scenario.zlib_compress
           ["-i"; "ge0/1"; "ge0/2"; "-o"; "report"]%string ("admin", "secret") Run.fresh).
  left. exists [("-i", ["ge0/1"; "ge0/2"]); ("-o", ["report"])]%string.
  repeat split; reflexivity.
Defined.
